(** * AXP20x battery fuel gauge: a shallow embedding of
      drivers/power/axp20x_fuel_gauge.c

    The driver talks to the PMIC through a regmap, keeps a small cache
    ([struct axp20x_battery_power]) and notifies the power-supply core with
    [power_supply_changed].  Every driver function is embedded as a
    computation over the register map that also records what it did on the
    bus and towards the power-supply core, so that statements such as
    "no current-register write happens" or "the call ends with a
    notification" are statements about that record. *)

From Stdlib Require Import ZArith Lia String.
From stdpp Require Import base numbers list gmap strings.

Local Open Scope Z_scope.

(** ** C [int] arithmetic *)

Module Int.

Definition INT_MIN : Z := - 2147483648.
Definition INT_MAX : Z := 2147483647.

Definition in_range (z : Z) : Prop := INT_MIN <= z <= INT_MAX.

(** Two's complement wrap-around of a 32-bit [int] (the kernel is built
    with -fno-strict-overflow). *)
Definition wrap (z : Z) : Z := (z + 2147483648) mod 4294967296 - 2147483648.

Definition add (a b : Z) : Z := wrap (a + b).
Definition sub (a b : Z) : Z := wrap (a - b).
Definition mul (a b : Z) : Z := wrap (a * b).
(** C division truncates towards zero. *)
Definition div (a b : Z) : Z := wrap (Z.quot a b).
(** The conversion of an [int] to [unsigned int], as for an argument passed
    to an [unsigned int] parameter. *)
Definition unsigned (z : Z) : Z := z mod 4294967296.

End Int.

(** ** Error numbers (negated when returned) *)

Inductive errno : Type := EIO | ENXIO | EBUSY | ENODEV | EINVAL | ETIMEDOUT | EREMOTEIO.

Definition errno_code (e : errno) : Z :=
  match e with
  | EIO => 5 | ENXIO => 6 | EBUSY => 16 | ENODEV => 19
  | EINVAL => 22 | ETIMEDOUT => 110 | EREMOTEIO => 121
  end.

(** [-EINVAL] and friends. *)
Definition neg (e : errno) : Z := - errno_code e.

(** ** The register interface *)

(** What a [regmap_read] hands back: the register value, or a negative
    error number with the output variable left alone. *)
Inductive rd : Type :=
| RdOk (val : Z)
| RdErr (ret : Z).

Inductive loglevel : Type := KERN_DEBUG | KERN_INFO | KERN_WARNING | KERN_CRIT.

(** One entry per call that leaves the driver. *)
Inductive event : Type :=
| EvRead (reg : Z) (res : rd)
| EvUpdateBits (reg mask val : Z) (ret : Z)
| EvLog (lvl : loglevel) (msg : string) (irq : Z)
| EvChanged.

(** Modelled from the spec: the regmap core ([regmap_read],
    [regmap_update_bits]) is an external collaborator.  It gives synchronous
    read and read-modify-write access to 8-bit device registers, and any call
    may fail with an I/O error.  [regs] holds the register contents (absent
    addresses read as 0); [faults] lists the outcome of the coming bus calls,
    [Some e] for a call that fails with [-e], and calls past the end of the
    list succeed. *)
Record regmap : Type := Regmap {
  regs : gmap Z Z;
  faults : list (option errno)
}.

Definition next_fault (d : regmap) : option errno :=
  match faults d with
  | [] => None
  | f :: _ => f
  end.

Definition tick (d : regmap) : regmap :=
  {| regs := regs d; faults := tail (faults d) |}.

(** The 8-bit content of register [r]. *)
Definition reg8 (d : regmap) (r : Z) : Z :=
  Z.land (default 0 (regs d !! r)) 255.

(** The result of running a driver function. *)
Record outcome (A : Type) : Type := Outcome {
  value : A;
  bus : regmap;
  trace : list event
}.
Arguments Outcome {A} _ _ _.
Arguments value {A} _.
Arguments bus {A} _.
Arguments trace {A} _.

Definition M (A : Type) : Type := regmap -> outcome A.

Definition ret {A : Type} (a : A) : M A := fun d => Outcome a d [].

Definition bind {A B : Type} (m : M A) (k : A -> M B) : M B :=
  fun d =>
    match m d with
    | Outcome a d1 t1 =>
        match k a d1 with
        | Outcome b d2 t2 => Outcome b d2 (t1 ++ t2)
        end
    end.

Definition emit (e : event) : M unit := fun d => Outcome tt d [e].

Notation "'let*' x ':=' m 'in' k" := (bind m (fun x => k))
  (at level 10, x name, m at level 100, k at level 200).
Notation "m ';;' k" := (bind m (fun _ => k))
  (at level 100, k at level 200, right associativity).

(** Modelled from the spec: [regmap_read] is not part of the sources. *)
Definition regmap_read (reg : Z) : M rd := fun d =>
  let res := match next_fault d with
             | Some e => RdErr (neg e)
             | None => RdOk (reg8 d reg)
             end in
  Outcome res (tick d) [EvRead reg res].

(** Modelled from the spec: the register map after a bit-field
    read-modify-write that went through.  The bits under [mask] take the bits
    of [val], and the register is written only when that changes it. *)
Definition updated (d : regmap) (reg mask val : Z) : regmap :=
  let orig := reg8 d reg in
  let tmp := Z.land (Z.lor (Z.land orig (Z.lnot mask)) (Z.land val mask)) 255 in
  if tmp =? orig then tick d
  else {| regs := <[reg := tmp]> (regs d); faults := tail (faults d) |}.

(** Modelled from the spec: [regmap_update_bits] is not part of the sources.
    It is the bit-field read-modify-write of the register interface. *)
Definition regmap_update_bits (reg mask val : Z) : M Z := fun d =>
  match next_fault d with
  | Some e => Outcome (neg e) (tick d) [EvUpdateBits reg mask val (neg e)]
  | None => Outcome 0 (updated d reg mask val) [EvUpdateBits reg mask val 0]
  end.

(** ** <linux/mfd/axp20x.h> *)

Module Axp20x.

(** Modelled from the spec: the register interface has addressable 8-bit
    registers.  Their addresses are declared in the MFD header, which is not
    part of the sources; the values are those of the AXP20x register map, and
    nothing below depends on more than their being pairwise distinct, the
    low halves at [reg + 1] included. *)
Definition AXP20X_PWR_INPUT_STATUS : Z := 0x00.
Definition AXP20X_PWR_OP_MODE : Z := 0x01.
Definition AXP20X_VBUS_IPSOUT_MGMT : Z := 0x30.
Definition AXP20X_CHRG_CTRL1 : Z := 0x33.
Definition AXP20X_APS_WARN_L2 : Z := 0x3b.
Definition AXP20X_BATT_V_H : Z := 0x78.
Definition AXP20X_BATT_CHRG_I_H : Z := 0x7a.
Definition AXP20X_BATT_DISCHRG_I_H : Z := 0x7c.
Definition AXP20X_FG_RES : Z := 0xb9.

(** Modelled from the spec: [axp20x_read_variable_width] lives in the MFD
    header, which is not part of the sources.  A variable-width read
    composes two 8-bit registers, the high byte at [reg] and then the low
    bits (a nibble for 12-bit values) at [reg + 1]; a failing register read
    is returned as its negative error number. *)
Definition axp20x_read_variable_width (reg width : Z) : M Z :=
  let* hi := regmap_read reg in
  match hi with
  | RdErr err => ret err
  | RdOk reg_val =>
      let result := Z.shiftl reg_val (width - 8) in
      let* lo := regmap_read (reg + 1) in
      match lo with
      | RdErr err => ret err
      | RdOk reg_val => ret (Z.lor result (Z.land reg_val (Z.ones (width - 8))))
      end
  end.

End Axp20x.
Export Axp20x.

(** ** <linux/power_supply.h> *)

Module PowerSupply.

Inductive health_t : Type :=
| POWER_SUPPLY_HEALTH_UNKNOWN
| POWER_SUPPLY_HEALTH_GOOD
| POWER_SUPPLY_HEALTH_OVERHEAT
| POWER_SUPPLY_HEALTH_DEAD
| POWER_SUPPLY_HEALTH_COLD.

(** Modelled from the spec: the enumerators' values, as the health property
    reports them; the header that declares them is not part of the
    sources. *)
Definition health_code (h : health_t) : Z :=
  match h with
  | POWER_SUPPLY_HEALTH_UNKNOWN => 0
  | POWER_SUPPLY_HEALTH_GOOD => 1
  | POWER_SUPPLY_HEALTH_OVERHEAT => 2
  | POWER_SUPPLY_HEALTH_DEAD => 3
  | POWER_SUPPLY_HEALTH_COLD => 6
  end.

Definition health_eqb (a b : health_t) : bool := health_code a =? health_code b.

(** Modelled from the spec: status and technology enumerators of the
    telemetry interface, with the values of the header that declares them. *)
Definition POWER_SUPPLY_STATUS_CHARGING : Z := 1.
Definition POWER_SUPPLY_STATUS_DISCHARGING : Z := 2.
Definition POWER_SUPPLY_STATUS_NOT_CHARGING : Z := 3.
Definition POWER_SUPPLY_STATUS_FULL : Z := 4.

Definition POWER_SUPPLY_TECHNOLOGY_LION : Z := 2.

Inductive power_supply_property : Type :=
| POWER_SUPPLY_PROP_STATUS
| POWER_SUPPLY_PROP_HEALTH
| POWER_SUPPLY_PROP_PRESENT
| POWER_SUPPLY_PROP_ONLINE
| POWER_SUPPLY_PROP_TECHNOLOGY
| POWER_SUPPLY_PROP_VOLTAGE_MAX_DESIGN
| POWER_SUPPLY_PROP_VOLTAGE_MIN_DESIGN
| POWER_SUPPLY_PROP_VOLTAGE_NOW
| POWER_SUPPLY_PROP_CURRENT_MAX
| POWER_SUPPLY_PROP_CURRENT_NOW
| POWER_SUPPLY_PROP_POWER_NOW
| POWER_SUPPLY_PROP_CHARGE_FULL_DESIGN
| POWER_SUPPLY_PROP_CHARGE_NOW
| POWER_SUPPLY_PROP_CAPACITY
| POWER_SUPPLY_PROP_TEMP
| POWER_SUPPLY_PROP_TEMP_ALERT_MIN
| POWER_SUPPLY_PROP_TEMP_ALERT_MAX.

(** Modelled from the spec: the notification sink of the telemetry
    consumer, an external collaborator.  A call tells the power-supply core
    that the supply's properties changed. *)
Definition power_supply_changed : M unit := emit EvChanged.

Inductive irqreturn_t : Type := IRQ_NONE | IRQ_HANDLED | IRQ_WAKE_THREAD.

End PowerSupply.
Export PowerSupply.

(** ** The driver: drivers/power/axp20x_fuel_gauge.c *)

(** [struct axp20x_battery_power].  The regmap is the [regmap] threaded
    through [M]; [supply] tells whether [power->supply] has been set (it is
    NULL until the supply is registered in probe); the [monitor] work item
    plays no part in what follows. *)
Record axp20x_battery_power : Type := Power {
  supply : bool;
  health : health_t;
  capacity : Z;
  percent : Z;
  charge_user_imax : Z;
  tbatt_min : Z;
  tbatt_max : Z
}.

Definition set_health_percent (power : axp20x_battery_power) (h : health_t) (pc : Z)
  : axp20x_battery_power :=
  {| supply := supply power; health := h; capacity := capacity power;
     percent := pc; charge_user_imax := charge_user_imax power;
     tbatt_min := tbatt_min power; tbatt_max := tbatt_max power |}.

Definition set_health (power : axp20x_battery_power) (h : health_t)
  : axp20x_battery_power :=
  set_health_percent power h (percent power).

Definition set_charge_user_imax (power : axp20x_battery_power) (i : Z)
  : axp20x_battery_power :=
  {| supply := supply power; health := health power; capacity := capacity power;
     percent := percent power; charge_user_imax := i;
     tbatt_min := tbatt_min power; tbatt_max := tbatt_max power |}.

(** A C condition: non-zero is true. *)
Definition truthy (z : Z) : bool := negb (z =? 0).

(** Fields of AXP20X_PWR_INPUT_STATUS *)
Definition AXP20X_PWR_STATUS_AC_PRESENT : Z := Z.shiftl 1 7.
Definition AXP20X_PWR_STATUS_AC_AVAILABLE : Z := Z.shiftl 1 6.
Definition AXP20X_PWR_STATUS_VBUS_PRESENT : Z := Z.shiftl 1 5.
Definition AXP20X_PWR_STATUS_VBUS_AVAILABLE : Z := Z.shiftl 1 4.
Definition AXP20X_PWR_STATUS_BAT_CHARGING : Z := Z.shiftl 1 2.

(** Fields of AXP20X_PWR_OP_MODE *)
Definition AXP20X_PWR_OP_CHARGING : Z := Z.shiftl 1 6.
Definition AXP20X_PWR_OP_BATT_PRESENT : Z := Z.shiftl 1 5.

(** Fields of AXP20X_VBUS_IPSOUT_MGMT *)
Definition AXP20X_VBUS_CLIMIT_MASK : Z := 3.
Definition AXP20X_VBUC_CLIMIT_900mA : Z := 0.
Definition AXP20X_VBUC_CLIMIT_500mA : Z := 1.
Definition AXP20X_VBUC_CLIMIT_100mA : Z := 2.
Definition AXP20X_VBUC_CLIMIT_NONE : Z := 3.

(** Fields of AXP20X_CHRG_CTRL1 *)
Definition AXP20X_CHRG_CTRL1_TGT_VOLT : Z := Z.shiftl 3 5.
Definition AXP20X_CHRG_CTRL1_TGT_4_1V : Z := Z.shiftl 0 5.
Definition AXP20X_CHRG_CTRL1_TGT_4_15V : Z := Z.shiftl 1 5.
Definition AXP20X_CHRG_CTRL1_TGT_4_2V : Z := Z.shiftl 2 5.
Definition AXP20X_CHRG_CTRL1_TGT_4_36V : Z := Z.shiftl 3 5.
Definition AXP20X_CHRG_CTRL1_TGT_CURR : Z := 0x0f.

(** The [out:] label of [axp20x_battery_poll]. *)
Definition axp20x_battery_poll_out (power : axp20x_battery_power)
    (health' : health_t) (percent' : Z) : M axp20x_battery_power :=
  if negb (health_eqb (health power) health') || negb (percent power =? percent')
  then
    let power' := set_health_percent power health' percent' in
    if supply power then (power_supply_changed ;; ret power') else ret power'
  else ret power.

Definition axp20x_battery_poll (power : axp20x_battery_power) : M axp20x_battery_power :=
  (* check and refresh power->health, power->percent *)
  let health0 := POWER_SUPPLY_HEALTH_UNKNOWN in
  let percent0 := 0 in
  let* r := regmap_read AXP20X_PWR_OP_MODE in
  match r with
  | RdErr _ => ret power
  | RdOk reg =>
      if negb (truthy (Z.land reg AXP20X_PWR_OP_BATT_PRESENT))
      then axp20x_battery_poll_out power health0 percent0
      else
        let* reg := axp20x_read_variable_width AXP20X_BATT_V_H 12 in
        let health1 :=
          if (0 <=? reg) && (Int.mul reg 1100 <? 2000000)
          then POWER_SUPPLY_HEALTH_DEAD else health0 in
        let* r := regmap_read AXP20X_FG_RES in
        let percent1 :=
          match r with
          | RdOk reg => Z.land reg 0x7f
          | RdErr _ => percent0
          end in
        let* health2 :=
          if truthy (tbatt_min power) || truthy (tbatt_max power) then
            (* test for out-of-bound temperature *)
            let* reg := axp20x_read_variable_width AXP20X_BATT_V_H 12 in
            if (0 <=? reg) && (reg <? tbatt_min power)
            then ret POWER_SUPPLY_HEALTH_COLD
            else if (0 <=? reg) && (tbatt_max power <? reg)
            then ret POWER_SUPPLY_HEALTH_OVERHEAT
            else ret health1
          else ret health1 in
        axp20x_battery_poll_out power health2 percent1
  end.

Definition axp20x_battery_uv_to_temp (devdata : axp20x_battery_power) (uv : Z) : Z :=
  (* TODO: convert uV to degrees C *)
  uv.

(** [val] is [val->intval] on entry; the result is the return value and
    [val->intval] on exit. *)
Definition axp20x_battery_power_get_property (power : axp20x_battery_power)
    (psp : power_supply_property) (val : Z) : M (Z * Z) :=
  match psp with
  | POWER_SUPPLY_PROP_CURRENT_MAX =>
      let* r := regmap_read AXP20X_CHRG_CTRL1 in
      match r with
      | RdErr e => ret (e, val)
      | RdOk reg =>
          ret (0, Int.add (Int.mul (Z.land reg AXP20X_CHRG_CTRL1_TGT_CURR) 100000) 300000)
      end
  | POWER_SUPPLY_PROP_VOLTAGE_MAX_DESIGN =>
      let* r := regmap_read AXP20X_CHRG_CTRL1 in
      match r with
      | RdErr e => ret (e, val)
      | RdOk reg =>
          let f := Z.land reg AXP20X_CHRG_CTRL1_TGT_VOLT in
          if f =? AXP20X_CHRG_CTRL1_TGT_4_1V then ret (0, 4100000)
          else if f =? AXP20X_CHRG_CTRL1_TGT_4_15V then ret (0, 4150000)
          else if f =? AXP20X_CHRG_CTRL1_TGT_4_2V then ret (0, 4200000)
          else if f =? AXP20X_CHRG_CTRL1_TGT_4_36V then ret (0, 4360000)
          else (* ret = -EINVAL; return 0; *) ret (0, val)
      end
  | POWER_SUPPLY_PROP_VOLTAGE_MIN_DESIGN =>
      let* r := regmap_read AXP20X_APS_WARN_L2 in
      match r with
      | RdErr e => ret (e, val)
      | RdOk reg => ret (0, Int.add 2867200 (Int.mul (Int.mul 1400 reg) 4))
      end
  | POWER_SUPPLY_PROP_TECHNOLOGY => ret (0, POWER_SUPPLY_TECHNOLOGY_LION)
  | POWER_SUPPLY_PROP_PRESENT
  | POWER_SUPPLY_PROP_ONLINE =>
      let* r := regmap_read AXP20X_PWR_OP_MODE in
      match r with
      | RdErr e => ret (e, val)
      | RdOk reg =>
          ret (0, if truthy (Z.land reg AXP20X_PWR_OP_BATT_PRESENT) then 1 else 0)
      end
  | POWER_SUPPLY_PROP_STATUS =>
      let* r := regmap_read AXP20X_PWR_INPUT_STATUS in
      match r with
      | RdErr e => ret (e, val)
      | RdOk reg =>
          if truthy (Z.land reg AXP20X_PWR_STATUS_BAT_CHARGING)
          then ret (0, POWER_SUPPLY_STATUS_CHARGING)
          else
            let* reg := axp20x_read_variable_width AXP20X_BATT_DISCHRG_I_H 12 in
            if reg <? 0 then ret (reg, val)
            else
              let reg := Int.mul reg 500 in
              if (reg <? 2000) && (percent power =? 100)
              then ret (0, POWER_SUPPLY_STATUS_FULL)
              else if reg <? 2000
              then ret (0, POWER_SUPPLY_STATUS_NOT_CHARGING)
              else ret (0, POWER_SUPPLY_STATUS_DISCHARGING)
      end
  | POWER_SUPPLY_PROP_CURRENT_NOW =>
      let* r := regmap_read AXP20X_PWR_INPUT_STATUS in
      match r with
      | RdErr e => ret (e, val)
      | RdOk reg =>
          let* reg :=
            if truthy (Z.land reg AXP20X_PWR_STATUS_BAT_CHARGING)
            then axp20x_read_variable_width AXP20X_BATT_CHRG_I_H 12
            else axp20x_read_variable_width AXP20X_BATT_DISCHRG_I_H 12 in
          if reg <? 0 then ret (reg, val)
          else ret (0, Int.mul reg 500) (* 1 step = 0.5mA *)
      end
  | POWER_SUPPLY_PROP_HEALTH => ret (0, health_code (health power))
  | POWER_SUPPLY_PROP_VOLTAGE_NOW =>
      let* reg := axp20x_read_variable_width AXP20X_BATT_V_H 12 in
      if reg <? 0 then ret (reg, val)
      else ret (0, Int.mul reg 1100) (* 1 step = 1.1mV *)
  | POWER_SUPPLY_PROP_CHARGE_FULL_DESIGN => ret (0, capacity power)
  | POWER_SUPPLY_PROP_CAPACITY =>
      let* r := regmap_read AXP20X_FG_RES in
      match r with
      | RdErr e => ret (e, val)
      | RdOk reg => ret (0, Z.land reg 0x7f)
      end
  | POWER_SUPPLY_PROP_TEMP =>
      let* reg := axp20x_read_variable_width AXP20X_BATT_V_H 12 in
      if reg <? 0 then ret (reg, val)
      else ret (0, axp20x_battery_uv_to_temp power (Int.mul reg 800)) (* 1 step = 0.8mV *)
  | POWER_SUPPLY_PROP_TEMP_ALERT_MIN =>
      ret (0, axp20x_battery_uv_to_temp power (tbatt_min power))
  | POWER_SUPPLY_PROP_TEMP_ALERT_MAX =>
      ret (0, axp20x_battery_uv_to_temp power (tbatt_max power))
  | _ => ret (neg EINVAL, val)
  end.

Definition axp20x_battery_max_chg_current (power : axp20x_battery_power) : M Z :=
  let* r := regmap_read AXP20X_PWR_INPUT_STATUS in
  match r with
  | RdErr e => ret e
  | RdOk status =>
      if truthy (Z.land status AXP20X_PWR_STATUS_AC_PRESENT) &&
         truthy (Z.land status AXP20X_PWR_STATUS_AC_AVAILABLE)
      then
        (* AC available - unrestricted power *)
        ret (Int.div (capacity power) 2)
      else if truthy (Z.land status AXP20X_PWR_STATUS_VBUS_PRESENT) &&
              truthy (Z.land status AXP20X_PWR_STATUS_VBUS_AVAILABLE)
      then
        (* VBUS available - limited power *)
        let* r := regmap_read AXP20X_VBUS_IPSOUT_MGMT in
        match r with
        | RdErr e => ret e
        | RdOk vbusmgt =>
            let f := Z.land vbusmgt AXP20X_VBUS_CLIMIT_MASK in
            if f =? AXP20X_VBUC_CLIMIT_100mA then ret 0
            else if f =? AXP20X_VBUC_CLIMIT_500mA then ret 300000
            else if f =? AXP20X_VBUC_CLIMIT_900mA then ret 600000
            else if f =? AXP20X_VBUC_CLIMIT_NONE then ret (Int.div (capacity power) 2)
            else ret 0
        end
      else
        (* on-battery *)
        ret 0
  end.

Definition axp20x_battery_chg_reconfig (power : axp20x_battery_power) : M unit :=
  let* charge_max := axp20x_battery_max_chg_current power in
  if charge_max <? 0 then ret tt
  else
    (if charge_max =? 0 then
       regmap_update_bits AXP20X_PWR_OP_MODE AXP20X_PWR_OP_CHARGING 0
     else
       let charge_max :=
         if charge_user_imax power <? charge_max
         then charge_user_imax power else charge_max in
       let charge_max :=
         if 0x0f <? Int.div (Int.sub charge_max 300000) 100000
         then Int.add 300000 (Int.mul 0x0f 100000) else charge_max in
       (* the [val] parameter of [regmap_update_bits] is an [unsigned int] *)
       regmap_update_bits AXP20X_CHRG_CTRL1 AXP20X_CHRG_CTRL1_TGT_CURR
                          (Int.unsigned (Int.div (Int.sub charge_max 300000) 100000)) ;;
       regmap_update_bits AXP20X_PWR_OP_MODE AXP20X_PWR_OP_CHARGING
                          AXP20X_PWR_OP_CHARGING) ;;
    power_supply_changed.

(** [val] is [val->intval]; the result is the return value and the driver
    state on exit. *)
Definition axp20x_battery_power_set_property (power : axp20x_battery_power)
    (psp : power_supply_property) (val : Z) : M (Z * axp20x_battery_power) :=
  match psp with
  | POWER_SUPPLY_PROP_STATUS =>
      if val =? POWER_SUPPLY_STATUS_CHARGING then
        let* r := axp20x_battery_max_chg_current power in
        if r <? 0 then ret (r, power)
        else if r =? 0 then ret (neg EBUSY, power)
        else
          let* r := regmap_update_bits AXP20X_PWR_OP_MODE AXP20X_PWR_OP_CHARGING
                                       AXP20X_PWR_OP_CHARGING in
          if r =? 0 then (axp20x_battery_chg_reconfig power ;; ret (r, power))
          else ret (r, power)
      else if val =? POWER_SUPPLY_STATUS_NOT_CHARGING then
        let* r := regmap_update_bits AXP20X_PWR_OP_MODE AXP20X_PWR_OP_CHARGING 0 in
        ret (r, power)
      else ret (neg EINVAL, power)
  | POWER_SUPPLY_PROP_VOLTAGE_MIN_DESIGN =>
      (* TODO: adjust AXP20X_APS_WARN_L1 and AXP20X_APS_WARN_L2 accordingly *)
      ret (neg EINVAL, power)
  | POWER_SUPPLY_PROP_VOLTAGE_MAX_DESIGN =>
      if val =? 4100000 then
        let* r := regmap_update_bits AXP20X_CHRG_CTRL1 AXP20X_CHRG_CTRL1_TGT_VOLT
                                     AXP20X_CHRG_CTRL1_TGT_4_1V in
        ret (r, power)
      else if val =? 4150000 then
        let* r := regmap_update_bits AXP20X_CHRG_CTRL1 AXP20X_CHRG_CTRL1_TGT_VOLT
                                     AXP20X_CHRG_CTRL1_TGT_4_15V in
        ret (r, power)
      else if val =? 4200000 then
        let* r := regmap_update_bits AXP20X_CHRG_CTRL1 AXP20X_CHRG_CTRL1_TGT_VOLT
                                     AXP20X_CHRG_CTRL1_TGT_4_2V in
        ret (r, power)
      else
        (* 4360000: refuse this as it's too much for Li-ion! *)
        ret (neg EINVAL, power)
  | POWER_SUPPLY_PROP_CURRENT_MAX =>
      if 0x0f <? Int.div (Int.sub val 300000) 100000 then ret (neg EINVAL, power)
      else if val <? 300000 then ret (neg EINVAL, power)
      else
        let power' := set_charge_user_imax power val in
        axp20x_battery_chg_reconfig power' ;;
        ret (0, power')
  | _ => ret (neg EINVAL, power)
  end.

(** *** Interrupt handlers

    Probe requests the interrupts only after the supply is registered, so
    [power->supply] is set whenever a handler runs. *)

Definition irq_handler : Type :=
  Z -> axp20x_battery_power -> M (irqreturn_t * axp20x_battery_power).

Definition dev_info (msg : string) (irq : Z) : M unit := emit (EvLog KERN_INFO msg irq).
Definition dev_dbg (msg : string) (irq : Z) : M unit := emit (EvLog KERN_DEBUG msg irq).
Definition dev_warn (msg : string) (irq : Z) : M unit := emit (EvLog KERN_WARNING msg irq).
Definition dev_crit (msg : string) (irq : Z) : M unit := emit (EvLog KERN_CRIT msg irq).

Definition axp20x_irq_batt_plugin : irq_handler := fun irq power =>
  let power := set_health power POWER_SUPPLY_HEALTH_UNKNOWN in (* Check voltage *)
  regmap_update_bits AXP20X_PWR_OP_MODE AXP20X_PWR_OP_CHARGING AXP20X_PWR_OP_CHARGING ;;
  dev_info "IRQ#%d Battery connected" irq ;;
  power_supply_changed ;;
  ret (IRQ_HANDLED, power).

Definition axp20x_irq_batt_removal : irq_handler := fun irq power =>
  let power := set_health power POWER_SUPPLY_HEALTH_UNKNOWN in
  regmap_update_bits AXP20X_PWR_OP_MODE AXP20X_PWR_OP_CHARGING 0 ;;
  dev_info "IRQ#%d Battery disconnected" irq ;;
  power_supply_changed ;;
  ret (IRQ_HANDLED, power).

Definition axp20x_irq_batt_activation : irq_handler := fun irq power =>
  let power := set_health power POWER_SUPPLY_HEALTH_UNKNOWN in
  dev_info "IRQ#%d Battery activation started" irq ;;
  power_supply_changed ;;
  ret (IRQ_HANDLED, power).

Definition axp20x_irq_batt_activated : irq_handler := fun irq power =>
  let power := set_health power POWER_SUPPLY_HEALTH_GOOD in
  dev_info "IRQ#%d Battery activation completed" irq ;;
  power_supply_changed ;;
  ret (IRQ_HANDLED, power).

Definition axp20x_irq_batt_charging : irq_handler := fun irq power =>
  dev_dbg "IRQ#%d Battery charging" irq ;;
  power_supply_changed ;;
  ret (IRQ_HANDLED, power).

Definition axp20x_irq_batt_charged : irq_handler := fun irq power =>
  dev_dbg "IRQ#%d Battery charged" irq ;;
  power_supply_changed ;;
  ret (IRQ_HANDLED, power).

Definition axp20x_irq_batt_high_temp : irq_handler := fun irq power =>
  let power := set_health power POWER_SUPPLY_HEALTH_OVERHEAT in
  regmap_update_bits AXP20X_PWR_OP_MODE AXP20X_PWR_OP_CHARGING 0 ;;
  dev_warn "IRQ#%d Battery temperature high!" irq ;;
  power_supply_changed ;;
  ret (IRQ_HANDLED, power).

Definition axp20x_irq_batt_low_temp : irq_handler := fun irq power =>
  let power := set_health power POWER_SUPPLY_HEALTH_COLD in
  dev_warn "IRQ#%d Battery temperature low!" irq ;;
  power_supply_changed ;;
  ret (IRQ_HANDLED, power).

Definition axp20x_irq_batt_chg_curr_low : irq_handler := fun irq power =>
  dev_info "IRQ#%d External power too weak for target charging current!" irq ;;
  power_supply_changed ;;
  ret (IRQ_HANDLED, power).

Definition axp20x_irq_power_low : irq_handler := fun irq power =>
  dev_warn "IRQ#%d System power running out soon!" irq ;;
  power_supply_changed ;;
  ret (IRQ_HANDLED, power).

Definition axp20x_irq_power_low_crit : irq_handler := fun irq power =>
  dev_crit "IRQ#%d System power running out now!" irq ;;
  power_supply_changed ;;
  ret (IRQ_HANDLED, power).

(** [irq_names] and [irq_funcs] of [axp20x_power_probe], zipped. *)
Definition irq_table : list (string * irq_handler) :=
  [ ("BATT_HOT"%string, axp20x_irq_batt_high_temp);
    ("BATT_COLD"%string, axp20x_irq_batt_low_temp);
    ("BATT_PLUGIN"%string, axp20x_irq_batt_plugin);
    ("BATT_REMOVAL"%string, axp20x_irq_batt_removal);
    ("BATT_ACTIVATE"%string, axp20x_irq_batt_activation);
    ("BATT_ACTIVATED"%string, axp20x_irq_batt_activated);
    ("BATT_CHARGING"%string, axp20x_irq_batt_charging);
    ("BATT_CHARGED"%string, axp20x_irq_batt_charged);
    ("BATT_CHG_CURR_LOW"%string, axp20x_irq_batt_chg_curr_low);
    ("BATT_POWER_LOW_WARN"%string, axp20x_irq_power_low);
    ("BATT_POWER_LOW_CRIT"%string, axp20x_irq_power_low_crit) ].

(** ** What a run shows *)

Definition is_changed (e : event) : bool :=
  match e with EvChanged => true | _ => false end.

(** How many times the telemetry consumer was notified. *)
Definition notifications (tr : list event) : nat :=
  length (List.filter is_changed tr).

(** The register updates a run issued, in order: register, mask, value. *)
Definition bus_writes (tr : list event) : list (Z * Z * Z) :=
  flat_map (fun e => match e with
                     | EvUpdateBits r m v _ => [(r, m, v)]
                     | _ => []
                     end) tr.

(** The values a run put into the 4-bit target-current field. *)
Definition tgt_curr_writes (tr : list event) : list Z :=
  flat_map (fun e => match e with
                     | EvUpdateBits r m v _ =>
                         if (r =? AXP20X_CHRG_CTRL1) && (m =? AXP20X_CHRG_CTRL1_TGT_CURR)
                         then [Z.land v m] else []
                     | _ => []
                     end) tr.

Definition is_read_error (e : event) : bool :=
  match e with EvRead _ (RdErr _) => true | _ => false end.

(** No register read of the run failed. *)
Definition reads_ok (tr : list event) : bool := forallb (fun e => negb (is_read_error e)) tr.

(** The 12-bit value a variable-width read composes from a high byte and a
    low nibble. *)
Definition raw12 (hi lo : Z) : Z := Z.lor (Z.shiftl hi 4) (Z.land lo 15).

(** ** The specification's tables (spec sections 4.2 to 4.4), for comparison
       with the driver *)

Module Spec.

(** Section 4.3: the bus current-limit field. *)
Inductive bus_limit : Type := Limit100mA | Limit500mA | Limit900mA | LimitNone.

(** Section 4.3, operation [max_charge_current]. *)
Definition max_charge_current
    (mains_present mains_available bus_present bus_available : bool)
    (limit : bus_limit) (capacity_design : Z) : Z :=
  if mains_present && mains_available then Z.quot capacity_design 2
  else if bus_present && bus_available then
    match limit with
    | Limit100mA => 0
    | Limit500mA => 300000
    | Limit900mA => 600000
    | LimitNone => Z.quot capacity_design 2
    end
  else 0.

(** Section 4.3: 16 steps of 100 mA starting at 300 mA. *)
Definition max_target_current : Z := 300000 + 15 * 100000.

(** Section 4.3: the 4-bit field for a target current, which is clamped to
    the representable range, from the first step (300 mA) to the last. *)
Definition current_field (ua : Z) : Z :=
  Z.quot (Z.max 300000 (Z.min ua max_target_current) - 300000) 100000.

(** Section 4.3, property-write contract of the target charge current:
    [300000, 1800000] uA in 100 mA steps. *)
Definition valid_target_current (ua : Z) : bool :=
  (300000 <=? ua) && (ua <=? 1800000) && ((ua - 300000) mod 100000 =? 0).

(** The target-voltage field a maximum design voltage selects. *)
Definition target_voltage_field (uv : Z) : option Z :=
  if uv =? 4100000 then Some 0
  else if uv =? 4150000 then Some 1
  else if uv =? 4200000 then Some 2
  else None.

(** Section 4.4: the hardware events. *)
Inductive hw_event : Type :=
| BatteryInserted
| BatteryRemoved
| ActivationStarted
| ActivationCompleted
| ChargingProgress
| ChargedProgress
| Overheat
| UnderTemperature
| SourceTooWeak
| PowerLowWarning
| PowerLowCritical.

(** Section 4.4, column "State effect": the health an event sets. *)
Definition state_effect (e : hw_event) : option health_t :=
  match e with
  | BatteryInserted => Some POWER_SUPPLY_HEALTH_UNKNOWN
  | BatteryRemoved => Some POWER_SUPPLY_HEALTH_UNKNOWN
  | ActivationStarted => Some POWER_SUPPLY_HEALTH_UNKNOWN
  | ActivationCompleted => Some POWER_SUPPLY_HEALTH_GOOD
  | Overheat => Some POWER_SUPPLY_HEALTH_OVERHEAT
  | UnderTemperature => Some POWER_SUPPLY_HEALTH_COLD
  | ChargingProgress | ChargedProgress | SourceTooWeak
  | PowerLowWarning | PowerLowCritical => None
  end.

(** Section 4.4, column "Register effect": [Some true] enables the charging
    bit, [Some false] disables it. *)
Definition register_effect (e : hw_event) : option bool :=
  match e with
  | BatteryInserted => Some true
  | BatteryRemoved => Some false
  | Overheat => Some false
  | _ => None
  end.

End Spec.

(** How the registers spell the specification's inputs. *)
Definition bus_limit_of (vbusmgt : Z) : Spec.bus_limit :=
  let f := Z.land vbusmgt AXP20X_VBUS_CLIMIT_MASK in
  if f =? AXP20X_VBUC_CLIMIT_100mA then Spec.Limit100mA
  else if f =? AXP20X_VBUC_CLIMIT_500mA then Spec.Limit500mA
  else if f =? AXP20X_VBUC_CLIMIT_900mA then Spec.Limit900mA
  else Spec.LimitNone.

(** The interrupt each hardware event arrives on. *)
Definition irq_name (e : Spec.hw_event) : string :=
  match e with
  | Spec.BatteryInserted => "BATT_PLUGIN"
  | Spec.BatteryRemoved => "BATT_REMOVAL"
  | Spec.ActivationStarted => "BATT_ACTIVATE"
  | Spec.ActivationCompleted => "BATT_ACTIVATED"
  | Spec.ChargingProgress => "BATT_CHARGING"
  | Spec.ChargedProgress => "BATT_CHARGED"
  | Spec.Overheat => "BATT_HOT"
  | Spec.UnderTemperature => "BATT_COLD"
  | Spec.SourceTooWeak => "BATT_CHG_CURR_LOW"
  | Spec.PowerLowWarning => "BATT_POWER_LOW_WARN"
  | Spec.PowerLowCritical => "BATT_POWER_LOW_CRIT"
  end.

Fixpoint find_irq (name : string) (tbl : list (string * irq_handler)) : option irq_handler :=
  match tbl with
  | [] => None
  | (n, f) :: tbl' => if String.eqb n name then Some f else find_irq name tbl'
  end.

(** The handler probe installs for an event; an interrupt without handler
    is not handled. *)
Definition dispatch (e : Spec.hw_event) : irq_handler :=
  match find_irq (irq_name e) irq_table with
  | Some f => f
  | None => fun _ power => ret (IRQ_NONE, power)
  end.



(** Whether the cached (health, percent) pair differs between two states. *)
Definition pair_changed (before after : axp20x_battery_power) : bool :=
  negb (health_eqb (health before) (health after)) ||
  negb (percent before =? percent after).

(** ** The spec's sentences that the driver does not follow, as predicates
       on one run *)

(** Section 4.2, step 3 and section 8: a dead cell wins over the
    temperature checks. *)
Definition dead_has_priority (power : axp20x_battery_power) (d : regmap) : Prop :=
  forall m vh vl g ts th tl rest,
    trace (axp20x_battery_poll power d) =
      EvRead AXP20X_PWR_OP_MODE (RdOk m) ::
      EvRead AXP20X_BATT_V_H (RdOk vh) :: EvRead (AXP20X_BATT_V_H + 1) (RdOk vl) ::
      EvRead AXP20X_FG_RES g ::
      EvRead ts (RdOk th) :: EvRead (ts + 1) (RdOk tl) :: rest ->
    Z.testbit m 5 = true ->
    raw12 vh vl * 1100 < 2000000 ->
    raw12 th tl < tbatt_min power \/ tbatt_max power < raw12 th tl ->
    health (value (axp20x_battery_poll power d)) = POWER_SUPPLY_HEALTH_DEAD.

(** Section 4.2, step 4: a failing gauge read leaves the stored percent as
    it was. *)
Definition percent_kept_on_gauge_failure (power : axp20x_battery_power) (d : regmap) : Prop :=
  forall m e,
    In (EvRead AXP20X_PWR_OP_MODE (RdOk m)) (trace (axp20x_battery_poll power d)) ->
    Z.testbit m 5 = true ->
    In (EvRead AXP20X_FG_RES (RdErr e)) (trace (axp20x_battery_poll power d)) ->
    percent (value (axp20x_battery_poll power d)) = percent power.


(** Section 4.3 and section 8: the target charge current is accepted exactly
    in [300000, 1800000] uA on a 100 mA step. *)
Definition target_current_write_contract (power : axp20x_battery_power)
    (d : regmap) (ua : Z) : Prop :=
  let o := axp20x_battery_power_set_property power POWER_SUPPLY_PROP_CURRENT_MAX ua d in
  if Spec.valid_target_current ua
  then fst (value o) = 0 /\ charge_user_imax (snd (value o)) = ua
  else fst (value o) = neg EINVAL /\
       charge_user_imax (snd (value o)) = charge_user_imax power.

(** Section 4.3: reconfiguration always ends by notifying the telemetry
    consumer. *)
Definition reconfig_always_notifies (power : axp20x_battery_power) (d : regmap) : Prop :=
  last (trace (axp20x_battery_chg_reconfig power d)) = Some EvChanged.

(** ** Sample inputs *)

(** A battery with a temperature sensor configured. *)
Definition power_ts : axp20x_battery_power :=
  {| supply := true; health := POWER_SUPPLY_HEALTH_UNKNOWN; capacity := 2000000;
     percent := 55; charge_user_imax := 1000000; tbatt_min := 2000; tbatt_max := 3000 |}.

(** Battery present, 12-bit voltage reading 0x100 (281.6 mV). *)
Definition regs_low_voltage : gmap Z Z :=
  <[AXP20X_PWR_OP_MODE := 0x20]> (<[AXP20X_BATT_V_H := 0x10]> ∅).

Definition bus_low_voltage : regmap := {| regs := regs_low_voltage; faults := [] |}.

(** The same, with the fourth bus call (the gauge read of a poll) failing. *)
Definition bus_gauge_fault : regmap :=
  {| regs := regs_low_voltage; faults := [None; None; None; Some EIO] |}.

(** VBUS present and available, 500 mA limit. *)
Definition regs_vbus : gmap Z Z :=
  <[AXP20X_PWR_INPUT_STATUS := 0x30]> (<[AXP20X_VBUS_IPSOUT_MGMT := 0x01]> ∅).

Definition bus_vbus : regmap := {| regs := regs_vbus; faults := [] |}.

(** The same, with the first bus call failing. *)
Definition bus_status_fault : regmap := {| regs := regs_vbus; faults := [Some EIO] |}.

(** A 300 mAh battery on mains power. *)
Definition power_small : axp20x_battery_power :=
  {| supply := true; health := POWER_SUPPLY_HEALTH_UNKNOWN; capacity := 300000;
     percent := 55; charge_user_imax := 300000; tbatt_min := 0; tbatt_max := 0 |}.

Definition bus_mains : regmap :=
  {| regs := <[AXP20X_PWR_INPUT_STATUS := 0xc0]> ∅; faults := [] |}.

(** ** More of drivers/power/axp20x_fuel_gauge.c *)

Definition axp20x_battery_power_property_writeable (psp : power_supply_property) : bool :=
  match psp with
  | POWER_SUPPLY_PROP_VOLTAGE_MIN_DESIGN
  | POWER_SUPPLY_PROP_VOLTAGE_MAX_DESIGN
  | POWER_SUPPLY_PROP_CURRENT_MAX
  | POWER_SUPPLY_PROP_STATUS => true
  | _ => false
  end.

(** The registers a run read, in order. *)
Definition reads_of (tr : list event) : list Z :=
  flat_map (fun e => match e with EvRead r _ => [r] | _ => [] end) tr.

(** The values a property can report when its read succeeds. *)
Definition reported_range (power : axp20x_battery_power)
    (psp : power_supply_property) (v : Z) : Prop :=
  match psp with
  | POWER_SUPPLY_PROP_CURRENT_MAX =>
      300000 <= v <= 1800000 /\ (v - 300000) mod 100000 = 0
  | POWER_SUPPLY_PROP_VOLTAGE_MAX_DESIGN =>
      v = 4100000 \/ v = 4150000 \/ v = 4200000 \/ v = 4360000
  | POWER_SUPPLY_PROP_VOLTAGE_MIN_DESIGN =>
      2867200 <= v <= 4295200 /\ (v - 2867200) mod 5600 = 0
  | POWER_SUPPLY_PROP_TECHNOLOGY => v = POWER_SUPPLY_TECHNOLOGY_LION
  | POWER_SUPPLY_PROP_PRESENT | POWER_SUPPLY_PROP_ONLINE => v = 0 \/ v = 1
  | POWER_SUPPLY_PROP_STATUS =>
      v = POWER_SUPPLY_STATUS_CHARGING \/ v = POWER_SUPPLY_STATUS_DISCHARGING \/
      v = POWER_SUPPLY_STATUS_NOT_CHARGING \/
      v = POWER_SUPPLY_STATUS_FULL /\ percent power = 100
  | POWER_SUPPLY_PROP_CURRENT_NOW => 0 <= v <= 4095 * 500 /\ v mod 500 = 0
  | POWER_SUPPLY_PROP_HEALTH => v = health_code (health power)
  | POWER_SUPPLY_PROP_VOLTAGE_NOW => 0 <= v <= 4095 * 1100 /\ v mod 1100 = 0
  | POWER_SUPPLY_PROP_CHARGE_FULL_DESIGN => v = capacity power
  | POWER_SUPPLY_PROP_CAPACITY => 0 <= v <= 127
  | POWER_SUPPLY_PROP_TEMP => 0 <= v <= 4095 * 800 /\ v mod 800 = 0
  | POWER_SUPPLY_PROP_TEMP_ALERT_MIN => v = tbatt_min power
  | POWER_SUPPLY_PROP_TEMP_ALERT_MAX => v = tbatt_max power
  | POWER_SUPPLY_PROP_POWER_NOW | POWER_SUPPLY_PROP_CHARGE_NOW => False
  end.

(** ** <linux/of.h> *)

Module Of.

(** Modelled from the spec: the device-tree accessors are not part of the
    sources.  A node maps property names to their 32-bit cells. *)
Definition device_node : Type := gmap string (list Z).

Definition ENODATA : Z := 61.
Definition EOVERFLOW : Z := 75.

Definition u32 (z : Z) : Z := z mod 4294967296.

(** What [of_property_read_u32_array] hands back: the first [sz] cells, or
    a negative error number with the output array left alone. *)
Inductive of_read : Type :=
| OfOk (out_values : list Z)
| OfErr (ret : Z).

(** Modelled from the spec: [of_property_read_u32_array] is not part of the
    sources.  It fails with -EINVAL when the property does not exist and
    with -EOVERFLOW when it holds fewer than [sz] cells. *)
Definition of_property_read_u32_array (np : device_node) (propname : string) (sz : nat)
  : of_read :=
  match np !! propname with
  | None => OfErr (neg EINVAL)
  | Some cells =>
      if (length cells <? sz)%nat then OfErr (- EOVERFLOW)
      else OfOk (map u32 (take sz cells))
  end.

(** Modelled from the spec: [of_find_property] is not part of the sources;
    the result tells whether the pointer returned is non-NULL. *)
Definition of_find_property (np : device_node) (name : string) : bool :=
  match np !! name with
  | None => false
  | Some _ => true
  end.

End Of.
Export Of.

(** ** The backup battery driver: drivers/power/axp20x_rtc_power.c *)

Module Rtc.

(** Modelled from the spec: the address is declared in the MFD header,
    which is not part of the sources. *)
Definition AXP20X_CHRG_BAK_CTRL : Z := 0x35.

(** Fields of AXP20X_CHRG_BAK_CTRL *)
Definition AXP20X_BACKUP_ENABLE : Z := Z.shiftl 0x01 7.
Definition AXP20X_BACKUP_VOLTAGE_MASK : Z := Z.shiftl 0x03 5.
Definition AXP20X_BACKUP_VOLTAGE_3_1V : Z := Z.shiftl 0x00 5.
Definition AXP20X_BACKUP_VOLTAGE_3_0V : Z := Z.shiftl 0x01 5.
Definition AXP20X_BACKUP_VOLTAGE_3_6V : Z := Z.shiftl 0x02 5.
Definition AXP20X_BACKUP_VOLTAGE_2_5V : Z := Z.shiftl 0x03 5.
Definition AXP20X_BACKUP_CURRENT_MASK : Z := 0x03.
Definition AXP20X_BACKUP_CURRENT_50uA : Z := 0x00.
Definition AXP20X_BACKUP_CURRENT_100uA : Z := 0x01.
Definition AXP20X_BACKUP_CURRENT_200uA : Z := 0x02.
Definition AXP20X_BACKUP_CURRENT_400uA : Z := 0x03.

(** The members of [enum power_supply_property] this driver is asked for:
    those of the fuel gauge, and the two constant-charge ones. *)
Inductive rtcbatt_property : Type :=
| Gauge (psp : power_supply_property)
| POWER_SUPPLY_PROP_CONSTANT_CHARGE_VOLTAGE
| POWER_SUPPLY_PROP_CONSTANT_CHARGE_CURRENT.

(** The [switch (limit)] on the "voltage" property: [new_reg] afterwards,
    or [None] for the [default:] label. *)
Definition backup_voltage_bits (new_reg limit : Z) : option Z :=
  if limit =? 2500000 then Some (Z.lor new_reg AXP20X_BACKUP_VOLTAGE_2_5V)
  else if limit =? 3000000 then Some (Z.lor new_reg AXP20X_BACKUP_VOLTAGE_3_0V)
  else if limit =? 3100000 then Some (Z.lor new_reg AXP20X_BACKUP_VOLTAGE_3_1V)
  else if limit =? 3600000 then Some (Z.lor new_reg AXP20X_BACKUP_VOLTAGE_3_6V)
  else None.

(** The [switch (limit)] on the "current" property. *)
Definition backup_current_bits (new_reg limit : Z) : option Z :=
  if limit =? 50 then Some (Z.lor new_reg AXP20X_BACKUP_CURRENT_50uA)
  else if limit =? 100 then Some (Z.lor new_reg AXP20X_BACKUP_CURRENT_100uA)
  else if limit =? 200 then Some (Z.lor new_reg AXP20X_BACKUP_CURRENT_200uA)
  else if limit =? 400 then Some (Z.lor new_reg AXP20X_BACKUP_CURRENT_400uA)
  else None.

(** The result is the return value; log entries keep the format string and
    its argument. *)
Definition axp20x_rtcbatt_config (np : device_node) : M Z :=
  let new_reg := 0 in
  let* r := regmap_read AXP20X_CHRG_BAK_CTRL in
  match r with
  | RdErr e => ret e
  | RdOk _ =>
      match of_property_read_u32_array np "voltage" 1 with
      | OfErr e => ret e
      | OfOk out =>
          let limit := nth 0 out 0 in
          match backup_voltage_bits new_reg limit with
          | None =>
              dev_warn "Invalid backup/rtc DT voltage limit %uuV" limit ;;
              ret (neg EINVAL)
          | Some new_reg =>
              match of_property_read_u32_array np "current" 1 with
              | OfErr e => ret e
              | OfOk out =>
                  let limit := nth 0 out 0 in
                  match backup_current_bits new_reg limit with
                  | None =>
                      dev_warn "Invalid backup/rtc DT current limit %uuA" limit ;;
                      ret (neg EINVAL)
                  | Some new_reg =>
                      let new_reg := Z.lor new_reg AXP20X_BACKUP_ENABLE in
                      let* r := regmap_update_bits AXP20X_CHRG_BAK_CTRL
                                  (Z.lor (Z.lor AXP20X_BACKUP_ENABLE
                                                AXP20X_BACKUP_VOLTAGE_MASK)
                                         AXP20X_BACKUP_CURRENT_MASK) new_reg in
                      if truthy r then
                        dev_warn "Failed to adjust rtc/backup battery settings: %d" r ;;
                        ret r
                      else ret r
                  end
              end
          end
      end
  end.

(** [val] is [val->intval] on entry; the result is the return value and
    [val->intval] on exit. *)
Definition axp20x_rtcbatt_get_prop (psp : rtcbatt_property) (val : Z) : M (Z * Z) :=
  let* r := regmap_read AXP20X_CHRG_BAK_CTRL in
  match r with
  | RdErr e => ret (e, val)
  | RdOk reg =>
      match psp with
      | Gauge POWER_SUPPLY_PROP_STATUS =>
          if truthy (Z.land reg AXP20X_BACKUP_ENABLE)
          then ret (0, POWER_SUPPLY_STATUS_CHARGING)
          else ret (0, POWER_SUPPLY_STATUS_NOT_CHARGING)
      | POWER_SUPPLY_PROP_CONSTANT_CHARGE_VOLTAGE =>
          let f := Z.land reg AXP20X_BACKUP_VOLTAGE_MASK in
          if f =? AXP20X_BACKUP_VOLTAGE_2_5V then ret (0, 2500000)
          else if f =? AXP20X_BACKUP_VOLTAGE_3_0V then ret (0, 3000000)
          else if f =? AXP20X_BACKUP_VOLTAGE_3_1V then ret (0, 3100000)
          else if f =? AXP20X_BACKUP_VOLTAGE_3_6V then ret (0, 3600000)
          else ret (0, 0)
      | POWER_SUPPLY_PROP_CONSTANT_CHARGE_CURRENT =>
          let f := Z.land reg AXP20X_BACKUP_CURRENT_MASK in
          if f =? AXP20X_BACKUP_CURRENT_50uA then ret (0, 50)
          else if f =? AXP20X_BACKUP_CURRENT_100uA then ret (0, 100)
          else if f =? AXP20X_BACKUP_CURRENT_200uA then ret (0, 200)
          else if f =? AXP20X_BACKUP_CURRENT_400uA then ret (0, 400)
          else ret (0, 0)
      | _ => ret (neg EINVAL, val)
      end
  end.

Definition axp20x_rtcbatt_set_prop (psp : rtcbatt_property) (val : Z) : M Z :=
  match psp with
  | Gauge POWER_SUPPLY_PROP_STATUS =>
      if val =? POWER_SUPPLY_STATUS_CHARGING then
        regmap_update_bits AXP20X_CHRG_BAK_CTRL AXP20X_BACKUP_ENABLE AXP20X_BACKUP_ENABLE
      else if val =? POWER_SUPPLY_STATUS_NOT_CHARGING then
        regmap_update_bits AXP20X_CHRG_BAK_CTRL AXP20X_BACKUP_ENABLE 0
      else ret (neg EINVAL)
  | _ => ret (neg EINVAL)
  end.

Definition axp20x_rtcbatt_prop_writeable (psp : rtcbatt_property) : bool :=
  match psp with
  | Gauge POWER_SUPPLY_PROP_STATUS => true
  | _ => false
  end.

(** [axp20x_rtcbatt_properties] *)
Definition axp20x_rtcbatt_properties : list rtcbatt_property :=
  [ Gauge POWER_SUPPLY_PROP_STATUS;
    POWER_SUPPLY_PROP_CONSTANT_CHARGE_VOLTAGE;
    POWER_SUPPLY_PROP_CONSTANT_CHARGE_CURRENT ].

(** A node for a 3.0 V, 200 uA backup cell. *)
Definition np_backup : device_node :=
  <["voltage"%string := [3000000]]> (<["current"%string := [200]]> ∅).

End Rtc.
Export Rtc.

(** ** Configuration from the device tree: [axp20x_battery_config] *)

(** Modelled from the spec: more register addresses of the MFD header,
    which is not part of the sources; the values are those of the AXP20x
    register map. *)
Definition AXP20X_OFF_CTRL : Z := 0x32.
Definition AXP20X_V_LTF_CHRG : Z := 0x38.
Definition AXP20X_V_HTF_CHRG : Z := 0x39.
Definition AXP20X_APS_WARN_L1 : Z := 0x3a.
Definition AXP20X_V_LTF_DISCHRG : Z := 0x3c.
Definition AXP20X_V_HTF_DISCHRG : Z := 0x3d.
Definition AXP20X_ADC_EN1 : Z := 0x82.
Definition AXP20X_ADC_RATE : Z := 0x84.
Definition AXP20X_RDC_H : Z := 0xba.
Definition AXP20X_RDC_L : Z := 0xbb.
Definition AXP20X_OCV (m : Z) : Z := 0xc0 + m.

(** Fields of AXP20X_ADC_EN1 *)
Definition AXP20X_ADC_EN1_BATT_VOLT : Z := Z.shiftl 1 7.
Definition AXP20X_ADC_EN1_BATT_CURR : Z := Z.shiftl 1 6.
Definition AXP20X_ADC_EN1_TEMP : Z := Z.shiftl 1 0.

(** Fields of AXP20X_ADC_RATE *)
Definition AXP20X_ADR_TS_CURR_MASK : Z := Z.shiftl 3 4.
Definition AXP20X_ADR_TS_CURR_20uA : Z := Z.shiftl 0 4.
Definition AXP20X_ADR_TS_CURR_40uA : Z := Z.shiftl 1 4.
Definition AXP20X_ADR_TS_CURR_60uA : Z := Z.shiftl 2 4.
Definition AXP20X_ADR_TS_CURR_80uA : Z := Z.shiftl 3 4.
Definition AXP20X_ADR_TS_UNRELATED : Z := Z.shiftl 1 2.
Definition AXP20X_ADR_TS_WHEN_MASK : Z := Z.shiftl 3 0.
Definition AXP20X_ADR_TS_WHEN_OFF : Z := Z.shiftl 0 0.
Definition AXP20X_ADR_TS_WHEN_ADC : Z := Z.shiftl 2 0.

(** Fields of AXP20X_OFF_CTRL, AXP20X_CHRG_CTRL1 and AXP20X_FG_RES *)
Definition AXP20X_OFF_CTRL_BATT_MON : Z := Z.shiftl 1 6.
Definition AXP20X_CHRG_CTRL1_ENABLE : Z := Z.shiftl 1 7.
Definition AXP20X_FG_ENABLE : Z := Z.shiftl 1 7.

Definition set_tbatt (power : axp20x_battery_power) (lo hi : Z) : axp20x_battery_power :=
  {| supply := supply power; health := health power; capacity := capacity power;
     percent := percent power; charge_user_imax := charge_user_imax power;
     tbatt_min := lo; tbatt_max := hi |}.

Definition set_capacity (power : axp20x_battery_power) (c : Z) : axp20x_battery_power :=
  {| supply := supply power; health := health power; capacity := c;
     percent := percent power; charge_user_imax := charge_user_imax power;
     tbatt_min := tbatt_min power; tbatt_max := tbatt_max power |}.

(** The first loop over [ocv]: the index of the first entry above 100 among
    the [n] entries from [i] on, where the loop returns -EINVAL. *)
Fixpoint ocv_check (ocv : list Z) (i : nat) (n : nat) : option nat :=
  match n with
  | O => None
  | S n' => if 100 <? nth i ocv 0 then Some i else ocv_check ocv (S i) n'
  end.

(** The second loop over [ocv]: the [n] entries from [i] on go to their
    registers; a failing update is logged and the loop goes on. *)
Fixpoint ocv_store (ocv : list Z) (i : nat) (n : nat) : M unit :=
  match n with
  | O => ret tt
  | S n' =>
      let* r := regmap_update_bits (AXP20X_OCV (Z.of_nat i)) 0xff (nth i ocv 0) in
      (if r <? 0 then dev_warn "Failed to store OCV[%d] setting: %d" (Z.of_nat i)
       else ret tt) ;;
      ocv_store ocv (S i) n'
  end.

(** [(rdc * 10000 + 5371) / 10742] in [u32] arithmetic. *)
Definition rdc_reg (rdc : Z) : Z := Z.quot (u32 (rdc * 10000 + 5371)) 10742.

(** The [switch (temp[0])] that selects the sensor current; no label
    matches any other value. *)
Definition ts_current_select (t0 : Z) : M unit :=
  let mask := Z.lor (Z.lor AXP20X_ADR_TS_CURR_MASK AXP20X_ADR_TS_WHEN_MASK)
                    AXP20X_ADR_TS_UNRELATED in
  if t0 =? 20 then
    regmap_update_bits AXP20X_ADC_RATE mask
      (Z.lor AXP20X_ADR_TS_CURR_20uA AXP20X_ADR_TS_WHEN_ADC) ;; ret tt
  else if t0 =? 40 then
    regmap_update_bits AXP20X_ADC_RATE mask
      (Z.lor AXP20X_ADR_TS_CURR_40uA AXP20X_ADR_TS_WHEN_ADC) ;; ret tt
  else if t0 =? 60 then
    regmap_update_bits AXP20X_ADC_RATE mask
      (Z.lor AXP20X_ADR_TS_CURR_60uA AXP20X_ADR_TS_WHEN_ADC) ;; ret tt
  else if t0 =? 80 then
    regmap_update_bits AXP20X_ADC_RATE mask
      (Z.lor AXP20X_ADR_TS_CURR_80uA AXP20X_ADR_TS_WHEN_ADC) ;; ret tt
  else ret tt.

(** The sensor part of [axp20x_battery_config], [if (temp[0] == 0) ...
    else ...]: the alert range of the driver state and the sensor
    registers. *)
Definition axp20x_battery_config_sensor (power : axp20x_battery_power)
    (temp : list Z) : M axp20x_battery_power :=
  let temp0 := nth 0 temp 0 in
  let temp1 := nth 1 temp 0 in
  let temp2 := nth 2 temp 0 in
  if temp0 =? 0 then
    regmap_update_bits AXP20X_ADC_RATE
      (Z.lor AXP20X_ADR_TS_WHEN_MASK AXP20X_ADR_TS_UNRELATED)
      (Z.lor AXP20X_ADR_TS_UNRELATED AXP20X_ADR_TS_WHEN_OFF) ;;
    ret (set_tbatt power 0 0)
  else
    let power := set_tbatt power (Int.wrap temp1) (Int.wrap temp2) in
    ts_current_select temp0 ;;
    let new_reg := Z.quot temp1 (0x10 * 800) in
    regmap_update_bits AXP20X_V_HTF_CHRG 0xff new_reg ;;
    regmap_update_bits AXP20X_V_HTF_DISCHRG 0xff new_reg ;;
    let new_reg := Z.quot temp2 (0x10 * 800) in
    regmap_update_bits AXP20X_V_LTF_CHRG 0xff new_reg ;;
    regmap_update_bits AXP20X_V_LTF_DISCHRG 0xff new_reg ;;
    ret power.

(** [axp20x_battery_config] from the comment [apply settings] on.  [reg] is
    the operating mode read at the start; [ocv], [rdc], [capa] and [temp]
    are the locals as the device-tree reads left them.  Log entries keep the
    format string and its first argument, 0 when it has none. *)
Definition axp20x_battery_config_apply (OCV_CURVE_SIZE : nat) (np : device_node)
    (power : axp20x_battery_power) (reg : Z) (ocv : list Z) (rdc capa : Z)
    (temp : list Z) : M (Z * axp20x_battery_power) :=
  let temp0 := nth 0 temp 0 in
  let power := set_health power POWER_SUPPLY_HEALTH_UNKNOWN in
  regmap_update_bits AXP20X_FG_RES AXP20X_FG_ENABLE 0x00 ;;
  regmap_update_bits AXP20X_RDC_H 0x80 0x00 ;;
  regmap_update_bits AXP20X_RDC_L 0xff (rdc_reg rdc) ;;
  regmap_update_bits AXP20X_RDC_H 0x1f (Z.shiftr (rdc_reg rdc) 8) ;;
  (if of_find_property np "ocv" then ocv_store ocv 0 OCV_CURVE_SIZE else ret tt) ;;
  regmap_update_bits AXP20X_FG_RES AXP20X_FG_ENABLE AXP20X_FG_ENABLE ;;
  if (capa =? 0) && negb (truthy (Z.land reg AXP20X_PWR_OP_BATT_PRESENT)) then
    (* No battery present or configured -> disable *)
    regmap_update_bits AXP20X_CHRG_CTRL1 AXP20X_CHRG_CTRL1_ENABLE 0x00 ;;
    regmap_update_bits AXP20X_OFF_CTRL AXP20X_OFF_CTRL_BATT_MON 0x00 ;;
    dev_info "No battery, disabling charger" 0 ;;
    ret (neg ENODEV, power)
  else
    let* power := axp20x_battery_config_sensor power temp in
    (* Enable battery voltage and current measurement *)
    let* r := regmap_update_bits AXP20X_ADC_EN1
                (Z.lor (Z.lor AXP20X_ADC_EN1_BATT_CURR AXP20X_ADC_EN1_BATT_VOLT)
                       (if truthy temp0 then AXP20X_ADC_EN1_TEMP else 0))
                (Z.lor (Z.lor AXP20X_ADC_EN1_BATT_CURR AXP20X_ADC_EN1_BATT_VOLT)
                       AXP20X_ADC_EN1_TEMP) in
    if truthy r then ret (r, power)
    else
      let power := set_capacity power (Int.wrap (u32 (capa * 1000))) in
      let power :=
        set_charge_user_imax power
          (Int.wrap (u32 ((if capa <? 300 then 300 else capa) * 1000))) in
      (* Prefer longer battery life over longer runtime. *)
      regmap_update_bits AXP20X_CHRG_CTRL1 AXP20X_CHRG_CTRL1_TGT_VOLT
                         AXP20X_CHRG_CTRL1_TGT_4_15V ;;
      (* Default to about 5% capacity, about 3.5V *)
      regmap_update_bits AXP20X_APS_WARN_L1 0xff
                         (Z.quot (Z.quot (3500000 - 2867200) 4) 1400) ;;
      regmap_update_bits AXP20X_APS_WARN_L2 0xff
                         (Z.quot (Z.quot (3304000 - 2867200) 4) 1400) ;;
      (* RDC - disable capacity monitor, reconfigure, re-enable *)
      regmap_update_bits AXP20X_FG_RES 0x80 0x80 ;;
      regmap_update_bits AXP20X_RDC_H 0x80 0x00 ;;
      regmap_update_bits AXP20X_RDC_H 0x1f (Z.shiftr (rdc_reg rdc) 8) ;;
      regmap_update_bits AXP20X_RDC_L 0xff (rdc_reg rdc) ;;
      regmap_update_bits AXP20X_FG_RES 0x80 0x00 ;;
      regmap_update_bits AXP20X_OFF_CTRL AXP20X_OFF_CTRL_BATT_MON
                         AXP20X_OFF_CTRL_BATT_MON ;;
      ret (0, power).

(** The test of [temp[0]] after a successful read of "temp_sensor". *)
Definition ts_current_invalid (temp0 : Z) : bool :=
  negb (temp0 =? 20) && negb (temp0 =? 40) && negb (temp0 =? 60) && negb (temp0 =? 80).

(** [OCV_CURVE_SIZE] is declared in the MFD header, which is not part of the
    sources, so the embedding takes it as an argument; [ocv0] is what the
    uninitialised array [ocv] holds on entry.  The result is the return
    value and the driver state on exit. *)
Definition axp20x_battery_config (OCV_CURVE_SIZE : nat) (np : device_node)
    (power : axp20x_battery_power) (ocv0 : list Z)
  : M (Z * axp20x_battery_power) :=
  let* r := regmap_read AXP20X_PWR_OP_MODE in
  match r with
  | RdErr e => ret (e, power)
  | RdOk reg =>
      let ocv_read := of_property_read_u32_array np "ocv" OCV_CURVE_SIZE in
      let ocv := match ocv_read with OfOk out => out | OfErr _ => ocv0 end in
      match (match ocv_read with
             | OfOk _ => ocv_check ocv 0 OCV_CURVE_SIZE
             | OfErr _ => None
             end) with
      | Some i =>
          dev_warn "OCV[%d] %u > 100" (Z.of_nat i) ;;
          ret (neg EINVAL, power)
      | None =>
          let rdc := match of_property_read_u32_array np "resistance" 1 with
                     | OfOk out => nth 0 out 0
                     | OfErr _ => 100
                     end in
          let capa := match of_property_read_u32_array np "capacity" 1 with
                      | OfOk out => nth 0 out 0
                      | OfErr _ => 0
                      end in
          let temp_read := of_property_read_u32_array np "temp_sensor" 3 in
          let temp := match temp_read with
                      | OfOk out => out
                      | OfErr _ => [0; 0; 0]
                      end in
          if (match temp_read with
              | OfOk _ => ts_current_invalid (nth 0 temp 0)
              | OfErr _ => false
              end)
          then
            dev_warn "Invalid battery temperature sensor current setting" 0 ;;
            ret (neg EINVAL, power)
          else
            dev_dbg "FDT settings: capacity=%d, resistance=%d, temp_sensor=<%d %d %d>"
                    capa ;;
            axp20x_battery_config_apply OCV_CURVE_SIZE np power reg ocv rdc capa temp
      end
  end.

(** [axp20x_battery_power_properties] *)
Definition axp20x_battery_power_properties : list power_supply_property :=
  [ POWER_SUPPLY_PROP_PRESENT;
    POWER_SUPPLY_PROP_ONLINE;
    POWER_SUPPLY_PROP_STATUS;
    POWER_SUPPLY_PROP_VOLTAGE_NOW;
    POWER_SUPPLY_PROP_CURRENT_NOW;
    POWER_SUPPLY_PROP_CURRENT_MAX;
    POWER_SUPPLY_PROP_HEALTH;
    POWER_SUPPLY_PROP_TECHNOLOGY;
    POWER_SUPPLY_PROP_VOLTAGE_MAX_DESIGN;
    POWER_SUPPLY_PROP_VOLTAGE_MIN_DESIGN;
    (* POWER_SUPPLY_PROP_POWER_NOW, *)
    POWER_SUPPLY_PROP_CHARGE_FULL_DESIGN;
    (* POWER_SUPPLY_PROP_CHARGE_NOW, *)
    POWER_SUPPLY_PROP_CAPACITY;
    POWER_SUPPLY_PROP_TEMP;
    POWER_SUPPLY_PROP_TEMP_ALERT_MIN;
    POWER_SUPPLY_PROP_TEMP_ALERT_MAX ].

(** The properties of [axp20x_battery_power_desc], which probe registers,
    and of [axp20x_battery_ts_power_desc]: [.properties] cut to
    [.num_properties]. *)
Definition axp20x_battery_power_desc : list power_supply_property :=
  take (length axp20x_battery_power_properties - 3) axp20x_battery_power_properties.

Definition axp20x_battery_ts_power_desc : list power_supply_property :=
  take (length axp20x_battery_power_properties) axp20x_battery_power_properties.

(** A node of a 2000 mAh battery with a 16-point curve and a sensor. *)
Definition np_battery : device_node :=
  <["ocv"%string := [0; 0; 0; 0; 1; 2; 4; 8; 15; 24; 40; 56; 68; 79; 90; 100]]>
  (<["resistance"%string := [120]]>
   (<["capacity"%string := [2000]]>
    (<["temp_sensor"%string := [40; 2000000; 3000000]]> ∅))).

(** A node whose curve has an entry above 100. *)
Definition np_bad_curve : device_node :=
  <["ocv"%string := [0; 50; 101; 100]]> (<["capacity"%string := [2000]]> ∅).

(** A node whose curve is shorter than four entries. *)
Definition np_short_curve : device_node :=
  <["ocv"%string := [0; 50]]> (<["capacity"%string := [2000]]> ∅).

(** An empty node, and a bus that reports no battery. *)
Definition np_empty : device_node := ∅.

(** ** Arithmetic and bit-field facts *)

Lemma wrap_in_range z : Int.in_range z -> Int.wrap z = z.
Proof.
  unfold Int.in_range, Int.INT_MIN, Int.INT_MAX, Int.wrap. intros H.
  rewrite Z.mod_small by lia. lia.
Qed.

Lemma wrap_range z : Int.in_range (Int.wrap z).
Proof.
  unfold Int.in_range, Int.INT_MIN, Int.INT_MAX, Int.wrap.
  pose proof (Z.mod_pos_bound (z + 2147483648) 4294967296). lia.
Qed.

Lemma neg_negative e : neg e < 0.
Proof. destruct e; reflexivity. Qed.

Lemma health_eqb_eq a b : health_eqb a b = true <-> a = b.
Proof. destruct a, b; split; intros H; try reflexivity; discriminate H. Qed.

Lemma reg8_range d r : 0 <= reg8 d r < 256.
Proof.
  unfold reg8. change 255 with (Z.ones 8).
  rewrite Z.land_ones by lia. apply Z.mod_pos_bound. lia.
Qed.

Lemma reg8_tick d r : reg8 (tick d) r = reg8 d r.
Proof. reflexivity. Qed.

Lemma raw12_sum hi lo : raw12 hi lo = hi * 16 + lo mod 16.
Proof.
  unfold raw12. change 15 with (Z.ones 4).
  rewrite Z.land_ones by lia. change (2 ^ 4) with 16.
  assert (Hd : Z.land (Z.shiftl hi 4) (lo mod 16) = 0).
  { apply Z.bits_inj'. intros n Hn. rewrite Z.land_spec, Z.bits_0.
    destruct (Z.lt_ge_cases n 4) as [Hlt|Hge].
    - rewrite Z.shiftl_spec_low by lia. reflexivity.
    - change 16 with (2 ^ 4). rewrite (Z.mod_pow2_bits_high lo 4 n) by lia.
      apply andb_false_r. }
  rewrite <- Z.lxor_lor, <- Z.add_nocarry_lxor by exact Hd.
  rewrite Z.shiftl_mul_pow2 by lia. reflexivity.
Qed.

Lemma raw12_range hi lo : 0 <= hi < 256 -> 0 <= raw12 hi lo < 4096.
Proof.
  intros H. rewrite raw12_sum.
  pose proof (Z.mod_pos_bound lo 16). lia.
Qed.

Lemma raw12_reg8_range d d' r r' : 0 <= raw12 (reg8 d r) (reg8 d' r') < 4096.
Proof. apply raw12_range, reg8_range. Qed.

(** A test of one bit, the way the driver writes it. *)
Lemma truthy_bit x k : 0 <= k -> truthy (Z.land x (Z.shiftl 1 k)) = Z.testbit x k.
Proof.
  intros Hk. unfold truthy. rewrite Z.shiftl_1_l.
  destruct (Z.testbit x k) eqn:E.
  - apply negb_true_iff, Z.eqb_neq. intros H0.
    assert (Z.testbit (Z.land x (2 ^ k)) k = false) as H1 by (rewrite H0; apply Z.bits_0).
    rewrite Z.land_spec, E, Z.pow2_bits_true in H1 by lia. discriminate.
  - apply negb_false_iff, Z.eqb_eq. apply Z.bits_inj'. intros n Hn.
    rewrite Z.land_spec, Z.bits_0, Z.pow2_bits_eqb by lia.
    destruct (Z.eqb_spec k n); subst; rewrite ?E, ?andb_false_r; reflexivity.
Qed.

(** ** Inverting a run *)

Lemma bind_inv {A B : Type} (m : M A) (k : A -> M B) d b d2 t :
  bind m k d = Outcome b d2 t ->
  exists a d1 t1 t2, m d = Outcome a d1 t1 /\ k a d1 = Outcome b d2 t2 /\ t = t1 ++ t2.
Proof.
  unfold bind. destruct (m d) as [a d1 t1]. destruct (k a d1) as [b' d2' t2] eqn:Ek.
  intros H. injection H as -> -> <-. exists a, d1, t1, t2. auto.
Qed.

Lemma ret_inv {A : Type} (a : A) d b d' t :
  ret a d = Outcome b d' t -> b = a /\ d' = d /\ t = [].
Proof. unfold ret. intros H. injection H as <- <- <-. auto. Qed.

Lemma emit_inv e d b d' t :
  emit e d = Outcome b d' t -> d' = d /\ t = [e].
Proof. unfold emit. intros H. injection H as _ <- <-. auto. Qed.

Lemma regmap_read_inv reg d r d' t :
  regmap_read reg d = Outcome r d' t ->
  d' = tick d /\ t = [EvRead reg r] /\
  (next_fault d = None /\ r = RdOk (reg8 d reg) \/
   exists e, next_fault d = Some e /\ r = RdErr (neg e)).
Proof.
  unfold regmap_read. intros H. injection H as <- <- <-.
  destruct (next_fault d) as [e|]; eauto 6.
Qed.

Lemma regmap_update_bits_inv reg mask val d r d' t :
  regmap_update_bits reg mask val d = Outcome r d' t ->
  t = [EvUpdateBits reg mask val r] /\
  (next_fault d = None /\ r = 0 /\ d' = updated d reg mask val \/
   exists e, next_fault d = Some e /\ r = neg e /\ d' = tick d).
Proof.
  unfold regmap_update_bits. destruct (next_fault d) as [e|];
    intros H; injection H as <- <- <-; eauto 8.
Qed.

(** The [out:] label stores the sample and notifies when it differs from the
    cached pair and the supply is registered. *)
Lemma axp20x_battery_poll_out_run power h pc d :
  axp20x_battery_poll_out power h pc d =
  Outcome (set_health_percent power h pc) d
          (if pair_changed power (set_health_percent power h pc) && supply power
           then [EvChanged] else []).
Proof.
  unfold axp20x_battery_poll_out, pair_changed. cbn [health percent set_health_percent].
  destruct (negb (health_eqb (health power) h) || negb (percent power =? pc)) eqn:E.
  - destruct (supply power); reflexivity.
  - apply orb_false_iff in E as [E1 E2].
    apply negb_false_iff, health_eqb_eq in E1. apply negb_false_iff, Z.eqb_eq in E2.
    subst. destruct power; reflexivity.
Qed.

(** The three ways a 12-bit variable-width read ends. *)
Lemma axp20x_read_variable_width_inv reg d v d' t :
  axp20x_read_variable_width reg 12 d = Outcome v d' t ->
  (next_fault d = None /\ next_fault (tick d) = None /\
   v = raw12 (reg8 d reg) (reg8 d (reg + 1)) /\ d' = tick (tick d) /\
   t = [EvRead reg (RdOk (reg8 d reg)); EvRead (reg + 1) (RdOk (reg8 d (reg + 1)))]) \/
  (exists e, v = neg e /\
     (next_fault d = Some e /\ d' = tick d /\ t = [EvRead reg (RdErr (neg e))] \/
      next_fault d = None /\ next_fault (tick d) = Some e /\ d' = tick (tick d) /\
      t = [EvRead reg (RdOk (reg8 d reg)); EvRead (reg + 1) (RdErr (neg e))])).
Proof.
  unfold axp20x_read_variable_width. intros H.
  apply bind_inv in H as (hi & d1 & t1 & t2 & Hhi & Hk & ->).
  apply regmap_read_inv in Hhi as (-> & -> & [[Hf ->] | (e & Hf & ->)]).
  - apply bind_inv in Hk as (lo & d2 & t3 & t4 & Hlo & Hk & ->).
    apply regmap_read_inv in Hlo as (-> & -> & [[Hg ->] | (e & Hg & ->)]);
      apply ret_inv in Hk as (-> & -> & ->).
    + left. auto.
    + right. exists e. auto 10.
  - apply ret_inv in Hk as (-> & -> & ->). right. exists e. auto 10.
Qed.

(** Splits the equation of a run into the equations of its steps. *)
Ltac inv_run H :=
  cbv beta iota zeta in H;
  lazymatch type of H with
  | bind _ _ _ = Outcome _ _ _ =>
      let H1 := fresh "Hm" in
      let H2 := fresh "Hk" in
      apply bind_inv in H; destruct H as (? & ? & ? & ? & H1 & H2 & ?);
      inv_run H1; inv_run H2
  | ret _ _ = Outcome _ _ _ =>
      apply ret_inv in H; destruct H as (? & ? & ?); subst
  | emit _ _ = Outcome _ _ _ =>
      apply emit_inv in H; destruct H as (? & ?); subst
  | power_supply_changed _ = Outcome _ _ _ =>
      apply emit_inv in H; destruct H as (? & ?); subst
  | dev_info _ _ _ = Outcome _ _ _ =>
      apply emit_inv in H; destruct H as (? & ?); subst
  | dev_dbg _ _ _ = Outcome _ _ _ =>
      apply emit_inv in H; destruct H as (? & ?); subst
  | dev_warn _ _ _ = Outcome _ _ _ =>
      apply emit_inv in H; destruct H as (? & ?); subst
  | dev_crit _ _ _ = Outcome _ _ _ =>
      apply emit_inv in H; destruct H as (? & ?); subst
  | regmap_read _ _ = Outcome _ _ _ =>
      apply regmap_read_inv in H;
      destruct H as (? & ? & [[? ?] | (? & ? & ?)]); subst
  | regmap_update_bits _ _ _ _ = Outcome _ _ _ =>
      apply regmap_update_bits_inv in H;
      destruct H as (? & [(? & ? & ?) | (? & ? & ? & ?)]); subst
  | axp20x_read_variable_width _ 12 _ = Outcome _ _ _ =>
      apply axp20x_read_variable_width_inv in H;
      destruct H as [(? & ? & ? & ? & ?) |
                     (? & ? & [(? & ? & ?) | (? & ? & ? & ?)])]; subst
  | axp20x_battery_poll_out _ _ _ _ = Outcome _ _ _ =>
      rewrite axp20x_battery_poll_out_run in H; injection H as ? ? ?; subst
  | (if ?c then _ else _) _ = Outcome _ _ _ =>
      destruct c eqn:?; inv_run H
  | (match ?r with RdOk _ => _ | RdErr _ => _ end) _ = Outcome _ _ _ =>
      destruct r; inv_run H
  | _ => idtac
  end.

(** Turns boolean tests in the context into propositions for [lia]. *)
Ltac bool_hyps :=
  repeat match goal with
  | H : _ && _ = true |- _ => apply andb_true_iff in H; destruct H
  | H : _ || _ = false |- _ => apply orb_false_iff in H; destruct H
  | H : _ && _ = false |- _ => apply andb_false_iff in H; destruct H
  | H : _ || _ = true |- _ => apply orb_true_iff in H; destruct H
  | H : negb _ = true |- _ => apply negb_true_iff in H
  | H : negb _ = false |- _ => apply negb_false_iff in H
  | H : (_ <? _) = true |- _ => apply Z.ltb_lt in H
  | H : (_ <? _) = false |- _ => apply Z.ltb_ge in H
  | H : (_ <=? _) = true |- _ => apply Z.leb_le in H
  | H : (_ <=? _) = false |- _ => apply Z.leb_gt in H
  | H : (_ =? _) = true |- _ => apply Z.eqb_eq in H
  | H : (_ =? _) = false |- _ => apply Z.eqb_neq in H
  end.


Lemma int_mul_raw12 hi lo k :
  0 <= hi < 256 -> 0 <= k <= 2000 -> Int.mul (raw12 hi lo) k = raw12 hi lo * k.
Proof.
  intros Hhi Hk. pose proof (raw12_range hi lo Hhi) as Hr.
  unfold Int.mul. apply wrap_in_range.
  unfold Int.in_range, Int.INT_MIN, Int.INT_MAX. nia.
Qed.

(** A trace that ends in the [out:] label cannot continue with a read. *)
Ltac trace_absurd H :=
  lazymatch type of H with
  | (if ?c then _ else _) = _ :: _ => destruct c; discriminate H
  | _ => discriminate H
  end.

(** Goes through the elements of a concrete trace that a hypothesis says
    an event is in. *)
Ltac decompose_in H :=
  repeat match type of H with
  | _ \/ _ => destruct H as [H | H]
  | False => destruct H
  end;
  simplify_eq.

(** Case analysis on the integer comparisons of the goal. *)
Ltac cmp_cases :=
  repeat match goal with
  | |- context [?a <? ?b] => destruct (Z.ltb_spec a b)
  | |- context [?a <=? ?b] => destruct (Z.leb_spec a b)
  | |- context [?a =? ?b] => destruct (Z.eqb_spec a b)
  end;
  cbn [andb orb negb]; try reflexivity; try lia; try congruence.

(** ** Periodic monitor *)

(** C1 (counterexample).  Battery present, voltage reading 0x100 (below the
    dead threshold), temperature range [2000, 3000] configured and the
    temperature reading 0x100 below it: the poll ends with health Cold, not
    Dead. *)
Lemma dead_priority_counterexample : ~ dead_has_priority power_ts bus_low_voltage.
Proof.
  intros H.
  assert (E : health (value (axp20x_battery_poll power_ts bus_low_voltage))
              = POWER_SUPPLY_HEALTH_DEAD).
  { apply (H 32 16 0 (RdOk 0) AXP20X_BATT_V_H 16 0 [EvChanged]);
      [reflexivity | reflexivity | reflexivity | left; reflexivity]. }
  vm_compute in E. discriminate E.
Qed.

(** C1 (amended).  In a poll cycle that finds the battery present and gets
    both the voltage reading [v] and the temperature reading [t] (which
    happens only with a temperature range configured), the temperature checks
    come last and win: health is Cold when [t < tbatt_min], else Overheat when
    [t > tbatt_max], and only otherwise Dead when [v * 1100 < 2000000], else
    Unknown. *)
Theorem poll_health_priority power d m vh vl g ts th tl rest :
  trace (axp20x_battery_poll power d) =
    EvRead AXP20X_PWR_OP_MODE (RdOk m) ::
    EvRead AXP20X_BATT_V_H (RdOk vh) :: EvRead (AXP20X_BATT_V_H + 1) (RdOk vl) ::
    EvRead AXP20X_FG_RES g ::
    EvRead ts (RdOk th) :: EvRead (ts + 1) (RdOk tl) :: rest ->
  Z.testbit m 5 = true /\
  (tbatt_min power <> 0 \/ tbatt_max power <> 0) /\
  health (value (axp20x_battery_poll power d)) =
    if raw12 th tl <? tbatt_min power then POWER_SUPPLY_HEALTH_COLD
    else if tbatt_max power <? raw12 th tl then POWER_SUPPLY_HEALTH_OVERHEAT
    else if raw12 vh vl * 1100 <? 2000000 then POWER_SUPPLY_HEALTH_DEAD
    else POWER_SUPPLY_HEALTH_UNKNOWN.
Proof.
  destruct (axp20x_battery_poll power d) as [p' d' tr] eqn:Hrun.
  cbn [value trace]. unfold axp20x_battery_poll in Hrun.
  inv_run Hrun; cbn [app]; intros Htr; try discriminate Htr.
  all: simplify_eq; try (match goal with H : _ = _ :: _ |- _ => trace_absurd H end).
  all: rewrite ?reg8_tick in *.
  all: unfold AXP20X_PWR_OP_BATT_PRESENT in *; rewrite truthy_bit in * by lia.
  all: unfold truthy in *; bool_hyps.
  all: rewrite ?int_mul_raw12 in * by (try apply reg8_range; lia).
  all: repeat split; try assumption; try (left; assumption); try (right; assumption).
  all: cbn [health set_health_percent].
  all: try pose proof (raw12_reg8_range d d AXP20X_BATT_V_H (AXP20X_BATT_V_H + 1)).
  all: cmp_cases.
Qed.

Lemma poll_health_priority_witness :
  health (value (axp20x_battery_poll power_ts bus_low_voltage)) = POWER_SUPPLY_HEALTH_COLD.
Proof.
  exact (proj2 (proj2 (poll_health_priority power_ts bus_low_voltage
                         32 16 0 (RdOk 0) AXP20X_BATT_V_H 16 0 [EvChanged] eq_refl))).
Defined.

(** Without a temperature range the poll reads no temperature, and the
    dead-cell check alone decides between Dead and Unknown. *)
Lemma poll_health_without_range power d m vh vl g rest :
  tbatt_min power = 0 -> tbatt_max power = 0 ->
  trace (axp20x_battery_poll power d) =
    EvRead AXP20X_PWR_OP_MODE (RdOk m) ::
    EvRead AXP20X_BATT_V_H (RdOk vh) :: EvRead (AXP20X_BATT_V_H + 1) (RdOk vl) ::
    EvRead AXP20X_FG_RES g :: rest ->
  health (value (axp20x_battery_poll power d)) =
    if raw12 vh vl * 1100 <? 2000000 then POWER_SUPPLY_HEALTH_DEAD
    else POWER_SUPPLY_HEALTH_UNKNOWN.
Proof.
  intros Hmin Hmax.
  destruct (axp20x_battery_poll power d) as [p' d' tr] eqn:Hrun.
  cbn [value trace]. unfold axp20x_battery_poll in Hrun.
  rewrite Hmin, Hmax in Hrun. cbn [truthy Z.eqb negb orb] in Hrun.
  inv_run Hrun; cbn [app]; intros Htr; try discriminate Htr.
  all: simplify_eq; try (match goal with H : _ = _ :: _ |- _ => trace_absurd H end).
  all: rewrite ?reg8_tick in *.
  all: rewrite ?int_mul_raw12 in * by (try apply reg8_range; lia).
  all: cbn [health set_health_percent].
  all: pose proof (raw12_reg8_range d d AXP20X_BATT_V_H (AXP20X_BATT_V_H + 1)).
  all: cmp_cases.
Qed.

(** C2 (counterexample).  Battery present, cached percent 55, and the gauge
    read fails with -EIO: the poll stores percent 0. *)
Lemma percent_zeroed_counterexample :
  ~ percent_kept_on_gauge_failure power_ts bus_gauge_fault.
Proof.
  intros H.
  assert (E : percent (value (axp20x_battery_poll power_ts bus_gauge_fault))
              = percent power_ts).
  { apply (H 32 (neg EIO)); [left; reflexivity | reflexivity |].
    do 3 right. left. reflexivity. }
  vm_compute in E. discriminate E.
Qed.

(** C2 (amended).  In a poll cycle that reads the operating mode: with the
    battery present, a failing gauge read makes the stored percent 0 and a
    successful one makes it the 7-bit gauge field; with the battery absent
    the stored percent is 0 and the health Unknown. *)
Theorem poll_percent_sample power d m :
  In (EvRead AXP20X_PWR_OP_MODE (RdOk m)) (trace (axp20x_battery_poll power d)) ->
  let after := value (axp20x_battery_poll power d) in
  if Z.testbit m 5 then
    (forall e, In (EvRead AXP20X_FG_RES (RdErr e)) (trace (axp20x_battery_poll power d)) ->
               percent after = 0) /\
    (forall g, In (EvRead AXP20X_FG_RES (RdOk g)) (trace (axp20x_battery_poll power d)) ->
               percent after = Z.land g 0x7f)
  else percent after = 0 /\ health after = POWER_SUPPLY_HEALTH_UNKNOWN.
Proof.
  destruct (axp20x_battery_poll power d) as [p' d' tr] eqn:Hrun.
  cbn [value trace]. unfold axp20x_battery_poll in Hrun.
  inv_run Hrun; cbn [app]; intros Hin.
  all: repeat match goal with
         | H : context [if ?c then [EvChanged] else []] |- _ => destruct c
         end.
  all: unfold AXP20X_PWR_OP_BATT_PRESENT in *; rewrite ?truthy_bit in * by lia.
  all: unfold AXP20X_PWR_OP_MODE, AXP20X_BATT_V_H, AXP20X_FG_RES in *.
  all: cbn [In] in Hin; decompose_in Hin.
  all: bool_hyps; rewrite ?reg8_tick in *.
  all: cbn [percent health set_health_percent].
  all: match goal with H : Z.testbit _ 5 = _ |- _ => rewrite H end.
  all: repeat split; try reflexivity.
  all: intros x Hx; cbn [In] in Hx; decompose_in Hx; reflexivity.
Qed.

Lemma poll_percent_sample_witness :
  percent (value (axp20x_battery_poll power_ts bus_gauge_fault)) = 0.
Proof.
  refine (proj1 (poll_percent_sample power_ts bus_gauge_fault 32 _) (neg EIO) _).
  - left. reflexivity.
  - do 3 right. left. reflexivity.
Defined.

(** ** Charge policy engine *)

Lemma int_div_2 c : Int.in_range c -> Int.div c 2 = Z.quot c 2.
Proof.
  unfold Int.div, Int.in_range, Int.INT_MIN, Int.INT_MAX. intros H.
  apply wrap_in_range. unfold Int.in_range, Int.INT_MIN, Int.INT_MAX.
  destruct (Z.le_gt_cases 0 c) as [Hc|Hc].
  - rewrite Z.quot_div_nonneg by lia.
    pose proof (Z.div_pos c 2). pose proof (Z.div_le_upper_bound c 2 c). lia.
  - replace c with (- - c) by lia. rewrite Z.quot_opp_l by lia.
    rewrite Z.quot_div_nonneg by lia.
    pose proof (Z.div_pos (- c) 2). pose proof (Z.div_le_upper_bound (- c) 2 (- c)). lia.
Qed.

Lemma land_3_range x : 0 <= Z.land x 3 < 4.
Proof.
  change 3 with (Z.ones 2). rewrite Z.land_ones by lia. apply Z.mod_pos_bound. lia.
Qed.

(** C3.  [axp20x_battery_max_chg_current] follows the table of section 4.3
    for every content of the status and bus-limit registers, and hands a
    failing register read back as the error it got. *)
Theorem max_chg_current_table power d :
  Int.in_range (capacity power) ->
  let o := axp20x_battery_max_chg_current power d in
  let status := reg8 d AXP20X_PWR_INPUT_STATUS in
  let vbusmgt := reg8 d AXP20X_VBUS_IPSOUT_MGMT in
  (forall reg e, In (EvRead reg (RdErr e)) (trace o) -> value o = e /\ e < 0) /\
  (reads_ok (trace o) = true ->
   value o = Spec.max_charge_current
               (Z.testbit status 7) (Z.testbit status 6)
               (Z.testbit status 5) (Z.testbit status 4)
               (bus_limit_of vbusmgt) (capacity power)) /\
  bus_writes (trace o) = [] /\
  regs (bus o) = regs d.
Proof.
  intros Hcap. cbv zeta.
  destruct (axp20x_battery_max_chg_current power d) as [v d' tr] eqn:Hrun.
  cbn [value trace bus]. unfold axp20x_battery_max_chg_current in Hrun.
  inv_run Hrun; cbn [app].
  all: unfold AXP20X_PWR_STATUS_AC_PRESENT, AXP20X_PWR_STATUS_AC_AVAILABLE,
         AXP20X_PWR_STATUS_VBUS_PRESENT, AXP20X_PWR_STATUS_VBUS_AVAILABLE in *;
       rewrite ?truthy_bit in * by lia; rewrite ?reg8_tick in *.
  all: split;
    [ intros reg e Hin; cbn [In] in Hin; decompose_in Hin;
      try (split; [reflexivity | apply neg_negative])
    | split; [ | split; reflexivity ] ].
  all: try (intros Hok; discriminate Hok).
  all: intros _; unfold Spec.max_charge_current, bus_limit_of.
  all: repeat match goal with
         | H : ?b = _ |- context [?b] => rewrite H
         end.
  all: rewrite ?int_div_2 by assumption; try reflexivity.
  all: pose proof (land_3_range (reg8 d AXP20X_VBUS_IPSOUT_MGMT));
       unfold AXP20X_VBUS_CLIMIT_MASK, AXP20X_VBUC_CLIMIT_100mA, AXP20X_VBUC_CLIMIT_500mA,
         AXP20X_VBUC_CLIMIT_900mA, AXP20X_VBUC_CLIMIT_NONE in *; bool_hyps; lia.
Qed.

Lemma max_chg_current_table_witness :
  value (axp20x_battery_max_chg_current power_ts bus_vbus) = 300000.
Proof.
  refine (proj1 (proj2 (max_chg_current_table power_ts bus_vbus _)) _).
  - unfold Int.in_range, Int.INT_MIN, Int.INT_MAX. cbn. lia.
  - reflexivity.
Defined.

(** Recomputing the maximum charge current only reads: it leaves the
    registers as they are, writes nothing and notifies nobody. *)
Lemma max_chg_current_reads_only power d :
  let m := axp20x_battery_max_chg_current power d in
  regs (bus m) = regs d /\ bus_writes (trace m) = [] /\
  notifications (trace m) = 0%nat /\
  tgt_curr_writes (trace m) = [] /\
  Int.in_range (value m).
Proof.
  cbv zeta.
  destruct (axp20x_battery_max_chg_current power d) as [v d' tr] eqn:Hrun.
  cbn [value trace bus]. unfold axp20x_battery_max_chg_current in Hrun.
  inv_run Hrun; repeat split; try reflexivity.
  all: try (apply wrap_range).
  all: try (match goal with |- context [neg ?e] => destruct e end).
  all: unfold Int.INT_MIN, Int.INT_MAX, neg; cbn; lia.
Qed.

Lemma reg8_regs d d' r : regs d' = regs d -> reg8 d' r = reg8 d r.
Proof. unfold reg8. intros ->. reflexivity. Qed.

Lemma land_255_idem a : Z.land (Z.land a 255) 255 = Z.land a 255.
Proof. rewrite <- Z.land_assoc. reflexivity. Qed.

(** What a register holds after a read-modify-write that went through. *)
Lemma reg8_updated d reg mask val r :
  reg8 (updated d reg mask val) r =
  if r =? reg
  then Z.land (Z.lor (Z.land (reg8 d reg) (Z.lnot mask)) (Z.land val mask)) 255
  else reg8 d r.
Proof.
  unfold updated.
  destruct (Z.eqb_spec (Z.land (Z.lor (Z.land (reg8 d reg) (Z.lnot mask))
                                      (Z.land val mask)) 255) (reg8 d reg)) as [E|E];
    destruct (Z.eqb_spec r reg) as [->|Hr].
  - rewrite reg8_tick. symmetry. exact E.
  - apply reg8_tick.
  - unfold reg8 at 1. cbn [regs]. rewrite lookup_insert_eq. cbn [default].
    apply land_255_idem.
  - unfold reg8 at 1. cbn [regs]. rewrite lookup_insert_ne by congruence. reflexivity.
Qed.

Lemma testbit_255 n : 0 <= n -> Z.testbit 255 n = (n <? 8).
Proof. intros Hn. change 255 with (Z.ones 8). apply Z.testbit_ones_nonneg; lia. Qed.

(** Bit [n] of an updated register comes from the new value under the mask
    and from the old content elsewhere. *)
Lemma testbit_update_field orig mask val n :
  0 <= n < 8 ->
  Z.testbit (Z.land (Z.lor (Z.land orig (Z.lnot mask)) (Z.land val mask)) 255) n =
  if Z.testbit mask n then Z.testbit val n else Z.testbit orig n.
Proof.
  intros Hn.
  rewrite Z.land_spec, Z.lor_spec, !Z.land_spec, Z.lnot_spec, testbit_255 by lia.
  destruct (Z.ltb_spec n 8); [|lia].
  destruct (Z.testbit mask n), (Z.testbit val n), (Z.testbit orig n); reflexivity.
Qed.

Lemma testbit_reg8_high d r n : 8 <= n -> Z.testbit (reg8 d r) n = false.
Proof.
  intros Hn. unfold reg8. rewrite Z.land_spec, testbit_255 by lia.
  destruct (Z.ltb_spec n 8); [lia|]. apply andb_false_r.
Qed.

(** Linear arithmetic with the truncating division spelled out. *)
Ltac div_lia :=
  unfold Int.in_range, Int.INT_MIN, Int.INT_MAX in *;
  Z.to_euclidean_division_equations; lia.

Lemma int_div_100000 a : Int.in_range a -> Int.div a 100000 = Z.quot a 100000.
Proof.
  intros H. unfold Int.div. apply wrap_in_range. div_lia.
Qed.

(** From the first step on, the driver's clamp and division compute the
    field of section 4.3; below it they do not (see [reconfig_small_battery]). *)
Lemma reconfig_field x :
  Int.in_range x -> 300000 <= x ->
  Int.unsigned
    (Int.div (Int.sub (if 0x0f <? Int.div (Int.sub x 300000) 100000
                       then Int.add 300000 (Int.mul 0x0f 100000) else x) 300000) 100000)
  = Spec.current_field x.
Proof.
  intros Hx Hlo.
  assert (Hs : Int.in_range (x - 300000))
    by (unfold Int.in_range, Int.INT_MIN, Int.INT_MAX in *; lia).
  unfold Int.sub, Int.add, Int.mul.
  rewrite (wrap_in_range (x - 300000)) by assumption.
  rewrite (int_div_100000 (x - 300000)) by assumption.
  unfold Spec.current_field, Spec.max_target_current, Int.unsigned.
  rewrite Z.max_r by lia.
  destruct (Z.ltb_spec 15 (Z.quot (x - 300000) 100000)) as [Hc|Hc].
  - assert (1900000 <= x) by div_lia.
    rewrite Z.min_r by lia. reflexivity.
  - rewrite (wrap_in_range (x - 300000)) by assumption.
    rewrite (int_div_100000 (x - 300000)) by assumption.
    assert (0 <= Z.quot (x - 300000) 100000) by (apply Z.quot_pos; lia).
    rewrite Z.mod_small by lia.
    destruct (Z.le_gt_cases x 1800000).
    + rewrite Z.min_l by lia. reflexivity.
    + rewrite Z.min_r by lia. div_lia.
Qed.

(** In range, the field is the largest 100 mA step not above the target. *)
Lemma current_field_step x :
  300000 <= x ->
  let f := Spec.current_field x in
  0 <= f <= 15 /\
  300000 + 100000 * f <= Z.min x Spec.max_target_current < 300000 + 100000 * (f + 1).
Proof.
  intros Hx. cbv zeta. unfold Spec.current_field, Spec.max_target_current.
  rewrite Z.max_r by lia.
  destruct (Z.le_gt_cases x 1800000).
  - rewrite Z.min_l by lia. div_lia.
  - rewrite Z.min_r by lia. div_lia.
Qed.

Lemma testbit_15 n : 0 <= n -> Z.testbit 15 n = (n <? 4).
Proof. intros Hn. change 15 with (Z.ones 4). apply Z.testbit_ones_nonneg; lia. Qed.

(** The low nibble of a register after its target-current field is set. *)
Lemma land_15_update orig f :
  Z.land (Z.land (Z.lor (Z.land orig (Z.lnot 15)) (Z.land f 15)) 255) 15 = Z.land f 15.
Proof.
  apply Z.bits_inj'. intros n Hn.
  rewrite (Z.land_spec _ 15), (Z.land_spec f 15), testbit_15 by lia.
  destruct (Z.ltb_spec n 4); [|rewrite !andb_false_r; reflexivity].
  rewrite testbit_update_field, testbit_15 by lia.
  destruct (Z.ltb_spec n 4); [reflexivity | lia].
Qed.

(** The charging bit after an update of AXP20X_PWR_OP_MODE under the mask
    AXP20X_PWR_OP_CHARGING. *)
Lemma charging_bit_updated d val :
  Z.testbit (reg8 (updated d AXP20X_PWR_OP_MODE AXP20X_PWR_OP_CHARGING val)
                  AXP20X_PWR_OP_MODE) 6 = Z.testbit val 6.
Proof.
  rewrite reg8_updated, Z.eqb_refl, testbit_update_field by lia. reflexivity.
Qed.

(** An update of one register leaves the others alone. *)
Lemma reg8_updated_other d reg mask val r :
  r <> reg -> reg8 (updated d reg mask val) r = reg8 d r.
Proof.
  intros Hr. rewrite reg8_updated. destruct (Z.eqb_spec r reg); [contradiction | reflexivity].
Qed.

Lemma if_ltb_min u c : (if u <? c then u else c) = Z.min c u.
Proof. destruct (Z.ltb_spec u c); lia. Qed.

(** C4 (counterexample).  When the status read fails with -EIO the
    reconfiguration returns at once: the last thing it did is that read, not
    a notification. *)
Lemma reconfig_no_notification_counterexample :
  ~ reconfig_always_notifies power_ts bus_status_fault.
Proof. intros H. vm_compute in H. discriminate H. Qed.

(** C4 (amended).  [axp20x_battery_chg_reconfig] recomputes the maximum
    charge current, which itself writes nothing and notifies nobody.  When
    that fails (negative) the call ends there.  When it is 0 the call clears
    the charging bit, writes no current field and ends by notifying.  When it
    is positive the call updates the 4-bit current field, sets the charging
    bit and ends by notifying; and when the target, the smaller of the
    maximum and the user ceiling, is at least 300000 uA, the field written is
    the largest 100 mA step not above the target and not above
    300000 + 15 * 100000 uA.  Nothing is said of the field for a positive
    target below the first step. *)
Theorem chg_reconfig_cases power d :
  Int.in_range (charge_user_imax power) ->
  let m := axp20x_battery_max_chg_current power d in
  let o := axp20x_battery_chg_reconfig power d in
  bus_writes (trace m) = [] /\ notifications (trace m) = 0%nat /\
  if value m <? 0 then
    o = Outcome tt (bus m) (trace m)
  else if value m =? 0 then
    exists r,
      trace o = trace m ++
        [EvUpdateBits AXP20X_PWR_OP_MODE AXP20X_PWR_OP_CHARGING 0 r; EvChanged] /\
      (r = 0 -> Z.testbit (reg8 (bus o) AXP20X_PWR_OP_MODE) 6 = false /\
                reg8 (bus o) AXP20X_CHRG_CTRL1 = reg8 d AXP20X_CHRG_CTRL1)
  else
    let target := Z.min (value m) (charge_user_imax power) in
    exists field r1 r2,
      trace o = trace m ++
        [EvUpdateBits AXP20X_CHRG_CTRL1 AXP20X_CHRG_CTRL1_TGT_CURR field r1;
         EvUpdateBits AXP20X_PWR_OP_MODE AXP20X_PWR_OP_CHARGING AXP20X_PWR_OP_CHARGING r2;
         EvChanged] /\
      (r2 = 0 -> Z.testbit (reg8 (bus o) AXP20X_PWR_OP_MODE) 6 = true) /\
      (300000 <= target ->
       0 <= field <= 15 /\
       300000 + 100000 * field <= Z.min target (300000 + 15 * 100000)
                               < 300000 + 100000 * (field + 1) /\
       (r1 = 0 -> Z.land (reg8 (bus o) AXP20X_CHRG_CTRL1) 0x0f = field)).
Proof.
  intros Hu. cbv zeta.
  destruct (max_chg_current_reads_only power d) as (Hregs & Hw & Hn & _ & Hcm).
  destruct (axp20x_battery_max_chg_current power d) as [cm d1 t1] eqn:Hm.
  cbn [value bus trace] in *.
  split; [exact Hw|]. split; [exact Hn|].
  destruct (axp20x_battery_chg_reconfig power d) as [u d' tr] eqn:Hrun.
  cbn [value bus trace]. unfold axp20x_battery_chg_reconfig in Hrun.
  apply bind_inv in Hrun as (a & dd & tt1 & tt2 & Hm' & Hk & ->).
  rewrite Hm in Hm'. injection Hm' as <- <- <-.
  inv_run Hk.
  1: { rewrite app_nil_r. reflexivity. }
  1: { eexists. split; [reflexivity|]. intros _. split.
       - apply charging_bit_updated.
       - rewrite reg8_updated_other by discriminate. apply reg8_regs, Hregs. }
  1: { eexists. split; [reflexivity|]. intros Hr.
       match type of Hr with neg ?e = 0 => pose proof (neg_negative e) end. lia. }
  all: bool_hyps; rewrite if_ltb_min.
  all: do 3 eexists; split; [reflexivity|]; split.
  all: try (intros Hr;
            first [ match type of Hr with neg ?e = 0 =>
                      pose proof (neg_negative e); lia end
                  | rewrite ?reg8_tick; apply charging_bit_updated ]).
  all: intros Ht;
    rewrite (reconfig_field (Z.min cm (charge_user_imax power)))
      by (unfold Int.in_range, Int.INT_MIN, Int.INT_MAX in *; lia);
    destruct (current_field_step _ Ht) as (Hf & Hstep);
    change Spec.max_target_current with (300000 + 15 * 100000) in Hstep;
    split; [exact Hf|]; split; [exact Hstep|].
  all: intros Hr;
    try (match type of Hr with neg ?e = 0 => pose proof (neg_negative e); lia end).
  all: rewrite ?reg8_tick, ?reg8_updated_other by discriminate.
  all: rewrite ?reg8_tick, reg8_updated, Z.eqb_refl, land_15_update.
  all: change 15 with (Z.ones 4); rewrite Z.land_ones by lia; apply Z.mod_small; lia.
Qed.

Lemma chg_reconfig_cases_witness :
  exists field r1 r2,
    trace (axp20x_battery_chg_reconfig power_ts bus_vbus) =
      trace (axp20x_battery_max_chg_current power_ts bus_vbus) ++
      [EvUpdateBits AXP20X_CHRG_CTRL1 AXP20X_CHRG_CTRL1_TGT_CURR field r1;
       EvUpdateBits AXP20X_PWR_OP_MODE AXP20X_PWR_OP_CHARGING AXP20X_PWR_OP_CHARGING r2;
       EvChanged] /\
    0 <= field <= 15.
Proof.
  assert (Hu : Int.in_range (charge_user_imax power_ts))
    by (unfold Int.in_range, Int.INT_MIN, Int.INT_MAX; cbn; lia).
  destruct (proj2 (proj2 (chg_reconfig_cases power_ts bus_vbus Hu)))
    as (field & r1 & r2 & Htr & _ & Hfield).
  exists field, r1, r2. split; [exact Htr|].
  apply Hfield. vm_compute. discriminate.
Defined.

(** The two range tests of the target-current write, as one interval. *)
Lemma current_max_guard val :
  Int.in_range val ->
  (0x0f <? Int.div (Int.sub val 300000) 100000) || (val <? 300000) =
  negb ((300000 <=? val) && (val <? 1900000)).
Proof.
  intros Hv. unfold Int.sub.
  destruct (Z.le_gt_cases 300000 val) as [Hlo|Hlo].
  - rewrite (wrap_in_range (val - 300000)) by div_lia.
    rewrite int_div_100000 by div_lia.
    destruct (Z.ltb_spec 15 (Z.quot (val - 300000) 100000));
      destruct (Z.ltb_spec val 300000); destruct (Z.leb_spec 300000 val);
      destruct (Z.ltb_spec val 1900000); cbn; try reflexivity; div_lia.
  - destruct (Z.ltb_spec val 300000); [|lia].
    destruct (Z.leb_spec 300000 val); [lia|].
    rewrite orb_true_r. reflexivity.
Qed.

(** C5 (counterexample).  A request of 1800001 uA, outside the stated range
    and off the 100 mA grid, is accepted and becomes the user ceiling. *)
Lemma target_current_counterexample :
  ~ target_current_write_contract power_ts bus_vbus 1800001.
Proof.
  unfold target_current_write_contract. intros [H _].
  vm_compute in H. discriminate H.
Qed.

(** C5 (amended).  A write of the target charge current is accepted exactly
    for 300000 <= v < 1900000 uA, on a 100 mA step or not: the value becomes
    the user ceiling and the charge current is reconfigured.  Every other
    value fails with -EINVAL, and then nothing is touched. *)
Theorem set_current_max_accepts power d val :
  Int.in_range val ->
  let o := axp20x_battery_power_set_property power POWER_SUPPLY_PROP_CURRENT_MAX val d in
  if (300000 <=? val) && (val <? 1900000) then
    let power' := set_charge_user_imax power val in
    value o = (0, power') /\
    bus o = bus (axp20x_battery_chg_reconfig power' d) /\
    trace o = trace (axp20x_battery_chg_reconfig power' d)
  else
    value o = (neg EINVAL, power) /\ bus o = d /\ trace o = [].
Proof.
  intros Hv. cbv zeta. pose proof (current_max_guard val Hv) as Hg.
  unfold axp20x_battery_power_set_property.
  destruct ((300000 <=? val) && (val <? 1900000)); cbn [negb] in Hg.
  - apply orb_false_iff in Hg as [-> ->].
    unfold bind, ret.
    destruct (axp20x_battery_chg_reconfig (set_charge_user_imax power val) d)
      as [u d' tr].
    cbn [value bus trace]. rewrite app_nil_r. auto.
  - destruct (0x0f <? Int.div (Int.sub val 300000) 100000); [cbn; auto|].
    cbn [orb] in Hg. rewrite Hg. cbn. auto.
Qed.

Lemma set_current_max_accepts_witness :
  value (axp20x_battery_power_set_property power_ts POWER_SUPPLY_PROP_CURRENT_MAX
           1800001 bus_vbus) = (0, set_charge_user_imax power_ts 1800001).
Proof.
  refine (proj1 (set_current_max_accepts power_ts bus_vbus 1800001 _)).
  unfold Int.in_range, Int.INT_MIN, Int.INT_MAX. lia.
Defined.

(** ** Event dispatcher *)

(** The handler each event ends up with, read off [irq_table]. *)
Lemma dispatch_table e :
  dispatch e =
  match e with
  | Spec.BatteryInserted => axp20x_irq_batt_plugin
  | Spec.BatteryRemoved => axp20x_irq_batt_removal
  | Spec.ActivationStarted => axp20x_irq_batt_activation
  | Spec.ActivationCompleted => axp20x_irq_batt_activated
  | Spec.ChargingProgress => axp20x_irq_batt_charging
  | Spec.ChargedProgress => axp20x_irq_batt_charged
  | Spec.Overheat => axp20x_irq_batt_high_temp
  | Spec.UnderTemperature => axp20x_irq_batt_low_temp
  | Spec.SourceTooWeak => axp20x_irq_batt_chg_curr_low
  | Spec.PowerLowWarning => axp20x_irq_power_low
  | Spec.PowerLowCritical => axp20x_irq_power_low_crit
  end.
Proof. destruct e; reflexivity. Qed.


Lemma pair_changed_same power : pair_changed power power = false.
Proof.
  unfold pair_changed. rewrite Z.eqb_refl.
  replace (health_eqb (health power) (health power)) with true; [reflexivity|].
  symmetry. apply health_eqb_eq. reflexivity.
Qed.



(** An update under the mask AXP20X_PWR_OP_CHARGING leaves the other bits
    of AXP20X_PWR_OP_MODE alone. *)
Lemma other_bits_updated d val n :
  0 <= n -> n <> 6 ->
  Z.testbit (reg8 (updated d AXP20X_PWR_OP_MODE AXP20X_PWR_OP_CHARGING val)
                  AXP20X_PWR_OP_MODE) n =
  Z.testbit (reg8 d AXP20X_PWR_OP_MODE) n.
Proof.
  intros Hn H6. destruct (Z.lt_ge_cases n 8) as [Hlt|Hge].
  - rewrite reg8_updated, Z.eqb_refl, testbit_update_field by lia.
    unfold AXP20X_PWR_OP_CHARGING. rewrite Z.shiftl_1_l, Z.pow2_bits_eqb by lia.
    destruct (Z.eqb_spec 6 n); [lia | reflexivity].
  - rewrite !testbit_reg8_high by lia. reflexivity.
Qed.

(** C7.  Every interrupt handler does what its row of the table in section
    4.4 says (health, charging bit) and nothing else to the registers, and
    every handler ends by notifying the telemetry consumer, once. *)
Theorem irq_handlers_follow_table e irq power d :
  let o := dispatch e irq power d in
  fst (value o) = IRQ_HANDLED /\
  snd (value o) = match Spec.state_effect e with
                  | Some h => set_health power h
                  | None => power
                  end /\
  bus_writes (trace o) =
    match Spec.register_effect e with
    | Some true => [(AXP20X_PWR_OP_MODE, AXP20X_PWR_OP_CHARGING, AXP20X_PWR_OP_CHARGING)]
    | Some false => [(AXP20X_PWR_OP_MODE, AXP20X_PWR_OP_CHARGING, 0)]
    | None => []
    end /\
  match Spec.register_effect e with
  | Some b =>
      next_fault d = None ->
      Z.testbit (reg8 (bus o) AXP20X_PWR_OP_MODE) 6 = b /\
      (forall n, 0 <= n -> n <> 6 ->
         Z.testbit (reg8 (bus o) AXP20X_PWR_OP_MODE) n =
         Z.testbit (reg8 d AXP20X_PWR_OP_MODE) n) /\
      (forall r, r <> AXP20X_PWR_OP_MODE -> reg8 (bus o) r = reg8 d r)
  | None => bus o = d
  end /\
  last (trace o) = Some EvChanged /\
  notifications (trace o) = 1%nat.
Proof.
  cbv zeta. rewrite dispatch_table.
  destruct e; cbn [Spec.state_effect Spec.register_effect];
    match goal with |- context [?h irq power d] =>
      destruct (h irq power d) as [v d' tr] eqn:Hrun; unfold h in Hrun
    end;
    inv_run Hrun; cbn [value bus trace fst snd].
  all: repeat (split; [reflexivity|]).
  all: try (split; reflexivity).
  all: split; [|split; reflexivity].
  all: intros Hf; try congruence.
  all: split; [apply charging_bit_updated|].
  all: split; [intros n Hn H6; apply other_bits_updated; assumption|].
  all: intros r Hr; apply reg8_updated_other; assumption.
Qed.

(** ** Unit decoder *)

Lemma int_mul_12bit r k :
  0 <= r < 4096 -> 0 <= k <= 2000 -> Int.mul r k = r * k.
Proof.
  intros Hr Hk. unfold Int.mul. apply wrap_in_range.
  unfold Int.in_range, Int.INT_MIN, Int.INT_MAX. nia.
Qed.

(** Every 12-bit value is the result of a variable-width read on some
    device. *)
Lemma raw12_reachable reg r :
  0 <= r < 4096 ->
  exists d, faults d = [] /\ value (axp20x_read_variable_width reg 12 d) = r.
Proof.
  intros Hr.
  exists {| regs := <[reg := r / 16]> (<[reg + 1 := r mod 16]> ∅); faults := [] |}.
  split; [reflexivity|].
  match goal with |- value (?f ?d) = _ => destruct (f d) as [v d' t] eqn:Hrun end.
  cbn [value].
  apply axp20x_read_variable_width_inv in Hrun
    as [(_ & _ & -> & _) | (e & _ & [(Hf & _) | (_ & Hf & _)])];
    [|discriminate Hf|discriminate Hf].
  rewrite raw12_sum. unfold reg8. cbn [regs].
  rewrite lookup_insert_eq, lookup_insert_ne, lookup_insert_eq by lia.
  change (default 0 (Some (r / 16))) with (r / 16).
  change (default 0 (Some (r mod 16))) with (r mod 16).
  change 255 with (Z.ones 8). rewrite !Z.land_ones by lia.
  change (2 ^ 8) with 256. Z.div_mod_to_equations. lia.
Qed.

(** C8.  Every 12-bit value [r] can come out of the variable-width read,
    and whenever it does the voltage property is exactly [r * 1100], the
    current property exactly [r * 500] (from the charge or the discharge
    register pair, as the status register says) and the temperature property
    exactly [r * 800]. *)
Theorem adc_decoding_exact r :
  0 <= r < 4096 ->
  forall power val d,
    (exists d0, value (axp20x_read_variable_width AXP20X_BATT_V_H 12 d0) = r) /\
    (value (axp20x_read_variable_width AXP20X_BATT_V_H 12 d) = r ->
     value (axp20x_battery_power_get_property power POWER_SUPPLY_PROP_VOLTAGE_NOW val d)
       = (0, r * 1100)) /\
    (forall status,
       value (regmap_read AXP20X_PWR_INPUT_STATUS d) = RdOk status ->
       value (axp20x_read_variable_width
                (if Z.testbit status 2 then AXP20X_BATT_CHRG_I_H
                 else AXP20X_BATT_DISCHRG_I_H) 12 (tick d)) = r ->
       value (axp20x_battery_power_get_property power POWER_SUPPLY_PROP_CURRENT_NOW val d)
         = (0, r * 500)) /\
    (value (axp20x_read_variable_width AXP20X_BATT_V_H 12 d) = r ->
     value (axp20x_battery_power_get_property power POWER_SUPPLY_PROP_TEMP val d)
       = (0, r * 800)).
Proof.
  intros Hr power val d.
  assert (Hneg : (r <? 0) = false) by (apply Z.ltb_ge; lia).
  split; [|repeat split].
  - destruct (raw12_reachable AXP20X_BATT_V_H r Hr) as (d0 & _ & Hd0). eauto.
  - unfold axp20x_battery_power_get_property, bind.
    destruct (axp20x_read_variable_width AXP20X_BATT_V_H 12 d) as [v d1 t].
    cbn [value]. intros ->. rewrite Hneg. cbn [ret value app].
    rewrite int_mul_12bit by lia. reflexivity.
  - intros status Hst.
    unfold axp20x_battery_power_get_property, bind.
    unfold regmap_read in *. cbn [value] in Hst.
    destruct (next_fault d); [discriminate Hst|]. injection Hst as <-.
    unfold AXP20X_PWR_STATUS_BAT_CHARGING. rewrite truthy_bit by lia.
    destruct (Z.testbit (reg8 d AXP20X_PWR_INPUT_STATUS) 2);
      match goal with |- context [axp20x_read_variable_width ?a 12 (tick d)] =>
        destruct (axp20x_read_variable_width a 12 (tick d)) as [v d1 t]
      end;
      cbn [value]; intros ->; rewrite Hneg; cbn [ret value app];
      rewrite int_mul_12bit by lia; reflexivity.
  - unfold axp20x_battery_power_get_property, bind, axp20x_battery_uv_to_temp.
    destruct (axp20x_read_variable_width AXP20X_BATT_V_H 12 d) as [v d1 t].
    cbn [value]. intros ->. rewrite Hneg. cbn [ret value app].
    rewrite int_mul_12bit by lia. reflexivity.
Qed.

Lemma adc_decoding_exact_witness :
  value (axp20x_battery_power_get_property power_ts POWER_SUPPLY_PROP_VOLTAGE_NOW 0
           bus_low_voltage) = (0, 281600).
Proof.
  refine (proj1 (proj2 (adc_decoding_exact 256 _ power_ts 0 bus_low_voltage)) _).
  - lia.
  - reflexivity.
Defined.

(** ** Reconfiguring twice *)

Lemma faults_tick d : faults d = [] -> faults (tick d) = [].
Proof. unfold tick. cbn [faults]. intros ->. reflexivity. Qed.

Lemma faults_updated d reg mask val :
  faults d = [] -> faults (updated d reg mask val) = [].
Proof.
  unfold updated. intros H.
  destruct (_ =? _); [apply faults_tick, H | cbn [faults]; rewrite H; reflexivity].
Qed.

Lemma next_fault_quiet d : faults d = [] -> next_fault d = None.
Proof. unfold next_fault. intros ->. reflexivity. Qed.

(** Closes a case in which a bus call fails although no fault is pending. *)
Ltac no_fault :=
  match goal with
  | H : next_fault ?X = Some _ |- _ =>
      exfalso;
      assert (next_fault X = None)
        by (apply next_fault_quiet; auto 10 using faults_tick, faults_updated);
      congruence
  end.

Lemma reads_ok_app t1 t2 : reads_ok (t1 ++ t2) = reads_ok t1 && reads_ok t2.
Proof. apply forallb_app. Qed.

Lemma bus_writes_app t1 t2 : bus_writes (t1 ++ t2) = bus_writes t1 ++ bus_writes t2.
Proof. apply flat_map_app. Qed.

Lemma tgt_curr_writes_app t1 t2 :
  tgt_curr_writes (t1 ++ t2) = tgt_curr_writes t1 ++ tgt_curr_writes t2.
Proof. apply flat_map_app. Qed.

(** The maximum charge current depends on the device only through the
    status and the bus-limit register. *)
Lemma max_chg_current_rerun power d d' :
  reg8 d' AXP20X_PWR_INPUT_STATUS = reg8 d AXP20X_PWR_INPUT_STATUS ->
  reg8 d' AXP20X_VBUS_IPSOUT_MGMT = reg8 d AXP20X_VBUS_IPSOUT_MGMT ->
  let m := axp20x_battery_max_chg_current power d in
  let m' := axp20x_battery_max_chg_current power d' in
  (reads_ok (trace m) = true -> reads_ok (trace m') = true -> value m' = value m) /\
  (faults d = [] -> faults d' = [] ->
   trace m' = trace m /\ value m' = value m /\
   faults (bus m) = [] /\ faults (bus m') = []).
Proof.
  intros HS HV. cbv zeta.
  destruct (axp20x_battery_max_chg_current power d) as [v1 d1 t1] eqn:H1.
  destruct (axp20x_battery_max_chg_current power d') as [v2 d2 t2] eqn:H2.
  cbn [value bus trace]. unfold axp20x_battery_max_chg_current in H1, H2.
  inv_run H1; inv_run H2.
  all: rewrite ?reg8_tick, ?HS, ?HV in *.
  all: split; [intros Hr1 Hr2; try discriminate Hr1; try discriminate Hr2; try congruence|].
  all: intros Hq Hq'; try no_fault; try congruence.
  all: repeat split; auto 10 using faults_tick.
Qed.

(** Re-applying an update to a register that already holds its result
    changes nothing. *)
Lemma update_bits_idem o mask val :
  Z.land (Z.lor (Z.land (Z.land (Z.lor (Z.land o (Z.lnot mask)) (Z.land val mask)) 255)
                        (Z.lnot mask))
                (Z.land val mask)) 255 =
  Z.land (Z.lor (Z.land o (Z.lnot mask)) (Z.land val mask)) 255.
Proof.
  apply Z.bits_inj'. intros n Hn.
  repeat first [ rewrite Z.land_spec | rewrite Z.lor_spec | rewrite Z.lnot_spec by lia ].
  destruct (Z.testbit o n), (Z.testbit mask n), (Z.testbit val n), (Z.testbit 255 n);
    reflexivity.
Qed.

Lemma regs_updated_settled d reg mask val o :
  reg8 d reg = Z.land (Z.lor (Z.land o (Z.lnot mask)) (Z.land val mask)) 255 ->
  regs (updated d reg mask val) = regs d.
Proof.
  intros H. unfold updated. rewrite H, update_bits_idem, Z.eqb_refl. reflexivity.
Qed.

(** Reconfiguration touches no register but AXP20X_CHRG_CTRL1 and
    AXP20X_PWR_OP_MODE, and uses up no fault that is not there. *)
Lemma chg_reconfig_frame power d :
  let o := axp20x_battery_chg_reconfig power d in
  (forall r, r <> AXP20X_CHRG_CTRL1 -> r <> AXP20X_PWR_OP_MODE ->
             reg8 (bus o) r = reg8 d r) /\
  (faults d = [] -> faults (bus o) = []).
Proof.
  cbv zeta.
  destruct (max_chg_current_reads_only power d) as (Hregs & _).
  destruct (max_chg_current_rerun power d d eq_refl eq_refl) as (_ & Hquiet).
  destruct (axp20x_battery_chg_reconfig power d) as [u d' tr] eqn:Hrun.
  cbn [bus]. unfold axp20x_battery_chg_reconfig in Hrun.
  apply bind_inv in Hrun as (cm & dm & tm & tk & Hm & Hk & ->).
  rewrite Hm in Hregs, Hquiet. cbn [bus value trace] in Hregs, Hquiet.
  inv_run Hk.
  all: split;
    [ intros r HC HP; rewrite ?reg8_tick, ?reg8_updated_other by assumption;
      rewrite ?reg8_tick, ?reg8_updated_other by assumption;
      apply reg8_regs, Hregs
    | intros Hq; destruct (Hquiet Hq Hq) as (_ & _ & Hqm & _);
      auto 10 using faults_tick, faults_updated ].
Qed.

(** C9.  Running the reconfiguration a second time writes the same value
    into the target-current field (and issues the same register updates) as
    the first run whenever the reads of both runs succeed; with no bus fault
    at all the second run repeats the first one step for step and leaves
    every register as the first run left it. *)
Theorem chg_reconfig_idempotent power d :
  let o1 := axp20x_battery_chg_reconfig power d in
  let o2 := axp20x_battery_chg_reconfig power (bus o1) in
  (reads_ok (trace o1) = true -> reads_ok (trace o2) = true ->
   tgt_curr_writes (trace o2) = tgt_curr_writes (trace o1) /\
   bus_writes (trace o2) = bus_writes (trace o1)) /\
  (faults d = [] -> trace o2 = trace o1 /\ regs (bus o2) = regs (bus o1)).
Proof.
  cbv zeta.
  destruct (chg_reconfig_frame power d) as (Hframe & Hquiet).
  destruct (axp20x_battery_chg_reconfig power d) as [u1 d1 t1] eqn:H1.
  cbn [bus trace] in *.
  destruct (axp20x_battery_chg_reconfig power d1) as [u2 d2 t2] eqn:H2.
  cbn [bus trace].
  destruct (max_chg_current_rerun power d d1) as (Hval & Hsame);
    [apply Hframe; discriminate | apply Hframe; discriminate |].
  destruct (max_chg_current_reads_only power d) as (Hregs1 & Hw1 & _ & Hc1 & _).
  destruct (max_chg_current_reads_only power d1) as (Hregs2 & Hw2 & _ & Hc2 & _).
  unfold axp20x_battery_chg_reconfig in H1, H2.
  apply bind_inv in H1 as (cm1 & dm1 & tm1 & tk1 & Hm1 & Hk1 & ->).
  apply bind_inv in H2 as (cm2 & dm2 & tm2 & tk2 & Hm2 & Hk2 & ->).
  rewrite Hm1 in *. rewrite Hm2 in *. cbn [value bus trace] in *.
  split.
  - rewrite !reads_ok_app, !tgt_curr_writes_app, !bus_writes_app, Hw1, Hw2, Hc1, Hc2.
    intros Hr1 Hr2.
    apply andb_true_iff in Hr1 as [Hr1 _]. apply andb_true_iff in Hr2 as [Hr2 _].
    specialize (Hval Hr1 Hr2). subst cm2.
    clear Hframe Hquiet Hsame Hregs1 Hregs2 Hm1 Hm2.
    inv_run Hk1; inv_run Hk2; try congruence; split; reflexivity.
  - intros Hq. specialize (Hquiet Hq).
    destruct (Hsame Hq Hquiet) as (-> & -> & Hq1 & Hq2).
    clear Hval Hsame Hm1 Hm2 Hframe.
    inv_run Hk1; try no_fault; inv_run Hk2; try no_fault; try congruence.
    all: split; [reflexivity|].
    all: repeat (erewrite regs_updated_settled;
                 [ | solve [ rewrite ?reg8_updated_other by discriminate;
                             rewrite (reg8_regs _ _ _ Hregs2);
                             rewrite ?reg8_updated_other by discriminate;
                             rewrite reg8_updated, Z.eqb_refl; reflexivity ] ]).
    all: exact Hregs2.
Qed.

(** Below the first step the source has no clamp: half of 300 mAh is a
    target of 150000 uA, the quotient is -1, the unsigned argument
    4294967295 and the nibble written 15, the field of 1800000 uA. *)
Example reconfig_small_battery :
  bus_writes (trace (axp20x_battery_chg_reconfig power_small bus_mains)) =
    [(AXP20X_CHRG_CTRL1, AXP20X_CHRG_CTRL1_TGT_CURR, 4294967295);
     (AXP20X_PWR_OP_MODE, AXP20X_PWR_OP_CHARGING, AXP20X_PWR_OP_CHARGING)] /\
  tgt_curr_writes (trace (axp20x_battery_chg_reconfig power_small bus_mains)) = [15] /\
  reg8 (bus (axp20x_battery_chg_reconfig power_small bus_mains)) AXP20X_CHRG_CTRL1 = 15 /\
  Spec.current_field 150000 = 0.
Proof. repeat split; vm_compute; reflexivity. Qed.

(** ** Target voltage *)

(** The field of a register after an update under an 8-bit mask. *)
Lemma land_mask_update o mask val :
  Z.land mask 255 = mask ->
  Z.land (Z.land (Z.lor (Z.land o (Z.lnot mask)) (Z.land val mask)) 255) mask =
  Z.land val mask.
Proof.
  intros Hm. apply Z.bits_inj'. intros n Hn.
  assert (Hb : Z.testbit (Z.land mask 255) n = Z.testbit mask n) by (rewrite Hm; reflexivity).
  rewrite Z.land_spec in Hb.
  repeat first [ rewrite Z.land_spec | rewrite Z.lor_spec | rewrite Z.lnot_spec by lia ].
  destruct (Z.testbit o n), (Z.testbit mask n), (Z.testbit val n), (Z.testbit 255 n);
    try reflexivity; discriminate Hb.
Qed.

(** Bits outside the mask survive an update. *)
Lemma testbit_updated_outside d reg mask val n :
  0 <= n -> Z.testbit mask n = false ->
  Z.testbit (reg8 (updated d reg mask val) reg) n = Z.testbit (reg8 d reg) n.
Proof.
  intros Hn Hm. destruct (Z.lt_ge_cases n 8).
  - rewrite reg8_updated, Z.eqb_refl, testbit_update_field, Hm by lia. reflexivity.
  - rewrite !testbit_reg8_high by lia. reflexivity.
Qed.

Lemma testbit_tgt_volt n :
  0 <= n -> n <> 5 -> n <> 6 -> Z.testbit AXP20X_CHRG_CTRL1_TGT_VOLT n = false.
Proof.
  intros Hn H5 H6. change AXP20X_CHRG_CTRL1_TGT_VOLT with (Z.lor (2 ^ 5) (2 ^ 6)).
  rewrite Z.lor_spec, !Z.pow2_bits_eqb by lia.
  destruct (Z.eqb_spec 5 n), (Z.eqb_spec 6 n); first [lia | reflexivity].
Qed.

(** What the maximum-design-voltage property reports when the register read
    goes through. *)
Lemma get_voltage_max_design power v0 d :
  next_fault d = None ->
  value (axp20x_battery_power_get_property power POWER_SUPPLY_PROP_VOLTAGE_MAX_DESIGN v0 d) =
  (0, let f := Z.land (reg8 d AXP20X_CHRG_CTRL1) AXP20X_CHRG_CTRL1_TGT_VOLT in
      if f =? AXP20X_CHRG_CTRL1_TGT_4_1V then 4100000
      else if f =? AXP20X_CHRG_CTRL1_TGT_4_15V then 4150000
      else if f =? AXP20X_CHRG_CTRL1_TGT_4_2V then 4200000
      else if f =? AXP20X_CHRG_CTRL1_TGT_4_36V then 4360000
      else v0).
Proof.
  intros Hf. unfold axp20x_battery_power_get_property, bind, regmap_read.
  rewrite Hf. cbv zeta.
  repeat match goal with |- context [if ?c then _ else _] => destruct c end;
    reflexivity.
Qed.

(** C10.  A write of the maximum design voltage selects the target-voltage
    field for exactly 4100000, 4150000 and 4200000 uV (and then succeeds
    unless the bus fails, after which the property reads back the value
    written); every other value fails with -EINVAL and touches nothing.  That
    includes 4360000 uV, which the read reports when the field holds it. *)
Theorem set_voltage_max_design power d val :
  let o := axp20x_battery_power_set_property power
             POWER_SUPPLY_PROP_VOLTAGE_MAX_DESIGN val d in
  snd (value o) = power /\
  match Spec.target_voltage_field val with
  | Some f =>
      (val = 4100000 \/ val = 4150000 \/ val = 4200000) /\
      trace o = [EvUpdateBits AXP20X_CHRG_CTRL1 AXP20X_CHRG_CTRL1_TGT_VOLT
                              (Z.shiftl f 5) (fst (value o))] /\
      (next_fault d = None ->
       fst (value o) = 0 /\
       (forall v0, next_fault (bus o) = None ->
          value (axp20x_battery_power_get_property power
                   POWER_SUPPLY_PROP_VOLTAGE_MAX_DESIGN v0 (bus o)) = (0, val)) /\
       (forall n, 0 <= n -> n <> 5 -> n <> 6 ->
          Z.testbit (reg8 (bus o) AXP20X_CHRG_CTRL1) n =
          Z.testbit (reg8 d AXP20X_CHRG_CTRL1) n) /\
       (forall r, r <> AXP20X_CHRG_CTRL1 -> reg8 (bus o) r = reg8 d r)) /\
      (forall e, next_fault d = Some e ->
         fst (value o) = neg e /\ regs (bus o) = regs d)
  | None =>
      value o = (neg EINVAL, power) /\ bus o = d /\ trace o = []
  end /\
  Spec.target_voltage_field 4360000 = None /\
  (forall v0,
     next_fault d = None ->
     Z.land (reg8 d AXP20X_CHRG_CTRL1) AXP20X_CHRG_CTRL1_TGT_VOLT
       = AXP20X_CHRG_CTRL1_TGT_4_36V ->
     value (axp20x_battery_power_get_property power
              POWER_SUPPLY_PROP_VOLTAGE_MAX_DESIGN v0 d) = (0, 4360000)).
Proof.
  cbv zeta.
  destruct (axp20x_battery_power_set_property power
              POWER_SUPPLY_PROP_VOLTAGE_MAX_DESIGN val d) as [v d' tr] eqn:Hrun.
  cbn [value bus trace]. unfold axp20x_battery_power_set_property in Hrun.
  inv_run Hrun; cbn [fst snd]; unfold Spec.target_voltage_field.
  all: repeat match goal with H : (_ =? _) = _ |- _ => rewrite H end.
  all: bool_hyps; subst.
  all: split; [reflexivity|]; split;
    [ | split; [reflexivity|];
        intros v0 Hf Hfield; rewrite get_voltage_max_design by assumption;
        cbv zeta; rewrite Hfield; reflexivity ].
  all: try (split; [reflexivity|]; split; reflexivity).
  all: split; [auto|]; split; [reflexivity|]; split.
  all: try (intros Hf; congruence).
  all: try (intros e' He'; split; [congruence | reflexivity]).
  all: intros _; split; [reflexivity|]; split; [|split].
  all: try (intros n Hn H5 H6;
            apply testbit_updated_outside; [assumption | apply testbit_tgt_volt; assumption]).
  all: try (intros r Hr; apply reg8_updated_other; assumption).
  all: intros v0 Hf; rewrite get_voltage_max_design by assumption;
    cbv zeta; rewrite reg8_updated, Z.eqb_refl, land_mask_update by reflexivity;
    reflexivity.
Qed.

(** ** Telemetry reads *)

Lemma reads_of_app t1 t2 : reads_of (t1 ++ t2) = reads_of t1 ++ reads_of t2.
Proof. apply flat_map_app. Qed.

Lemma land_15_range x : 0 <= Z.land x 15 <= 15.
Proof.
  assert (E : Z.land x 15 = x mod 16)
    by (change 15 with (Z.ones 4); rewrite Z.land_ones by lia; reflexivity).
  rewrite E. pose proof (Z.mod_pos_bound x 16). lia.
Qed.

Lemma land_127_range x : 0 <= Z.land x 127 <= 127.
Proof.
  assert (E : Z.land x 127 = x mod 128)
    by (change 127 with (Z.ones 7); rewrite Z.land_ones by lia; reflexivity).
  rewrite E. pose proof (Z.mod_pos_bound x 128). lia.
Qed.

(** X1.  Reading a property never writes a register and never notifies; it
    returns 0, or a negative error and then leaves the caller's value as it
    was. *)
Theorem get_property_read_only power psp val d :
  let o := axp20x_battery_power_get_property power psp val d in
  regs (bus o) = regs d /\
  bus_writes (trace o) = [] /\
  notifications (trace o) = 0%nat /\
  (fst (value o) = 0 \/ fst (value o) < 0 /\ snd (value o) = val).
Proof.
  cbv zeta.
  destruct (axp20x_battery_power_get_property power psp val d) as [v d' tr] eqn:Hrun.
  cbn [value bus trace].
  destruct psp; unfold axp20x_battery_power_get_property in Hrun; inv_run Hrun;
    cbn [fst snd]; repeat split; try reflexivity.
  all: first [ left; reflexivity
             | right; split; [apply neg_negative | reflexivity]
             | right; split; [bool_hyps; assumption | reflexivity]
             | right; split; [reflexivity | reflexivity] ].
Qed.

(** Removes the wrap-around of results that are in range. *)
Ltac int_simpl :=
  unfold Int.add, Int.sub, Int.mul;
  repeat match goal with
  | |- context [Int.wrap ?z] =>
      rewrite (wrap_in_range z)
        by (unfold Int.in_range, Int.INT_MIN, Int.INT_MAX; lia)
  end.

Lemma land_tgt_volt_cases x :
  let f := Z.land x AXP20X_CHRG_CTRL1_TGT_VOLT in
  f = 0 \/ f = 32 \/ f = 64 \/ f = 96.
Proof.
  cbv zeta. change AXP20X_CHRG_CTRL1_TGT_VOLT with (Z.shiftl (Z.ones 2) 5).
  assert (E : Z.land x (Z.shiftl (Z.ones 2) 5) = Z.shiftl (Z.land (Z.shiftr x 5) (Z.ones 2)) 5).
  { apply Z.bits_inj'. intros n Hn.
    rewrite Z.land_spec. destruct (Z.lt_ge_cases n 5).
    - rewrite !Z.shiftl_spec_low by lia. apply andb_false_r.
    - rewrite !Z.shiftl_spec, Z.land_spec, Z.shiftr_spec by lia.
      replace (n - 5 + 5) with n by lia. reflexivity. }
  rewrite E, Z.land_ones, Z.shiftl_mul_pow2 by lia.
  pose proof (Z.mod_pos_bound (Z.shiftr x 5) (2 ^ 2)).
  change (2 ^ 2) with 4 in *. change (2 ^ 5) with 32. lia.
Qed.

(** X2.  Whatever the registers hold, a property that is read successfully
    lies in its hardware range: the current limit is one of the sixteen
    100 mA steps from 300000 to 1800000 uA, the capacity is at most 127, the
    ADC quantities are non-negative multiples of their step below 4096
    steps, the design voltages are among the values the fields can encode,
    Full is reported only with a cached percent of 100, and a property that
    is not served never succeeds. *)
Theorem get_property_ranges power psp val d :
  let o := axp20x_battery_power_get_property power psp val d in
  fst (value o) = 0 -> reported_range power psp (snd (value o)).
Proof.
  cbv zeta.
  destruct (axp20x_battery_power_get_property power psp val d) as [v d' tr] eqn:Hrun.
  cbn [value].
  destruct psp; unfold axp20x_battery_power_get_property in Hrun; inv_run Hrun;
    cbn [fst snd reported_range]; intros Hret;
    try (exfalso; match type of Hret with
                  | neg ?e = 0 => pose proof (neg_negative e); lia
                  | _ => bool_hyps; lia
                  end);
    try reflexivity.
  all: rewrite ?reg8_tick in *.
  all: rewrite ?int_mul_raw12 in * by (try apply reg8_range; lia).
  all: try pose proof (raw12_reg8_range d d AXP20X_BATT_V_H (AXP20X_BATT_V_H + 1)).
  all: try pose proof (raw12_reg8_range d d AXP20X_BATT_CHRG_I_H (AXP20X_BATT_CHRG_I_H + 1)).
  all: try pose proof (raw12_reg8_range d d AXP20X_BATT_DISCHRG_I_H
                         (AXP20X_BATT_DISCHRG_I_H + 1)).
  all: try (unfold axp20x_battery_uv_to_temp; split; [lia | apply Z.mod_mul; lia]).
  all: try (bool_hyps; subst; auto; fail).
  all: try (apply land_127_range).
  all: try (destruct (truthy _); auto; fail).
  all: try (exfalso;
            match goal with
            | H : (neg ?e <? 0) = false |- _ => pose proof (neg_negative e); bool_hyps; lia
            end).
  - exfalso. pose proof (land_tgt_volt_cases (reg8 d AXP20X_CHRG_CTRL1)) as Hc.
    cbv zeta in Hc. bool_hyps.
    change AXP20X_CHRG_CTRL1_TGT_4_1V with 0 in *.
    change AXP20X_CHRG_CTRL1_TGT_4_15V with 32 in *.
    change AXP20X_CHRG_CTRL1_TGT_4_2V with 64 in *.
    change AXP20X_CHRG_CTRL1_TGT_4_36V with 96 in *. lia.
  - pose proof (reg8_range d AXP20X_APS_WARN_L2) as Hr.
    int_simpl.
    split; [lia|].
    replace (2867200 + 1400 * reg8 d AXP20X_APS_WARN_L2 * 4 - 2867200)
      with (reg8 d AXP20X_APS_WARN_L2 * 5600) by lia.
    apply Z.mod_mul. lia.
  - pose proof (land_15_range (reg8 d AXP20X_CHRG_CTRL1)) as Hr.
    unfold AXP20X_CHRG_CTRL1_TGT_CURR. int_simpl.
    split; [lia|].
    replace (Z.land (reg8 d AXP20X_CHRG_CTRL1) 15 * 100000 + 300000 - 300000)
      with (Z.land (reg8 d AXP20X_CHRG_CTRL1) 15 * 100000) by lia.
    apply Z.mod_mul. lia.
Qed.


Lemma get_property_ranges_witness :
  reported_range power_ts POWER_SUPPLY_PROP_CURRENT_MAX
    (snd (value (axp20x_battery_power_get_property power_ts
                   POWER_SUPPLY_PROP_CURRENT_MAX 0 bus_vbus))).
Proof.
  exact (get_property_ranges power_ts POWER_SUPPLY_PROP_CURRENT_MAX 0 bus_vbus eq_refl).
Defined.

(** Closes a case in which a call fails on a bus without pending faults. *)
Ltac quiet_absurd :=
  match goal with
  | H : next_fault ?X = Some _ |- _ =>
      exfalso;
      assert (next_fault X = None)
        by (apply next_fault_quiet;
            repeat first [apply faults_tick | apply faults_updated]; assumption);
      congruence
  end.

(** Inverts a run on a bus without pending faults. *)
Ltac inv_quiet H := inv_run H; try quiet_absurd.

(** X3.  The temperature property decodes the same register pair as the
    voltage property: on a bus without faults both succeed, and for the raw
    reading [r] they take there the one is [r * 800] and the other
    [r * 1100]. *)
Theorem temp_follows_voltage power val d :
  faults d = [] ->
  exists r, 0 <= r < 4096 /\
    value (axp20x_battery_power_get_property power POWER_SUPPLY_PROP_TEMP val d)
      = (0, r * 800) /\
    value (axp20x_battery_power_get_property power POWER_SUPPLY_PROP_VOLTAGE_NOW val d)
      = (0, r * 1100).
Proof.
  intros Hq.
  exists (raw12 (reg8 d AXP20X_BATT_V_H) (reg8 d (AXP20X_BATT_V_H + 1))).
  split; [apply raw12_reg8_range|].
  pose proof (raw12_reg8_range d d AXP20X_BATT_V_H (AXP20X_BATT_V_H + 1)) as Hr.
  split.
  - destruct (axp20x_battery_power_get_property power POWER_SUPPLY_PROP_TEMP val d)
      as [v d' tr] eqn:Hrun.
    unfold axp20x_battery_power_get_property in Hrun. inv_quiet Hrun.
    + bool_hyps. lia.
    + cbn [value]. unfold axp20x_battery_uv_to_temp.
      rewrite int_mul_raw12 by (try apply reg8_range; lia). reflexivity.
  - destruct (axp20x_battery_power_get_property power POWER_SUPPLY_PROP_VOLTAGE_NOW val d)
      as [v d' tr] eqn:Hrun.
    unfold axp20x_battery_power_get_property in Hrun. inv_quiet Hrun.
    + bool_hyps. lia.
    + cbn [value].
      rewrite int_mul_raw12 by (try apply reg8_range; lia). reflexivity.
Qed.

Lemma temp_follows_voltage_witness :
  exists r, 0 <= r < 4096 /\
    value (axp20x_battery_power_get_property power_ts POWER_SUPPLY_PROP_TEMP 0
             bus_low_voltage) = (0, r * 800) /\
    value (axp20x_battery_power_get_property power_ts POWER_SUPPLY_PROP_VOLTAGE_NOW 0
             bus_low_voltage) = (0, r * 1100).
Proof. exact (temp_follows_voltage power_ts 0 bus_low_voltage eq_refl). Defined.

(** ** More on the periodic monitor *)

(** X4.  A poll never writes a register; it reads at most six times, and
    only the operating mode, the battery-voltage pair and the gauge
    register: the temperature test takes its reading from the
    battery-voltage pair. *)
Theorem poll_read_only power d :
  let o := axp20x_battery_poll power d in
  regs (bus o) = regs d /\
  bus_writes (trace o) = [] /\
  (length (reads_of (trace o)) <= 6)%nat /\
  forall r, In r (reads_of (trace o)) ->
    r = AXP20X_PWR_OP_MODE \/ r = AXP20X_BATT_V_H \/ r = AXP20X_BATT_V_H + 1 \/
    r = AXP20X_FG_RES.
Proof.
  cbv zeta.
  destruct (axp20x_battery_poll power d) as [p' d' tr] eqn:Hrun.
  cbn [value bus trace]. unfold axp20x_battery_poll in Hrun.
  inv_run Hrun; cbn [app].
  all: repeat match goal with
         | |- context [if ?c then [EvChanged] else []] => destruct c
         end.
  all: split; [reflexivity|]; split; [reflexivity|]; split; [cbn; lia|].
  all: intros r Hin; cbn in Hin; intuition.
Qed.

(** X5.  A poll whose first read fails stops there and leaves the cached
    state alone.  Otherwise the stored health is never Good and the stored
    percent is the 7-bit gauge field, between 0 and 127; with the battery
    absent they are Unknown and 0 after that single read. *)
Theorem poll_sample_range power d :
  let o := axp20x_battery_poll power d in
  (exists e, next_fault d = Some e /\
     o = Outcome power (tick d) [EvRead AXP20X_PWR_OP_MODE (RdErr (neg e))]) \/
  (next_fault d = None /\
   health (value o) <> POWER_SUPPLY_HEALTH_GOOD /\
   0 <= percent (value o) <= 127 /\
   (Z.testbit (reg8 d AXP20X_PWR_OP_MODE) 5 = false ->
    health (value o) = POWER_SUPPLY_HEALTH_UNKNOWN /\ percent (value o) = 0 /\
    reads_of (trace o) = [AXP20X_PWR_OP_MODE])).
Proof.
  cbv zeta.
  destruct (axp20x_battery_poll power d) as [p' d' tr] eqn:Hrun.
  cbn [value bus trace]. unfold axp20x_battery_poll in Hrun.
  inv_run Hrun; cbn [app].
  all: try (left; eexists; split; [eassumption | reflexivity]).
  all: right; split; [assumption|].
  all: unfold AXP20X_PWR_OP_BATT_PRESENT in *; rewrite truthy_bit in * by lia.
  all: cbn [health percent set_health_percent].
  all: split;
    [ repeat match goal with |- context [if ?c then _ else _] => destruct c end;
      discriminate | ].
  all: split; [first [lia | apply land_127_range]|].
  all: intros Hb; bool_hyps; try congruence.
  all: repeat split; try reflexivity.
  all: destruct (_ && _); reflexivity.
Qed.

Lemma set_health_percent_twice power h pc h' pc' :
  set_health_percent (set_health_percent power h pc) h' pc' =
  set_health_percent power h' pc'.
Proof. reflexivity. Qed.

(** X6.  On a bus without faults a second poll right after a first one
    finds nothing new: it stores the same state and raises no
    notification. *)
Theorem poll_settles power d :
  faults d = [] ->
  let o1 := axp20x_battery_poll power d in
  let o2 := axp20x_battery_poll (value o1) (bus o1) in
  value o2 = value o1 /\ notifications (trace o2) = 0%nat.
Proof.
  intros Hq. cbv zeta.
  destruct (axp20x_battery_poll power d) as [p1 d1 t1] eqn:H1. cbn [value bus].
  destruct (axp20x_battery_poll p1 d1) as [p2 d2 t2] eqn:H2. cbn [value trace].
  unfold axp20x_battery_poll in H1. inv_quiet H1.
  all: unfold axp20x_battery_poll in H2;
    cbn [tbatt_min tbatt_max set_health_percent] in H2; inv_quiet H2.
  all: rewrite ?reg8_tick in *; try congruence.
  all: split; [reflexivity|].
  all: try match goal with
           | |- context [pair_changed ?p ?q] => change q with p; rewrite pair_changed_same
           end.
  all: reflexivity.
Qed.

Lemma poll_settles_witness :
  notifications
    (trace (axp20x_battery_poll
              (value (axp20x_battery_poll power_ts bus_low_voltage))
              (bus (axp20x_battery_poll power_ts bus_low_voltage)))) = 0%nat.
Proof. exact (proj2 (poll_settles power_ts bus_low_voltage eq_refl)). Defined.

(** X7.  Health Good, which only the activation-completed interrupt sets,
    does not survive the next poll that gets to read the operating mode: the
    poll stores another health and, with the supply registered, notifies. *)
Theorem good_health_lost_at_poll irq power d d' :
  next_fault d' = None ->
  let p1 := snd (value (axp20x_irq_batt_activated irq power d)) in
  let o := axp20x_battery_poll p1 d' in
  health p1 = POWER_SUPPLY_HEALTH_GOOD /\
  health (value o) <> POWER_SUPPLY_HEALTH_GOOD /\
  notifications (trace o) = (if supply power then 1 else 0)%nat.
Proof.
  intros Hf. cbv zeta.
  change (snd (value (axp20x_irq_batt_activated irq power d)))
    with (set_health power POWER_SUPPLY_HEALTH_GOOD).
  split; [reflexivity|].
  destruct (axp20x_battery_poll (set_health power POWER_SUPPLY_HEALTH_GOOD) d')
    as [p2 d2 t2] eqn:Hrun.
  cbn [value trace]. unfold axp20x_battery_poll in Hrun.
  cbn [tbatt_min tbatt_max set_health set_health_percent] in Hrun.
  inv_run Hrun; try congruence; cbn [app health set_health_percent].
  all: assert (Hh : forall h, h <> POWER_SUPPLY_HEALTH_GOOD ->
                 forall pc, pair_changed (set_health power POWER_SUPPLY_HEALTH_GOOD)
                   (set_health_percent (set_health power POWER_SUPPLY_HEALTH_GOOD) h pc)
                 = true)
    by (intros h Hh pc; unfold pair_changed; cbn [health set_health set_health_percent];
        destruct h; try contradiction; reflexivity).
  all: split;
    [ repeat match goal with |- context [if ?c then _ else _] => destruct c end;
      discriminate | ].
  all: rewrite ?Hh
    by (repeat match goal with |- context [if ?c then _ else _] => destruct c end;
        discriminate).
  all: cbn [andb supply set_health set_health_percent]; destruct (supply power); reflexivity.
Qed.

Lemma good_health_lost_at_poll_witness :
  notifications
    (trace (axp20x_battery_poll
              (snd (value (axp20x_irq_batt_activated 5 power_ts bus_vbus)))
              bus_low_voltage)) = 1%nat.
Proof.
  exact (proj2 (proj2 (good_health_lost_at_poll 5 power_ts bus_vbus bus_low_voltage
                         eq_refl))).
Defined.

(** ** Property writes and reconfiguration on a quiet bus *)

Lemma max_chg_current_quiet power d :
  faults d = [] -> faults (bus (axp20x_battery_max_chg_current power d)) = [].
Proof.
  intros Hq.
  destruct (max_chg_current_rerun power d d eq_refl eq_refl) as [_ H].
  apply H; assumption.
Qed.

(** The charge-current policy looks at the design capacity only. *)
Lemma max_chg_current_capacity power power' d :
  capacity power' = capacity power ->
  axp20x_battery_max_chg_current power' d = axp20x_battery_max_chg_current power d.
Proof. intros E. unfold axp20x_battery_max_chg_current. rewrite E. reflexivity. Qed.

(** A reconfiguration with a positive maximum on a fault-free bus: the two
    updates and the notification; from the first step on the field written
    is the one of section 4.3. *)
Lemma chg_reconfig_quiet power d :
  faults d = [] ->
  let m := axp20x_battery_max_chg_current power d in
  0 < value m ->
  exists field,
    axp20x_battery_chg_reconfig power d =
    Outcome tt
      (updated (updated (bus m) AXP20X_CHRG_CTRL1 AXP20X_CHRG_CTRL1_TGT_CURR field)
         AXP20X_PWR_OP_MODE AXP20X_PWR_OP_CHARGING AXP20X_PWR_OP_CHARGING)
      (trace m ++
       [EvUpdateBits AXP20X_CHRG_CTRL1 AXP20X_CHRG_CTRL1_TGT_CURR field 0;
        EvUpdateBits AXP20X_PWR_OP_MODE AXP20X_PWR_OP_CHARGING AXP20X_PWR_OP_CHARGING 0;
        EvChanged]) /\
    (300000 <= Z.min (value m) (charge_user_imax power) ->
     field = Spec.current_field (Z.min (value m) (charge_user_imax power))).
Proof.
  intros Hq. cbv zeta.
  pose proof (max_chg_current_quiet power d Hq) as Hq1.
  destruct (max_chg_current_reads_only power d) as (_ & _ & _ & _ & Hcm).
  destruct (axp20x_battery_max_chg_current power d) as [cm d1 t1] eqn:Hm.
  cbn [value bus trace] in *. intros Hpos.
  destruct (axp20x_battery_chg_reconfig power d) as [u d' tr] eqn:Hrun.
  unfold axp20x_battery_chg_reconfig in Hrun.
  apply bind_inv in Hrun as (a & dd & tt1 & tt2 & Hm' & Hk & ->).
  rewrite Hm in Hm'. injection Hm' as <- <- <-.
  inv_quiet Hk.
  all: bool_hyps; try lia.
  rewrite !if_ltb_min. destruct u.
  eexists. split; [reflexivity|].
  intros Ht. apply reconfig_field; [|exact Ht].
  unfold Int.in_range, Int.INT_MIN, Int.INT_MAX in *. lia.
Qed.

Lemma chg_reconfig_quiet_faults power d :
  faults d = [] -> faults (bus (axp20x_battery_chg_reconfig power d)) = [].
Proof. intros Hq. apply (proj2 (chg_reconfig_frame power d)), Hq. Qed.

(** X8.  A property write changes nothing of the driver state but the user
    ceiling, which only an accepted target-current write replaces (by a value
    of at least 300000 uA); it touches no register other than
    AXP20X_CHRG_CTRL1 and AXP20X_PWR_OP_MODE, never returns a positive
    value, and notifies only when it returns 0. *)
Theorem set_property_frame power psp val d :
  let o := axp20x_battery_power_set_property power psp val d in
  fst (value o) <= 0 /\
  (snd (value o) = power \/
   psp = POWER_SUPPLY_PROP_CURRENT_MAX /\ fst (value o) = 0 /\ 300000 <= val /\
   snd (value o) = set_charge_user_imax power val) /\
  (forall r, r <> AXP20X_CHRG_CTRL1 -> r <> AXP20X_PWR_OP_MODE ->
             reg8 (bus o) r = reg8 d r) /\
  (fst (value o) <> 0 -> notifications (trace o) = 0%nat).
Proof.
  cbv zeta.
  assert (Hmax : forall p d0, let m := axp20x_battery_max_chg_current p d0 in
            (forall r, reg8 (bus m) r = reg8 d0 r) /\ notifications (trace m) = 0%nat).
  { intros p d0. cbv zeta.
    destruct (max_chg_current_reads_only p d0) as (Hr & _ & Hn & _).
    split; [intros r; apply reg8_regs, Hr | exact Hn]. }
  assert (Hrec : forall p d0 r, r <> AXP20X_CHRG_CTRL1 -> r <> AXP20X_PWR_OP_MODE ->
            reg8 (bus (axp20x_battery_chg_reconfig p d0)) r = reg8 d0 r)
    by (intros p d0; apply (proj1 (chg_reconfig_frame p d0))).
  destruct (axp20x_battery_power_set_property power psp val d) as [[r p'] d' tr] eqn:Hrun.
  cbn [value bus trace fst snd].
  destruct psp; unfold axp20x_battery_power_set_property in Hrun; inv_run Hrun.
  all: repeat match goal with
       | H : axp20x_battery_max_chg_current ?p ?d0 = Outcome _ _ _ |- _ =>
           let F := fresh "F" in
           pose proof (Hmax p d0) as F; rewrite H in F; cbn [value bus trace] in F;
           destruct F; clear H
       | H : axp20x_battery_chg_reconfig ?p ?d0 = Outcome _ _ _ |- _ =>
           let F := fresh "F" in
           pose proof (Hrec p d0) as F; rewrite H in F; cbn [value bus trace] in F;
           clear H
       end.
  all: clear Hmax Hrec; bool_hyps; simplify_eq.
  all: try match goal with |- context [neg ?e] => pose proof (neg_negative e) end.
  all: split; [cbn; lia|].
  all: split; [first [left; reflexivity | right; repeat split; auto; lia]|].
  all: split.
  all: try (intros r0 Hr1 Hr2;
            repeat first [ rewrite reg8_tick | rewrite reg8_updated_other by assumption
                         | match goal with F : forall r, _ -> _ -> reg8 _ r = _ |- _ =>
                             rewrite (F r0 Hr1 Hr2) end
                         | match goal with F : forall r, reg8 _ r = _ |- _ =>
                             rewrite (F r0) end ];
            reflexivity).
  all: intros Hnz; try congruence.
  all: unfold notifications in *; rewrite ?List.filter_app, ?length_app;
    repeat match goal with F : length _ = 0%nat |- _ => rewrite F; clear F end;
    try reflexivity.
Qed.
(** X9.  A property the driver declares read-only is refused by the write
    path with -EINVAL before anything happens; so is the minimum design
    voltage, although the driver declares it writeable. *)
Theorem set_property_rejects power psp val d :
  axp20x_battery_power_property_writeable psp = false \/
  psp = POWER_SUPPLY_PROP_VOLTAGE_MIN_DESIGN ->
  axp20x_battery_power_property_writeable POWER_SUPPLY_PROP_VOLTAGE_MIN_DESIGN = true /\
  axp20x_battery_power_set_property power psp val d = Outcome (neg EINVAL, power) d [].
Proof.
  intros H. split; [reflexivity|].
  destruct H as [H | ->]; [|reflexivity].
  destruct psp; try discriminate H; reflexivity.
Qed.

Lemma set_property_rejects_witness :
  axp20x_battery_power_set_property power_ts POWER_SUPPLY_PROP_CAPACITY 50 bus_vbus =
  Outcome (neg EINVAL, power_ts) bus_vbus [].
Proof.
  exact (proj2 (set_property_rejects power_ts POWER_SUPPLY_PROP_CAPACITY 50 bus_vbus
                  (or_introl eq_refl))).
Defined.

(** X10.  Asking for charging while the policy allows no charge current
    writes nothing and notifies nobody: the call ends after the policy's
    reads, with the policy's error or, for a maximum of 0, with -EBUSY. *)
Theorem set_status_charging_refused power d :
  let m := axp20x_battery_max_chg_current power d in
  value m <= 0 ->
  axp20x_battery_power_set_property power POWER_SUPPLY_PROP_STATUS
    POWER_SUPPLY_STATUS_CHARGING d =
  Outcome (if value m <? 0 then value m else neg EBUSY, power) (bus m) (trace m) /\
  regs (bus m) = regs d /\ bus_writes (trace m) = [] /\
  notifications (trace m) = 0%nat.
Proof.
  cbv zeta. intros Hle.
  destruct (max_chg_current_reads_only power d) as (Hr & Hw & Hn & _).
  split; [|auto].
  unfold axp20x_battery_power_set_property.
  change (POWER_SUPPLY_STATUS_CHARGING =? POWER_SUPPLY_STATUS_CHARGING) with true.
  cbv beta iota. unfold bind at 1.
  destruct (axp20x_battery_max_chg_current power d) as [cm d1 t1].
  cbn [value bus trace] in *.
  destruct (cm <? 0) eqn:Hc.
  - cbn [ret]. rewrite app_nil_r. reflexivity.
  - apply Z.ltb_ge in Hc. assert (cm = 0) as -> by lia.
    cbn [Z.eqb ret]. rewrite app_nil_r. reflexivity.
Qed.

Lemma set_status_charging_refused_witness :
  axp20x_battery_power_set_property power_ts POWER_SUPPLY_PROP_STATUS
    POWER_SUPPLY_STATUS_CHARGING bus_low_voltage =
  Outcome (neg EBUSY, power_ts) bus_low_voltage
    [EvRead AXP20X_PWR_INPUT_STATUS (RdOk 0)].
Proof.
  exact (proj1 (set_status_charging_refused power_ts bus_low_voltage
                  ltac:(vm_compute; discriminate))).
Defined.

(** X11.  Asking for charging on a fault-free bus with a positive policy
    maximum succeeds: the charging bit is set, then the reconfiguration runs
    with the same maximum, updates the current field, sets the charging bit
    again and notifies once.  When the target, the smaller of the maximum
    and the user ceiling, is at least 300000 uA, the field programmed is the
    largest 100 mA step not above the target and not above 1800000 uA;
    nothing is said of the field for a target below the first step. *)
Theorem set_status_charging_enables power d :
  faults d = [] ->
  let m := axp20x_battery_max_chg_current power d in
  0 < value m ->
  let o := axp20x_battery_power_set_property power POWER_SUPPLY_PROP_STATUS
             POWER_SUPPLY_STATUS_CHARGING d in
  let target := Z.min (value m) (charge_user_imax power) in
  exists field,
    value o = (0, power) /\
    trace o = trace m ++
      EvUpdateBits AXP20X_PWR_OP_MODE AXP20X_PWR_OP_CHARGING AXP20X_PWR_OP_CHARGING 0 ::
      trace m ++
      [EvUpdateBits AXP20X_CHRG_CTRL1 AXP20X_CHRG_CTRL1_TGT_CURR field 0;
       EvUpdateBits AXP20X_PWR_OP_MODE AXP20X_PWR_OP_CHARGING AXP20X_PWR_OP_CHARGING 0;
       EvChanged] /\
    Z.testbit (reg8 (bus o) AXP20X_PWR_OP_MODE) 6 = true /\
    (300000 <= target ->
     0 <= field <= 15 /\
     300000 + 100000 * field <= Z.min target (300000 + 15 * 100000)
                             < 300000 + 100000 * (field + 1) /\
     Z.land (reg8 (bus o) AXP20X_CHRG_CTRL1) 0x0f = field).
Proof.
  intros Hq m Hpos o target.
  pose proof (max_chg_current_quiet power d Hq) as Hq1.
  destruct (max_chg_current_reads_only power d) as (Hr & _).
  fold m in Hq1, Hr.
  set (d2 := updated (bus m) AXP20X_PWR_OP_MODE AXP20X_PWR_OP_CHARGING
               AXP20X_PWR_OP_CHARGING).
  assert (Hq2 : faults d2 = []) by (apply faults_updated, Hq1).
  assert (Hsame : forall r, r <> AXP20X_PWR_OP_MODE -> reg8 d2 r = reg8 d r).
  { intros r Hne. unfold d2. rewrite reg8_updated_other by assumption.
    apply reg8_regs, Hr. }
  destruct (max_chg_current_rerun power d d2) as [_ Hre].
  1, 2: apply Hsame; discriminate.
  destruct (Hre Hq Hq2) as (Htr & Hval & _). fold m in Htr, Hval.
  pose proof (chg_reconfig_quiet power d2 Hq2) as Hrec. cbv zeta in Hrec.
  rewrite Hval, Htr in Hrec. destruct (Hrec Hpos) as (field & Hrun & Hfield).
  fold target in Hfield. clear Hrec.
  exists field.
  assert (E : o = Outcome (0, power)
                (updated (updated (bus (axp20x_battery_max_chg_current power d2))
                            AXP20X_CHRG_CTRL1 AXP20X_CHRG_CTRL1_TGT_CURR field)
                   AXP20X_PWR_OP_MODE AXP20X_PWR_OP_CHARGING AXP20X_PWR_OP_CHARGING)
                (trace m ++
                 EvUpdateBits AXP20X_PWR_OP_MODE AXP20X_PWR_OP_CHARGING
                   AXP20X_PWR_OP_CHARGING 0 ::
                 trace m ++
                 [EvUpdateBits AXP20X_CHRG_CTRL1 AXP20X_CHRG_CTRL1_TGT_CURR field 0;
                  EvUpdateBits AXP20X_PWR_OP_MODE AXP20X_PWR_OP_CHARGING
                    AXP20X_PWR_OP_CHARGING 0;
                  EvChanged])).
  { unfold o, axp20x_battery_power_set_property.
    change (POWER_SUPPLY_STATUS_CHARGING =? POWER_SUPPLY_STATUS_CHARGING) with true.
    cbv beta iota. unfold bind at 1. fold m. clearbody m.
    destruct m as [cm d1 t1]. cbn [value bus trace] in *.
    destruct (cm <? 0) eqn:Hc; [apply Z.ltb_lt in Hc; lia|].
    destruct (cm =? 0) eqn:Hz; [apply Z.eqb_eq in Hz; lia|].
    unfold bind at 1, regmap_update_bits at 1.
    rewrite (next_fault_quiet d1 Hq1). cbn [Z.eqb].
    unfold bind. fold d2. rewrite Hrun. cbn [ret]. rewrite app_nil_r. reflexivity. }
  rewrite E. cbn [value bus trace].
  split; [reflexivity|]. split; [reflexivity|]. split.
  - apply charging_bit_updated.
  - intros Ht. specialize (Hfield Ht).
    destruct (current_field_step target Ht) as (Hf & Hstep). cbv zeta in Hf, Hstep.
    change Spec.max_target_current with (300000 + 15 * 100000) in Hstep.
    rewrite <- Hfield in Hf, Hstep.
    split; [exact Hf|]. split; [exact Hstep|].
    rewrite reg8_updated_other by discriminate.
    rewrite reg8_updated, Z.eqb_refl, land_15_update.
    change 15 with (Z.ones 4). rewrite Z.land_ones by lia. apply Z.mod_small. lia.
Qed.

Lemma set_status_charging_enables_witness :
  exists field,
    Z.land (reg8 (bus (axp20x_battery_power_set_property power_ts POWER_SUPPLY_PROP_STATUS
                         POWER_SUPPLY_STATUS_CHARGING bus_vbus)) AXP20X_CHRG_CTRL1) 0x0f
    = field /\ 0 <= field <= 15.
Proof.
  destruct (set_status_charging_enables power_ts bus_vbus eq_refl
              ltac:(vm_compute; reflexivity)) as (field & _ & _ & _ & Hg).
  exists field.
  destruct (Hg ltac:(vm_compute; discriminate)) as (Hf & _ & Hn).
  split; [exact Hn | exact Hf].
Defined.

(** X12.  Any status other than Charging: Not-charging is one update that
    clears the charging bit and nothing else of AXP20X_PWR_OP_MODE; every
    other value is -EINVAL without a bus call.  Neither reads the policy's
    registers, changes the driver state or notifies. *)
Theorem set_status_other power val d :
  val <> POWER_SUPPLY_STATUS_CHARGING ->
  let o := axp20x_battery_power_set_property power POWER_SUPPLY_PROP_STATUS val d in
  snd (value o) = power /\ notifications (trace o) = 0%nat /\
  reads_of (trace o) = [] /\
  if val =? POWER_SUPPLY_STATUS_NOT_CHARGING then
    trace o = [EvUpdateBits AXP20X_PWR_OP_MODE AXP20X_PWR_OP_CHARGING 0 (fst (value o))] /\
    (fst (value o) = 0 ->
     forall n, 0 <= n ->
       Z.testbit (reg8 (bus o) AXP20X_PWR_OP_MODE) n =
       if n =? 6 then false else Z.testbit (reg8 d AXP20X_PWR_OP_MODE) n)
  else o = Outcome (neg EINVAL, power) d [].
Proof.
  intros Hne. cbv zeta. unfold axp20x_battery_power_set_property.
  destruct (val =? POWER_SUPPLY_STATUS_CHARGING) eqn:E; [apply Z.eqb_eq in E; contradiction|].
  destruct (val =? POWER_SUPPLY_STATUS_NOT_CHARGING).
  2: { cbn. auto. }
  unfold bind, regmap_update_bits. destruct (next_fault d) as [e|].
  - cbn. repeat split; auto. intros H. pose proof (neg_negative e). unfold neg in *. lia.
  - cbn [ret value bus trace fst snd app]. repeat split; auto.
    intros _ n Hn. destruct (n =? 6) eqn:E6.
    + apply Z.eqb_eq in E6. subst n. apply charging_bit_updated.
    + apply Z.eqb_neq in E6. apply other_bits_updated; assumption.
Qed.

Lemma set_status_other_witness :
  snd (value (axp20x_battery_power_set_property power_ts POWER_SUPPLY_PROP_STATUS
                POWER_SUPPLY_STATUS_NOT_CHARGING bus_vbus)) = power_ts.
Proof.
  exact (proj1 (set_status_other power_ts POWER_SUPPLY_STATUS_NOT_CHARGING bus_vbus
                  ltac:(discriminate))).
Defined.

(** ** Composition of the charger paths *)



Lemma get_current_max_quiet power v0 d :
  next_fault d = None ->
  value (axp20x_battery_power_get_property power POWER_SUPPLY_PROP_CURRENT_MAX v0 d) =
  (0, 300000 + 100000 * Z.land (reg8 d AXP20X_CHRG_CTRL1) 15).
Proof.
  intros Hf. unfold axp20x_battery_power_get_property, bind, regmap_read.
  rewrite Hf. cbn [ret value].
  change AXP20X_CHRG_CTRL1_TGT_CURR with 15.
  pose proof (land_15_range (reg8 d AXP20X_CHRG_CTRL1)).
  f_equal. int_simpl. lia.
Qed.

(** What the target-current property reads after a reconfiguration that
    programmed the field. *)
Lemma reconfig_readback power v0 d :
  faults d = [] ->
  Int.in_range (charge_user_imax power) ->
  let m := value (axp20x_battery_max_chg_current power d) in
  let target := Z.min m (charge_user_imax power) in
  300000 <= target ->
  let o := axp20x_battery_chg_reconfig power d in
  let g := axp20x_battery_power_get_property power POWER_SUPPLY_PROP_CURRENT_MAX v0 (bus o) in
  fst (value g) = 0 /\
  snd (value g) = 300000 + 100000 * Spec.current_field target.
Proof.
  intros Hq Hu m target Ht o g.
  pose proof (chg_reconfig_quiet power d Hq) as Hrec. cbv zeta in Hrec.
  fold m in Hrec. fold target in Hrec.
  destruct (Hrec ltac:(lia)) as (field & Hrun & Hfield).
  rewrite (Hfield Ht) in Hrun. clear Hrec Hfield. rename Hrun into Hrec.
  pose proof (chg_reconfig_quiet_faults power d Hq) as Hq'.
  unfold g. rewrite get_current_max_quiet by (apply next_fault_quiet, Hq').
  cbn [fst snd]. unfold o. rewrite Hrec. cbn [bus].
  rewrite reg8_updated_other by discriminate.
  rewrite reg8_updated, Z.eqb_refl, land_15_update.
  destruct (current_field_step target Ht) as (Hf & Hstep).
  assert (E : Z.land (Spec.current_field target) 15 = Spec.current_field target).
  { change 15 with (Z.ones 4). rewrite Z.land_ones by lia.
    apply Z.mod_small. lia. }
  rewrite E. split; reflexivity.
Qed.

(** X14.  What the reconfiguration programs is what the target-current
    property then reports: with a target (the smaller of policy maximum and
    user ceiling) of at least 300000 uA, the value read back is the largest
    100 mA step not above the target, at most 1800000 uA. *)
Theorem reconfig_then_get_current_max power v0 d :
  faults d = [] ->
  Int.in_range (charge_user_imax power) ->
  let m := value (axp20x_battery_max_chg_current power d) in
  let target := Z.min m (charge_user_imax power) in
  300000 <= target ->
  let o := axp20x_battery_chg_reconfig power d in
  let g := axp20x_battery_power_get_property power POWER_SUPPLY_PROP_CURRENT_MAX v0 (bus o) in
  fst (value g) = 0 /\
  snd (value g) = 300000 + 100000 * Spec.current_field target /\
  snd (value g) <= Z.min target 1800000 < snd (value g) + 100000.
Proof.
  intros Hq Hu m target Ht o g.
  destruct (reconfig_readback power v0 d Hq Hu Ht) as (Hret & Hval).
  fold o in Hret, Hval. fold g in Hret, Hval. fold m in Hval. fold target in Hval.
  destruct (current_field_step target Ht) as (Hf & Hstep).
  change Spec.max_target_current with 1800000 in Hstep.
  split; [exact Hret|]. split; [exact Hval|].
  rewrite Hval. cbv zeta in Hstep. lia.
Qed.

Lemma reconfig_then_get_current_max_witness :
  snd (value (axp20x_battery_power_get_property power_ts POWER_SUPPLY_PROP_CURRENT_MAX 0
                (bus (axp20x_battery_chg_reconfig power_ts bus_vbus)))) =
  300000 + 100000 * Spec.current_field (Z.min 300000 1000000).
Proof.
  refine (proj1 (proj2 (reconfig_then_get_current_max power_ts 0 bus_vbus eq_refl _ _))).
  - unfold Int.in_range, Int.INT_MIN, Int.INT_MAX; cbn; lia.
  - vm_compute; discriminate.
Defined.
Lemma set_current_max_run power v d :
  Int.in_range v -> 300000 <= v < 1900000 ->
  axp20x_battery_power_set_property power POWER_SUPPLY_PROP_CURRENT_MAX v d =
  let o := axp20x_battery_chg_reconfig (set_charge_user_imax power v) d in
  Outcome (0, set_charge_user_imax power v) (bus o) (trace o).
Proof.
  intros Hr Hv. unfold axp20x_battery_power_set_property.
  pose proof (current_max_guard v Hr) as G.
  destruct (0x0f <? Int.div (Int.sub v 300000) 100000).
  { cbn [orb] in G. symmetry in G. apply negb_true_iff in G.
    apply andb_false_iff in G. destruct G as [G | G]; bool_hyps; lia. }
  destruct (v <? 300000) eqn:E; [apply Z.ltb_lt in E; lia|].
  cbv zeta. unfold bind.
  destruct (axp20x_battery_chg_reconfig (set_charge_user_imax power v) d) as [u d1 t1].
  cbn [ret bus trace]. rewrite app_nil_r. reflexivity.
Qed.

(** X15.  Round trip of the target charge current: after an accepted write
    on a fault-free bus with a policy maximum of at least 300000 uA, the
    property reads back the largest 100 mA step not above the smaller of the
    written value and the maximum; a value on a step that the maximum allows
    reads back as written. *)
Theorem set_then_get_current_max power v v0 d :
  faults d = [] ->
  300000 <= v < 1900000 ->
  let m := value (axp20x_battery_max_chg_current power d) in
  300000 <= m ->
  let o := axp20x_battery_power_set_property power POWER_SUPPLY_PROP_CURRENT_MAX v d in
  let g := axp20x_battery_power_get_property (snd (value o))
             POWER_SUPPLY_PROP_CURRENT_MAX v0 (bus o) in
  fst (value o) = 0 /\ fst (value g) = 0 /\
  snd (value g) <= Z.min v m < snd (value g) + 100000 /\
  ((v - 300000) mod 100000 = 0 -> v <= m -> snd (value g) = v).
Proof.
  intros Hq Hv m Hm o g.
  assert (Hr : Int.in_range v)
    by (unfold Int.in_range, Int.INT_MIN, Int.INT_MAX; lia).
  unfold g, o. rewrite (set_current_max_run power v d Hr Hv). cbv zeta.
  cbn [value bus fst snd].
  pose proof (reconfig_readback (set_charge_user_imax power v) v0 d Hq Hr)
    as H. cbv zeta in H.
  rewrite (max_chg_current_capacity power (set_charge_user_imax power v) d eq_refl) in H.
  fold m in H. cbn [charge_user_imax set_charge_user_imax] in H.
  specialize (H ltac:(lia)). destruct H as (H1 & H2).
  split; [reflexivity|]. split; [exact H1|].
  destruct (current_field_step (Z.min m v) ltac:(lia)) as (Hf & H3).
  cbv zeta in H3. change Spec.max_target_current with 1800000 in H3.
  assert (Hmin : Z.min m v = Z.min v m) by lia. rewrite Hmin in *.
  rewrite H2 in *.
  set (f := Spec.current_field (Z.min v m)) in *. clearbody f.
  split; [lia|].
  intros Hg Hle. apply Z.mod_divide in Hg; [|lia]. destruct Hg as [k Hk]. lia.
Qed.

Lemma set_then_get_current_max_witness :
  snd (value (axp20x_battery_power_get_property
                (snd (value (axp20x_battery_power_set_property power_ts
                               POWER_SUPPLY_PROP_CURRENT_MAX 700000 bus_mains)))
                POWER_SUPPLY_PROP_CURRENT_MAX 0
                (bus (axp20x_battery_power_set_property power_ts
                        POWER_SUPPLY_PROP_CURRENT_MAX 700000 bus_mains)))) = 700000.
Proof.
  refine (proj2 (proj2 (proj2 (set_then_get_current_max power_ts 700000 0 bus_mains
                                 eq_refl _ _))) _ _).
  - lia.
  - vm_compute; discriminate.
  - reflexivity.
  - vm_compute; discriminate.
Defined.

Lemma chg_reconfig_quiet_zero power d :
  faults d = [] ->
  let m := axp20x_battery_max_chg_current power d in
  value m = 0 ->
  axp20x_battery_chg_reconfig power d =
  Outcome tt (updated (bus m) AXP20X_PWR_OP_MODE AXP20X_PWR_OP_CHARGING 0)
    (trace m ++ [EvUpdateBits AXP20X_PWR_OP_MODE AXP20X_PWR_OP_CHARGING 0 0; EvChanged]).
Proof.
  intros Hq. cbv zeta.
  pose proof (max_chg_current_quiet power d Hq) as Hq1.
  destruct (axp20x_battery_max_chg_current power d) as [cm d1 t1] eqn:Hm.
  cbn [value bus trace] in *. intros ->.
  destruct (axp20x_battery_chg_reconfig power d) as [u d' tr] eqn:Hrun.
  unfold axp20x_battery_chg_reconfig in Hrun.
  apply bind_inv in Hrun as (a & dd & tt1 & tt2 & Hm' & Hk & ->).
  rewrite Hm in Hm'. injection Hm' as <- <- <-.
  inv_quiet Hk.
  all: bool_hyps; try lia; try discriminate.
  destruct u. reflexivity.
Qed.

(** X16.  Without a charge source the accepted target current is stored
    but not programmed: the write returns 0 and replaces the user ceiling,
    the current field of AXP20X_CHRG_CTRL1 stays as it was, so the property
    reads back the old value, and the charging bit is cleared. *)
Theorem set_current_max_unpowered power v v0 d :
  faults d = [] ->
  300000 <= v < 1900000 ->
  value (axp20x_battery_max_chg_current power d) = 0 ->
  let o := axp20x_battery_power_set_property power POWER_SUPPLY_PROP_CURRENT_MAX v d in
  value o = (0, set_charge_user_imax power v) /\
  reg8 (bus o) AXP20X_CHRG_CTRL1 = reg8 d AXP20X_CHRG_CTRL1 /\
  Z.testbit (reg8 (bus o) AXP20X_PWR_OP_MODE) 6 = false /\
  value (axp20x_battery_power_get_property (snd (value o))
           POWER_SUPPLY_PROP_CURRENT_MAX v0 (bus o)) =
  value (axp20x_battery_power_get_property power POWER_SUPPLY_PROP_CURRENT_MAX v0 d).
Proof.
  intros Hq Hv Hz o.
  assert (Hr : Int.in_range v)
    by (unfold Int.in_range, Int.INT_MIN, Int.INT_MAX; lia).
  unfold o. rewrite (set_current_max_run power v d Hr Hv). cbv zeta.
  cbn [value bus fst snd].
  pose proof (chg_reconfig_quiet_faults (set_charge_user_imax power v) d Hq) as Hq'.
  pose proof (chg_reconfig_quiet_zero (set_charge_user_imax power v) d Hq) as Hrec.
  cbv zeta in Hrec.
  rewrite (max_chg_current_capacity power (set_charge_user_imax power v) d eq_refl)
    in Hrec.
  specialize (Hrec Hz).
  rewrite !get_current_max_quiet by (apply next_fault_quiet; assumption).
  rewrite Hrec. cbn [bus].
  destruct (max_chg_current_reads_only power d) as (Hregs & _).
  assert (E : reg8 (updated (bus (axp20x_battery_max_chg_current power d))
                      AXP20X_PWR_OP_MODE AXP20X_PWR_OP_CHARGING 0) AXP20X_CHRG_CTRL1 =
              reg8 d AXP20X_CHRG_CTRL1).
  { rewrite reg8_updated_other by discriminate. apply reg8_regs, Hregs. }
  rewrite E. split; [reflexivity|]. split; [reflexivity|].
  split; [apply charging_bit_updated | reflexivity].
Qed.

Lemma set_current_max_unpowered_witness :
  value (axp20x_battery_power_set_property power_ts POWER_SUPPLY_PROP_CURRENT_MAX 700000
           bus_low_voltage) = (0, set_charge_user_imax power_ts 700000).
Proof.
  refine (proj1 (set_current_max_unpowered power_ts 700000 0 bus_low_voltage
                   eq_refl _ _)).
  - lia.
  - reflexivity.
Defined.

(** ** Repeated interrupts, and the poll against the telemetry reads *)

Lemma tick_quiet d : faults d = [] -> tick d = d.
Proof. destruct d as [rg fl]. cbn. intros ->. reflexivity. Qed.

Lemma updated_twice d reg mask val :
  faults d = [] ->
  updated (updated d reg mask val) reg mask val = updated d reg mask val.
Proof.
  intros Hq. unfold updated at 1.
  rewrite reg8_updated, Z.eqb_refl, update_bits_idem, Z.eqb_refl.
  apply tick_quiet, faults_updated, Hq.
Qed.

(** X17.  The interrupt handlers are idempotent: on a fault-free bus, the
    same interrupt handled a second time yields the outcome of the first
    (state, registers, return value and trace). *)
Theorem irq_handler_idempotent name h irq power d :
  In (name, h) irq_table ->
  faults d = [] ->
  let o1 := h irq power d in
  h irq (snd (value o1)) (bus o1) = o1.
Proof.
  intros Hin Hq. cbv zeta.
  pose proof (next_fault_quiet d Hq) as Hf.
  assert (Hf' : forall m v, next_fault (updated d AXP20X_PWR_OP_MODE m v) = None)
    by (intros m v; apply next_fault_quiet, faults_updated, Hq).
  unfold irq_table in Hin. cbn [In] in Hin. decompose_in Hin.
  all: unfold axp20x_irq_batt_high_temp, axp20x_irq_batt_low_temp, axp20x_irq_batt_plugin,
         axp20x_irq_batt_removal, axp20x_irq_batt_activation, axp20x_irq_batt_activated,
         axp20x_irq_batt_charging, axp20x_irq_batt_charged, axp20x_irq_batt_chg_curr_low,
         axp20x_irq_power_low, axp20x_irq_power_low_crit,
         bind, regmap_update_bits, dev_info, dev_dbg, dev_warn, dev_crit,
         power_supply_changed, emit, ret.
  all: rewrite ?Hf; cbn [value bus trace snd]; rewrite ?Hf'; cbn [value bus trace snd].
  all: rewrite ?updated_twice by exact Hq; reflexivity.
Qed.

Lemma irq_handler_idempotent_witness :
  axp20x_irq_batt_removal 4
    (snd (value (axp20x_irq_batt_removal 4 power_ts bus_low_voltage)))
    (bus (axp20x_irq_batt_removal 4 power_ts bus_low_voltage)) =
  axp20x_irq_batt_removal 4 power_ts bus_low_voltage.
Proof.
  exact (irq_handler_idempotent "BATT_REMOVAL" axp20x_irq_batt_removal 4 power_ts
           bus_low_voltage ltac:(cbn; tauto) eq_refl).
Defined.
(** X18.  On a fault-free bus the poll caches what the telemetry reads
    report: with the battery reported present the cached percent is the
    capacity property, and without a temperature range the health is Dead
    exactly when the reported voltage is below 2000000 uV, else Unknown;
    with the battery reported absent the cache is Unknown and 0. *)
Theorem poll_matches_properties power v0 d :
  faults d = [] ->
  let p := value (axp20x_battery_poll power d) in
  let get psp := snd (value (axp20x_battery_power_get_property power psp v0 d)) in
  (get POWER_SUPPLY_PROP_PRESENT = 1 ->
   percent p = get POWER_SUPPLY_PROP_CAPACITY /\
   (tbatt_min power = 0 -> tbatt_max power = 0 ->
    health p = if get POWER_SUPPLY_PROP_VOLTAGE_NOW <? 2000000
               then POWER_SUPPLY_HEALTH_DEAD else POWER_SUPPLY_HEALTH_UNKNOWN)) /\
  (get POWER_SUPPLY_PROP_PRESENT <> 1 ->
   get POWER_SUPPLY_PROP_PRESENT = 0 /\
   percent p = 0 /\ health p = POWER_SUPPLY_HEALTH_UNKNOWN).
Proof.
  intros Hq. cbv beta zeta.
  pose proof (next_fault_quiet d Hq) as Hf.
  destruct (axp20x_battery_power_get_property power POWER_SUPPLY_PROP_PRESENT v0 d)
    as [vp dp tp] eqn:Hp.
  destruct (axp20x_battery_power_get_property power POWER_SUPPLY_PROP_CAPACITY v0 d)
    as [vc dc tc] eqn:Hc.
  destruct (axp20x_battery_power_get_property power POWER_SUPPLY_PROP_VOLTAGE_NOW v0 d)
    as [vv dv tv] eqn:Hv.
  destruct (axp20x_battery_poll power d) as [p1 d1 t1] eqn:H1.
  cbn [value].
  unfold axp20x_battery_power_get_property in Hp, Hc, Hv.
  inv_quiet Hp. inv_quiet Hc. inv_quiet Hv.
  1: { bool_hyps. pose proof (reg8_range d AXP20X_BATT_V_H) as Hh.
       pose proof (raw12_range _ (reg8 d (AXP20X_BATT_V_H + 1)) Hh). lia. }
  cbn [snd].
  unfold axp20x_battery_poll in H1. inv_quiet H1.
  all: rewrite ?reg8_tick in *.
  all: pose proof (raw12_reg8_range d d AXP20X_BATT_V_H (AXP20X_BATT_V_H + 1)) as Hraw.
  all: destruct (truthy (Z.land (reg8 d AXP20X_PWR_OP_MODE) AXP20X_PWR_OP_BATT_PRESENT))
         eqn:Ht; cbn [negb] in *; try discriminate.
  all: split; [intros Hp | intros Hp]; try discriminate Hp;
    try (exfalso; apply Hp; reflexivity); try (repeat split; reflexivity).
  all: cbn [percent health set_health_percent]; split; [reflexivity|]; intros E1 E2.
  all: try match goal with
           | H : truthy (tbatt_min _) || truthy (tbatt_max _) = true |- _ =>
               rewrite E1, E2 in H; discriminate H
           end.
  all: destruct (Z.leb_spec 0 (raw12 (reg8 d AXP20X_BATT_V_H)
                                 (reg8 d (AXP20X_BATT_V_H + 1)))); [reflexivity | lia].
Qed.

Lemma poll_matches_properties_witness :
  percent (value (axp20x_battery_poll power_ts bus_low_voltage)) =
  snd (value (axp20x_battery_power_get_property power_ts POWER_SUPPLY_PROP_CAPACITY 0
                bus_low_voltage)).
Proof.
  exact (proj1 (proj1 (poll_matches_properties power_ts 0 bus_low_voltage eq_refl)
                  eq_refl)).
Defined.

(** ** The backup battery driver *)

(** A field inside the mask of an update reads back as the value written. *)
Lemma land_submask_update o mask val m :
  Z.land mask 255 = mask -> Z.land m mask = m ->
  Z.land (Z.land (Z.lor (Z.land o (Z.lnot mask)) (Z.land val mask)) 255) m = Z.land val m.
Proof.
  intros Hmask Hm.
  rewrite <- Hm at 1. rewrite (Z.land_comm m mask), Z.land_assoc.
  rewrite land_mask_update by exact Hmask.
  rewrite <- Z.land_assoc, (Z.land_comm mask m), Hm. reflexivity.
Qed.

Lemma land_voltage_cases x :
  let f := Z.land x AXP20X_BACKUP_VOLTAGE_MASK in
  f = 0 \/ f = 32 \/ f = 64 \/ f = 96.
Proof. exact (land_tgt_volt_cases x). Qed.

Lemma land_3_cases x : let f := Z.land x 3 in f = 0 \/ f = 1 \/ f = 2 \/ f = 3.
Proof. cbv zeta. pose proof (land_3_range x). lia. Qed.

Lemma rtcbatt_get_prop_quiet psp v0 d :
  next_fault d = None ->
  axp20x_rtcbatt_get_prop psp v0 d =
  let reg := reg8 d AXP20X_CHRG_BAK_CTRL in
  Outcome
    (match psp with
     | Gauge POWER_SUPPLY_PROP_STATUS =>
         (0, if truthy (Z.land reg AXP20X_BACKUP_ENABLE)
             then POWER_SUPPLY_STATUS_CHARGING else POWER_SUPPLY_STATUS_NOT_CHARGING)
     | POWER_SUPPLY_PROP_CONSTANT_CHARGE_VOLTAGE =>
         let f := Z.land reg AXP20X_BACKUP_VOLTAGE_MASK in
         (0, if f =? AXP20X_BACKUP_VOLTAGE_2_5V then 2500000
             else if f =? AXP20X_BACKUP_VOLTAGE_3_0V then 3000000
             else if f =? AXP20X_BACKUP_VOLTAGE_3_1V then 3100000
             else if f =? AXP20X_BACKUP_VOLTAGE_3_6V then 3600000
             else 0)
     | POWER_SUPPLY_PROP_CONSTANT_CHARGE_CURRENT =>
         let f := Z.land reg AXP20X_BACKUP_CURRENT_MASK in
         (0, if f =? AXP20X_BACKUP_CURRENT_50uA then 50
             else if f =? AXP20X_BACKUP_CURRENT_100uA then 100
             else if f =? AXP20X_BACKUP_CURRENT_200uA then 200
             else if f =? AXP20X_BACKUP_CURRENT_400uA then 400
             else 0)
     | _ => (neg EINVAL, v0)
     end)
    (tick d) [EvRead AXP20X_CHRG_BAK_CTRL (RdOk reg)].
Proof.
  intros Hf. unfold axp20x_rtcbatt_get_prop, bind, regmap_read. rewrite Hf. cbv zeta.
  destruct psp as [[]| |]; cbn [ret app];
    repeat match goal with |- context [if ?c then _ else _] => destruct c end;
    reflexivity.
Qed.

(** X19.  Reading a backup-battery property is one register read, also for
    a property the driver does not know, and changes no register.  A
    successful read reports a value of the property's table: the [default:]
    labels that would report 0 cannot be reached, and success means the
    property is one of the three the driver lists. *)
Theorem rtcbatt_get_prop_table psp val d :
  let o := axp20x_rtcbatt_get_prop psp val d in
  regs (bus o) = regs d /\
  reads_of (trace o) = [AXP20X_CHRG_BAK_CTRL] /\ bus_writes (trace o) = [] /\
  (fst (value o) <> 0 -> fst (value o) < 0 /\ snd (value o) = val) /\
  (fst (value o) = 0 ->
   In psp axp20x_rtcbatt_properties /\
   match psp with
   | Gauge _ => In (snd (value o))
                  [POWER_SUPPLY_STATUS_CHARGING; POWER_SUPPLY_STATUS_NOT_CHARGING]
   | POWER_SUPPLY_PROP_CONSTANT_CHARGE_VOLTAGE =>
       In (snd (value o)) [2500000; 3000000; 3100000; 3600000]
   | POWER_SUPPLY_PROP_CONSTANT_CHARGE_CURRENT => In (snd (value o)) [50; 100; 200; 400]
   end).
Proof.
  cbv zeta. destruct (next_fault d) as [e|] eqn:Hf.
  - unfold axp20x_rtcbatt_get_prop, bind, regmap_read. rewrite Hf.
    cbn [ret value bus trace app fst snd reads_of bus_writes flat_map tick regs].
    pose proof (neg_negative e).
    repeat split; try reflexivity; try lia.
  - rewrite (rtcbatt_get_prop_quiet psp val d Hf). cbv zeta.
    cbn [value bus trace fst snd reads_of bus_writes flat_map app tick regs].
    split; [reflexivity|]. split; [reflexivity|]. split; [reflexivity|].
    pose proof (land_voltage_cases (reg8 d AXP20X_CHRG_BAK_CTRL)) as Hv.
    pose proof (land_3_cases (reg8 d AXP20X_CHRG_BAK_CTRL)) as Hc.
    cbv zeta in Hv, Hc. change AXP20X_BACKUP_CURRENT_MASK with 3.
    destruct psp as [[]| |]; cbn [fst snd]; (split; [intros H|intros H]);
      try (exfalso; apply H; reflexivity); try discriminate H;
      try (split; reflexivity).
    + split; [cbn; tauto|].
      destruct (truthy _); cbn; tauto.
    + split; [cbn; tauto|].
      destruct Hv as [-> | [-> | [-> | ->]]]; cbn; tauto.
    + split; [cbn; tauto|].
      destruct Hc as [-> | [-> | [-> | ->]]]; cbn; tauto.
Qed.

Lemma rtcbatt_enable_bit x : truthy (Z.land x AXP20X_BACKUP_ENABLE) = Z.testbit x 7.
Proof. apply (truthy_bit x 7). lia. Qed.

(** X20.  Round trip of the backup charger configuration: with a valid
    voltage and current in the device tree and a fault-free bus, the
    configuration returns 0 and the three properties then report charging,
    that voltage and that current; the register bits outside the three
    fields stay as they were. *)
Theorem rtcbatt_config_round_trip np v c v0 d :
  faults d = [] ->
  of_property_read_u32_array np "voltage" 1 = OfOk [v] ->
  of_property_read_u32_array np "current" 1 = OfOk [c] ->
  In v [2500000; 3000000; 3100000; 3600000] ->
  In c [50; 100; 200; 400] ->
  let o := axp20x_rtcbatt_config np d in
  let get psp := value (axp20x_rtcbatt_get_prop psp v0 (bus o)) in
  value o = 0 /\
  get (Gauge POWER_SUPPLY_PROP_STATUS) = (0, POWER_SUPPLY_STATUS_CHARGING) /\
  get POWER_SUPPLY_PROP_CONSTANT_CHARGE_VOLTAGE = (0, v) /\
  get POWER_SUPPLY_PROP_CONSTANT_CHARGE_CURRENT = (0, c) /\
  (forall n, In n [2; 3; 4] ->
     Z.testbit (reg8 (bus o) AXP20X_CHRG_BAK_CTRL) n =
     Z.testbit (reg8 d AXP20X_CHRG_BAK_CTRL) n).
Proof.
  intros Hq Hv Hc Hinv Hinc o get.
  pose proof (next_fault_quiet d Hq) as Hf.
  assert (Hf1 : next_fault (tick d) = None) by (apply next_fault_quiet, faults_tick, Hq).
  assert (exists bits,
            o = Outcome 0 (updated (tick d) AXP20X_CHRG_BAK_CTRL 0xe3 bits)
                  [EvRead AXP20X_CHRG_BAK_CTRL (RdOk (reg8 d AXP20X_CHRG_BAK_CTRL));
                   EvUpdateBits AXP20X_CHRG_BAK_CTRL 0xe3 bits 0] /\
            Z.testbit bits 7 = true /\
            (let f := Z.land bits AXP20X_BACKUP_VOLTAGE_MASK in
             (if f =? AXP20X_BACKUP_VOLTAGE_2_5V then 2500000
              else if f =? AXP20X_BACKUP_VOLTAGE_3_0V then 3000000
              else if f =? AXP20X_BACKUP_VOLTAGE_3_1V then 3100000
              else if f =? AXP20X_BACKUP_VOLTAGE_3_6V then 3600000
              else 0) = v) /\
            (let f := Z.land bits AXP20X_BACKUP_CURRENT_MASK in
             (if f =? AXP20X_BACKUP_CURRENT_50uA then 50
              else if f =? AXP20X_BACKUP_CURRENT_100uA then 100
              else if f =? AXP20X_BACKUP_CURRENT_200uA then 200
              else if f =? AXP20X_BACKUP_CURRENT_400uA then 400
              else 0) = c)) as (bits & Ho & Hb7 & Hbv & Hbc).
  { unfold o, axp20x_rtcbatt_config, bind, regmap_read. rewrite Hf, Hv, Hc.
    cbn [nth]. cbn [In] in Hinv, Hinc. decompose_in Hinv; decompose_in Hinc.
    all: cbn [backup_voltage_bits backup_current_bits Z.eqb Pos.eqb];
      unfold regmap_update_bits; rewrite Hf1; cbn [truthy Z.eqb negb ret app];
      eexists; (split; [reflexivity|]); repeat split; reflexivity. }
  assert (Hq' : next_fault (bus o) = None).
  { rewrite Ho. cbn [bus]. apply next_fault_quiet, faults_updated, faults_tick, Hq. }
  unfold get. rewrite !rtcbatt_get_prop_quiet by exact Hq'. cbv zeta.
  rewrite Ho. cbn [value bus].
  rewrite reg8_updated, Z.eqb_refl.
  split; [reflexivity|].
  rewrite rtcbatt_enable_bit.
  rewrite !(land_submask_update _ 0xe3) by reflexivity.
  rewrite testbit_update_field by lia.
  change (Z.testbit 227 7) with true. cbv iota. rewrite Hb7.
  cbv zeta in Hbv, Hbc. rewrite Hbv, Hbc.
  split; [reflexivity|]. split; [reflexivity|]. split; [reflexivity|].
  intros n Hn. cbn [In] in Hn. decompose_in Hn.
  all: rewrite testbit_update_field by lia; rewrite reg8_tick; reflexivity.
Qed.

Lemma rtcbatt_config_round_trip_witness :
  value (axp20x_rtcbatt_get_prop POWER_SUPPLY_PROP_CONSTANT_CHARGE_VOLTAGE 0
           (bus (axp20x_rtcbatt_config np_backup bus_vbus))) = (0, 3000000).
Proof.
  refine (proj1 (proj2 (proj2 (rtcbatt_config_round_trip np_backup 3000000 200 0 bus_vbus
                                 eq_refl _ _ _ _)))).
  - vm_compute; reflexivity.
  - vm_compute; reflexivity.
  - cbn; tauto.
  - cbn; tauto.
Defined.
(** X21.  The backup charger configuration writes only after both
    device-tree values passed their checks: a return of 0 means the voltage
    and the current were of the supported ones and one update of the three
    fields was issued; any other return is negative and leaves the
    registers as they were. *)
Theorem rtcbatt_config_validates np d :
  let o := axp20x_rtcbatt_config np d in
  (value o = 0 ->
   exists outv outc bits,
     of_property_read_u32_array np "voltage" 1 = OfOk outv /\
     of_property_read_u32_array np "current" 1 = OfOk outc /\
     In (nth 0 outv 0) [2500000; 3000000; 3100000; 3600000] /\
     In (nth 0 outc 0) [50; 100; 200; 400] /\
     bus_writes (trace o) = [(AXP20X_CHRG_BAK_CTRL, 0xe3, bits)]) /\
  (value o <> 0 -> value o < 0 /\ regs (bus o) = regs d).
Proof.
  cbv zeta.
  destruct (axp20x_rtcbatt_config np d) as [r d' tr] eqn:Hrun. cbn [value bus trace].
  unfold axp20x_rtcbatt_config in Hrun. cbv zeta in Hrun.
  apply bind_inv in Hrun as (a & d1 & t1 & t2 & Hrd & Hk & ->).
  inv_run Hrd.
  2: { inv_run Hk. match goal with |- context [neg ?e] => pose proof (neg_negative e) end.
       split; [lia|]. intros _. split; [lia|reflexivity]. }
  unfold of_property_read_u32_array in *.
  destruct (np !! "voltage"%string) as [cv|].
  2: { inv_run Hk. split; [discriminate|]. intros _. split; [reflexivity|reflexivity]. }
  destruct (length cv <? 1)%nat.
  { inv_run Hk. split; [discriminate|]. intros _. split; [reflexivity|reflexivity]. }
  set (lv := nth 0 (map u32 (take 1 cv)) 0) in *.
  assert (Hlv : match backup_voltage_bits 0 lv with
                | Some _ => In lv [2500000; 3000000; 3100000; 3600000]
                | None => True end).
  { unfold backup_voltage_bits.
    repeat match goal with |- context [?a =? ?b] => destruct (Z.eqb_spec a b) end;
      cbn; intuition congruence. }
  destruct (backup_voltage_bits 0 lv) as [nv|].
  2: { inv_run Hk. split; [discriminate|]. intros _. split; [reflexivity|reflexivity]. }
  destruct (np !! "current"%string) as [cc|].
  2: { inv_run Hk. split; [discriminate|]. intros _. split; [reflexivity|reflexivity]. }
  destruct (length cc <? 1)%nat.
  { inv_run Hk. split; [discriminate|]. intros _. split; [reflexivity|reflexivity]. }
  set (lc := nth 0 (map u32 (take 1 cc)) 0) in *.
  assert (Hlc : match backup_current_bits nv lc with
                | Some _ => In lc [50; 100; 200; 400]
                | None => True end).
  { unfold backup_current_bits.
    repeat match goal with |- context [?a =? ?b] => destruct (Z.eqb_spec a b) end;
      cbn; intuition congruence. }
  destruct (backup_current_bits nv lc) as [nc|].
  2: { inv_run Hk. split; [discriminate|]. intros _. split; [reflexivity|reflexivity]. }
  inv_run Hk.
  all: try match goal with H : truthy 0 = true |- _ => discriminate H end.
  all: try match goal with |- context [neg ?e] => pose proof (neg_negative e) end.
  all: try match goal with
           | H : truthy (neg _) = false |- _ =>
               unfold truthy in H; apply negb_false_iff, Z.eqb_eq in H; lia
           end.
  - split; [|intros H; contradiction H].
    intros _. exists (map u32 (take 1 cv)), (map u32 (take 1 cc)). eexists.
    repeat split; try assumption. reflexivity.
  - split; [lia|]. intros _. split; [lia|reflexivity].
Qed.
(** X22.  Round trip of the backup charger status: on a fault-free bus a
    write of Charging or Not-charging returns 0 and the status then reads
    back as written, while the voltage and current properties report what
    they reported before. *)
Theorem rtcbatt_set_get_status s v0 d :
  faults d = [] ->
  In s [POWER_SUPPLY_STATUS_CHARGING; POWER_SUPPLY_STATUS_NOT_CHARGING] ->
  let o := axp20x_rtcbatt_set_prop (Gauge POWER_SUPPLY_PROP_STATUS) s d in
  let get psp d0 := value (axp20x_rtcbatt_get_prop psp v0 d0) in
  value o = 0 /\
  get (Gauge POWER_SUPPLY_PROP_STATUS) (bus o) = (0, s) /\
  get POWER_SUPPLY_PROP_CONSTANT_CHARGE_VOLTAGE (bus o) =
    get POWER_SUPPLY_PROP_CONSTANT_CHARGE_VOLTAGE d /\
  get POWER_SUPPLY_PROP_CONSTANT_CHARGE_CURRENT (bus o) =
    get POWER_SUPPLY_PROP_CONSTANT_CHARGE_CURRENT d.
Proof.
  intros Hq Hs o get.
  pose proof (next_fault_quiet d Hq) as Hf.
  assert (exists bits,
            o = Outcome 0 (updated d AXP20X_CHRG_BAK_CTRL AXP20X_BACKUP_ENABLE bits)
                  [EvUpdateBits AXP20X_CHRG_BAK_CTRL AXP20X_BACKUP_ENABLE bits 0] /\
            (if Z.testbit bits 7 then POWER_SUPPLY_STATUS_CHARGING
             else POWER_SUPPLY_STATUS_NOT_CHARGING) = s) as (bits & Ho & Hb).
  { unfold o, axp20x_rtcbatt_set_prop. cbn [In] in Hs. decompose_in Hs.
    all: cbn [Z.eqb Pos.eqb POWER_SUPPLY_STATUS_CHARGING POWER_SUPPLY_STATUS_NOT_CHARGING];
      unfold regmap_update_bits; rewrite Hf; eexists; split; reflexivity. }
  assert (Hq' : next_fault (bus o) = None).
  { rewrite Ho. cbn [bus]. apply next_fault_quiet, faults_updated, Hq. }
  unfold get. rewrite !rtcbatt_get_prop_quiet by assumption. cbv zeta.
  rewrite Ho. cbn [value bus].
  rewrite reg8_updated, Z.eqb_refl, rtcbatt_enable_bit.
  rewrite testbit_update_field by lia.
  change (Z.testbit AXP20X_BACKUP_ENABLE 7) with true. cbv iota. rewrite Hb.
  split; [reflexivity|]. split; [reflexivity|].
  assert (Hout : forall m, Z.land m AXP20X_BACKUP_ENABLE = 0 -> Z.land m 255 = m ->
            Z.land (Z.land (Z.lor (Z.land (reg8 d AXP20X_CHRG_BAK_CTRL)
                                     (Z.lnot AXP20X_BACKUP_ENABLE))
                              (Z.land bits AXP20X_BACKUP_ENABLE)) 255) m =
            Z.land (reg8 d AXP20X_CHRG_BAK_CTRL) m).
  { intros m Hm Hm8. apply Z.bits_inj'. intros n Hn.
    rewrite !Z.land_spec.
    destruct (Z.testbit m n) eqn:Em; [|rewrite !andb_false_r; reflexivity].
    rewrite !andb_true_r.
    assert (Hn8 : n < 8).
    { destruct (Z.lt_ge_cases n 8) as [L|L]; [exact L|].
      rewrite <- Hm8, Z.land_spec, testbit_255 in Em by exact Hn.
      destruct (Z.ltb_spec n 8); [lia|]. rewrite andb_false_r in Em. discriminate. }
    rewrite <- (Z.land_spec _ 255), testbit_update_field by lia.
    destruct (Z.testbit AXP20X_BACKUP_ENABLE n) eqn:En; [|reflexivity].
    assert (Z.testbit (Z.land m AXP20X_BACKUP_ENABLE) n = true)
      by (rewrite Z.land_spec, Em, En; reflexivity).
    rewrite Hm, Z.bits_0 in H. discriminate. }
  rewrite !Hout by reflexivity. split; reflexivity.
Qed.

Lemma rtcbatt_set_get_status_witness :
  value (axp20x_rtcbatt_get_prop (Gauge POWER_SUPPLY_PROP_STATUS) 0
           (bus (axp20x_rtcbatt_set_prop (Gauge POWER_SUPPLY_PROP_STATUS)
                   POWER_SUPPLY_STATUS_CHARGING bus_vbus))) =
  (0, POWER_SUPPLY_STATUS_CHARGING).
Proof.
  exact (proj1 (proj2 (rtcbatt_set_get_status POWER_SUPPLY_STATUS_CHARGING 0 bus_vbus
                         eq_refl ltac:(cbn; tauto)))).
Defined.

(** X23.  The backup driver refuses a write with -EINVAL and without a bus
    call exactly when the property is not the one it declares writeable or
    the status asked for is neither Charging nor Not-charging. *)
Theorem rtcbatt_set_prop_rejects psp val d :
  axp20x_rtcbatt_set_prop psp val d = Outcome (neg EINVAL) d [] <->
  axp20x_rtcbatt_prop_writeable psp = false \/
  (val <> POWER_SUPPLY_STATUS_CHARGING /\ val <> POWER_SUPPLY_STATUS_NOT_CHARGING).
Proof.
  unfold axp20x_rtcbatt_set_prop, axp20x_rtcbatt_prop_writeable. split.
  - destruct psp as [[]| |]; auto. intros H.
    destruct (Z.eqb_spec val POWER_SUPPLY_STATUS_CHARGING) as [E|E].
    { unfold regmap_update_bits in H. destruct (next_fault d); discriminate H. }
    destruct (Z.eqb_spec val POWER_SUPPLY_STATUS_NOT_CHARGING) as [E'|E'].
    { unfold regmap_update_bits in H. destruct (next_fault d); discriminate H. }
    right. split; assumption.
  - intros [H | [H1 H2]].
    + destruct psp as [[]| |]; try discriminate H; reflexivity.
    + destruct psp as [[]| |]; try reflexivity.
      destruct (Z.eqb_spec val POWER_SUPPLY_STATUS_CHARGING); [contradiction|].
      destruct (Z.eqb_spec val POWER_SUPPLY_STATUS_NOT_CHARGING); [contradiction|].
      reflexivity.
Qed.

(** ** Configuration from the device tree *)

Lemma bus_bind {A B : Type} (m : M A) (k : A -> M B) d :
  bus (bind m k d) = bus (k (value (m d)) (bus (m d))).
Proof. unfold bind. destruct (m d) as [a d1 t1]. cbn. destruct (k a d1). reflexivity. Qed.

Lemma value_bind {A B : Type} (m : M A) (k : A -> M B) d :
  value (bind m k d) = value (k (value (m d)) (bus (m d))).
Proof. unfold bind. destruct (m d) as [a d1 t1]. cbn. destruct (k a d1). reflexivity. Qed.

Lemma notifications_bind {A B : Type} (m : M A) (k : A -> M B) d :
  notifications (trace (bind m k d)) =
  (notifications (trace (m d)) + notifications (trace (k (value (m d)) (bus (m d)))))%nat.
Proof.
  unfold bind. destruct (m d) as [a d1 t1]. cbn. destruct (k a d1). cbn.
  unfold notifications. rewrite List.filter_app, length_app. reflexivity.
Qed.

Lemma update_bits_quiet r m v d :
  faults d = [] ->
  regmap_update_bits r m v d = Outcome 0 (updated d r m v) [EvUpdateBits r m v 0].
Proof. intros Hq. unfold regmap_update_bits. rewrite (next_fault_quiet d Hq). reflexivity. Qed.

Lemma value_update_quiet r m v d :
  faults d = [] -> value (regmap_update_bits r m v d) = 0.
Proof. intros Hq. rewrite update_bits_quiet by exact Hq. reflexivity. Qed.

Lemma bus_update_quiet r m v d :
  faults d = [] -> bus (regmap_update_bits r m v d) = updated d r m v.
Proof. intros Hq. rewrite update_bits_quiet by exact Hq. reflexivity. Qed.

Lemma notifications_update r m v d :
  notifications (trace (regmap_update_bits r m v d)) = 0%nat.
Proof. unfold regmap_update_bits. destruct (next_fault d); reflexivity. Qed.

Lemma u32_range z : 0 <= u32 z < 4294967296.
Proof. unfold u32. apply Z.mod_pos_bound. lia. Qed.

Lemma of_read_nth_range np name sz out i :
  of_property_read_u32_array np name sz = OfOk out -> 0 <= nth i out 0 < 4294967296.
Proof.
  unfold of_property_read_u32_array. destruct (np !! name) as [cells|]; [|discriminate].
  destruct (length cells <? sz)%nat; [discriminate|]. intros H. injection H as <-.
  generalize (take sz cells). intros l. revert i.
  induction l as [|c l IH]; intros [|i]; cbn [map nth]; try lia;
    [apply u32_range | apply IH].
Qed.

Lemma of_read_length np name sz out :
  of_property_read_u32_array np name sz = OfOk out -> length out = sz.
Proof.
  unfold of_property_read_u32_array. destruct (np !! name) as [cells|]; [|discriminate].
  destruct (Nat.ltb_spec (length cells) sz); [discriminate|]. intros E. injection E as <-.
  rewrite length_map, length_take. lia.
Qed.

Lemma of_read_found np name sz out :
  of_property_read_u32_array np name sz = OfOk out -> of_find_property np name = true.
Proof.
  unfold of_property_read_u32_array, of_find_property.
  destruct (np !! name); [reflexivity | discriminate].
Qed.

(** The first loop finds an entry above 100 whenever there is one. *)
Lemma ocv_check_finds ocv n i0 i :
  (i0 <= i < i0 + n)%nat -> 100 < nth i ocv 0 ->
  exists j, ocv_check ocv i0 n = Some j.
Proof.
  revert i0. induction n as [|n IH]; intros i0 Hi Hv; [lia|].
  cbn [ocv_check]. destruct (Z.ltb_spec 100 (nth i0 ocv 0)); [eauto|].
  apply IH; [|exact Hv].
  assert (i <> i0) by (intros ->; lia). lia.
Qed.

Lemma ocv_check_none ocv n i0 :
  ocv_check ocv i0 n = None ->
  forall i, (i0 <= i < i0 + n)%nat -> nth i ocv 0 <= 100.
Proof.
  revert i0. induction n as [|n IH]; intros i0 Hc i Hi; [lia|].
  cbn [ocv_check] in Hc. destruct (Z.ltb_spec 100 (nth i0 ocv 0)); [discriminate|].
  destruct (Nat.eq_dec i i0) as [->|Hne]; [assumption|].
  apply (IH (S i0) Hc). lia.
Qed.

Lemma ts_current_invalid_spec t0 :
  ts_current_invalid t0 = false <-> In t0 [20; 40; 60; 80].
Proof.
  unfold ts_current_invalid. cbn [In].
  destruct (Z.eqb_spec t0 20), (Z.eqb_spec t0 40), (Z.eqb_spec t0 60),
    (Z.eqb_spec t0 80); cbn; intuition congruence.
Qed.

(** X24.  The configuration checks the device tree before it touches the
    hardware: a curve entry above 100, or a temperature-sensor current other
    than 20, 40, 60 or 80 (0 included), ends the call with a negative
    return, -EINVAL when the first register read went through, with the
    driver state and every register as they were and no update issued. *)
Theorem battery_config_validates n np power ocv0 d :
  (exists out i, of_property_read_u32_array np "ocv" n = OfOk out /\
                 (i < n)%nat /\ 100 < nth i out 0) \/
  (exists out, of_property_read_u32_array np "temp_sensor" 3 = OfOk out /\
               ~ In (nth 0 out 0) [20; 40; 60; 80]) ->
  let o := axp20x_battery_config n np power ocv0 d in
  fst (value o) < 0 /\ snd (value o) = power /\
  bus_writes (trace o) = [] /\ regs (bus o) = regs d /\
  (next_fault d = None -> fst (value o) = neg EINVAL).
Proof.
  intros Hbad. cbv zeta.
  destruct (axp20x_battery_config n np power ocv0 d) as [[r p'] d' tr] eqn:Hrun.
  cbn [value bus trace fst snd].
  unfold axp20x_battery_config in Hrun. cbv zeta in Hrun.
  apply bind_inv in Hrun as (a & d1 & t1 & t2 & Hrd & Hk & ->).
  inv_run Hrd.
  2: { inv_run Hk. simplify_eq.
       match goal with |- context [neg ?e] => pose proof (neg_negative e) end.
       repeat split; try reflexivity; try lia. congruence. }
  assert (Hdone : forall msg arg,
            (dev_warn msg arg ;; ret (neg EINVAL, power)) (tick d) =
            Outcome (r, p') d' t2 ->
            r < 0 /\ p' = power /\
            bus_writes ([EvRead AXP20X_PWR_OP_MODE (RdOk (reg8 d AXP20X_PWR_OP_MODE))] ++ t2)
              = [] /\
            regs d' = regs (tick d) /\ (next_fault d = None -> r = neg EINVAL)).
  { intros msg arg H. inv_run H. simplify_eq. repeat split; reflexivity. }
  destruct Hbad as [(out & i & Hocv & Hi & Hv) | (out & Hts & Hv)].
  - rewrite Hocv in Hk.
    destruct (ocv_check_finds out n 0 i ltac:(lia) Hv) as [j Hj].
    rewrite Hj in Hk. apply Hdone in Hk. exact Hk.
  - rewrite Hts in Hk.
    destruct (match of_property_read_u32_array np "ocv" n with
              | OfOk _ => ocv_check _ 0 n | OfErr _ => None end) as [j|].
    { apply Hdone in Hk. exact Hk. }
    assert (E : ts_current_invalid (nth 0 out 0) = true).
    { destruct (ts_current_invalid (nth 0 out 0)) eqn:E; [reflexivity|].
      apply ts_current_invalid_spec in E. contradiction. }
    rewrite E in Hk. apply Hdone in Hk. exact Hk.
Qed.

Lemma battery_config_validates_witness :
  snd (value (axp20x_battery_config 4 np_bad_curve power_ts [] bus_low_voltage)) = power_ts.
Proof.
  refine (proj1 (proj2 (battery_config_validates 4 np_bad_curve power_ts []
                          bus_low_voltage _))).
  left. exists [0; 50; 101; 100], 2%nat.
  split; [vm_compute; reflexivity|]. split; [lia | reflexivity].
Defined.
(** Inversion of a run that leaves the register updates alone: what a call
    returned is kept as an equation, its effect on the bus is not looked at. *)
Ltac inv_light H :=
  cbv beta iota zeta in H;
  lazymatch type of H with
  | bind _ _ _ = Outcome _ _ _ =>
      let H1 := fresh "Hm" in
      let H2 := fresh "Hk" in
      apply bind_inv in H; destruct H as (? & ? & ? & ? & H1 & H2 & ?);
      inv_light H1; inv_light H2
  | ret _ _ = Outcome _ _ _ =>
      apply ret_inv in H; destruct H as (? & ? & ?); subst
  | emit _ _ = Outcome _ _ _ =>
      apply emit_inv in H; destruct H as (? & ?); subst
  | dev_info _ _ _ = Outcome _ _ _ =>
      apply emit_inv in H; destruct H as (? & ?); subst
  | dev_dbg _ _ _ = Outcome _ _ _ =>
      apply emit_inv in H; destruct H as (? & ?); subst
  | dev_warn _ _ _ = Outcome _ _ _ =>
      apply emit_inv in H; destruct H as (? & ?); subst
  | (if ?c then _ else _) _ = Outcome _ _ _ =>
      destruct c eqn:?; inv_light H
  | _ => idtac
  end.

Lemma config_sensor_value power temp d :
  value (axp20x_battery_config_sensor power temp d) =
  if nth 0 temp 0 =? 0 then set_tbatt power 0 0
  else set_tbatt power (Int.wrap (nth 1 temp 0)) (Int.wrap (nth 2 temp 0)).
Proof.
  unfold axp20x_battery_config_sensor. cbv zeta.
  destruct (nth 0 temp 0 =? 0); repeat rewrite value_bind; reflexivity.
Qed.

Lemma u32_small z : 0 <= z < 4294967296 -> u32 z = z.
Proof. intros H. unfold u32. apply Z.mod_small, H. Qed.

(** X25.  The driver state a successful configuration leaves: health
    Unknown, the cached percent and the supply untouched, the capacity
    property times 1000 as design capacity and, at least 300000 uA, as user
    ceiling (both without wrap-around up to 2147483 mAh), and the sensor
    thresholds as alert range, 0 and 0 without a readable sensor entry. *)
Theorem battery_config_state n np power ocv0 d :
  let o := axp20x_battery_config n np power ocv0 d in
  let p := snd (value o) in
  let capa := match of_property_read_u32_array np "capacity" 1 with
              | OfOk out => nth 0 out 0
              | OfErr _ => 0
              end in
  fst (value o) = 0 ->
  supply p = supply power /\ percent p = percent power /\
  health p = POWER_SUPPLY_HEALTH_UNKNOWN /\
  capacity p = Int.wrap (u32 (capa * 1000)) /\
  (capa <= 2147483 ->
   capacity p = capa * 1000 /\ charge_user_imax p = Z.max capa 300 * 1000 /\
   300000 <= charge_user_imax p /\ capacity p <= charge_user_imax p) /\
  match of_property_read_u32_array np "temp_sensor" 3 with
  | OfOk out =>
      In (nth 0 out 0) [20; 40; 60; 80] /\
      tbatt_min p = Int.wrap (nth 1 out 0) /\ tbatt_max p = Int.wrap (nth 2 out 0)
  | OfErr _ => tbatt_min p = 0 /\ tbatt_max p = 0
  end.
Proof.
  cbv zeta.
  assert (Hcapa : 0 <= match of_property_read_u32_array np "capacity" 1 with
                       | OfOk out => nth 0 out 0
                       | OfErr _ => 0
                       end < 4294967296).
  { destruct (of_property_read_u32_array np "capacity" 1) eqn:E; [|lia].
    apply (of_read_nth_range _ _ _ _ 0%nat E). }
  destruct (axp20x_battery_config n np power ocv0 d) as [[r p'] d' tr] eqn:Hrun.
  cbn [value fst snd]. intros ->.
  unfold axp20x_battery_config in Hrun. cbv zeta in Hrun.
  apply bind_inv in Hrun as (a & d1 & t1 & t2 & Hrd & Hk & ->).
  inv_run Hrd.
  2: { inv_run Hk. simplify_eq.
       match goal with H : 0 = neg ?e |- _ => pose proof (neg_negative e); lia end. }
  destruct (match of_property_read_u32_array np "ocv" n with
            | OfOk _ => ocv_check _ 0 n | OfErr _ => None end) as [j|].
  { inv_run Hk. simplify_eq. }
  set (capa := match of_property_read_u32_array np "capacity" 1 with
               | OfOk out => nth 0 out 0
               | OfErr _ => 0
               end) in *.
  clearbody capa.
  assert (Harith : capa <= 2147483 ->
            Int.wrap (u32 (capa * 1000)) = capa * 1000 /\
            Int.wrap (u32 ((if capa <? 300 then 300 else capa) * 1000)) =
              Z.max capa 300 * 1000 /\
            300000 <= Int.wrap (u32 ((if capa <? 300 then 300 else capa) * 1000)) /\
            Int.wrap (u32 (capa * 1000)) <=
              Int.wrap (u32 ((if capa <? 300 then 300 else capa) * 1000))).
  { intros Hc. destruct (Z.ltb_spec capa 300);
      rewrite ?u32_small by lia;
      rewrite ?wrap_in_range by (unfold Int.in_range, Int.INT_MIN, Int.INT_MAX; lia);
      lia. }
  assert (Hsplit : forall temp tr,
            axp20x_battery_config_apply n np power (reg8 d AXP20X_PWR_OP_MODE)
              (match of_property_read_u32_array np "ocv" n with
               | OfOk out => out | OfErr _ => ocv0 end)
              (match of_property_read_u32_array np "resistance" 1 with
               | OfOk out => nth 0 out 0 | OfErr _ => 100 end) capa temp (tick d) =
            Outcome (0, p') d' tr ->
            let p := if nth 0 temp 0 =? 0 then set_tbatt power 0 0
                     else set_tbatt power (Int.wrap (nth 1 temp 0))
                            (Int.wrap (nth 2 temp 0)) in
            supply p' = supply power /\ percent p' = percent power /\
            health p' = POWER_SUPPLY_HEALTH_UNKNOWN /\
            capacity p' = Int.wrap (u32 (capa * 1000)) /\
            charge_user_imax p' =
              Int.wrap (u32 ((if capa <? 300 then 300 else capa) * 1000)) /\
            tbatt_min p' = tbatt_min p /\ tbatt_max p' = tbatt_max p).
  { intros temp tr0 Hap. unfold axp20x_battery_config_apply in Hap.
    inv_light Hap; simplify_eq.
    all: try match goal with H : truthy 0 = true |- _ => discriminate H end.
    all: repeat match goal with
         | H : axp20x_battery_config_sensor _ _ _ = Outcome _ _ _ |- _ =>
             apply (f_equal value) in H; rewrite config_sensor_value in H;
             cbn [value] in H; subst
         end.
    all: try match goal with
             | H : truthy ?r = true, H' : 0 = ?r |- _ =>
                 rewrite <- H' in H; discriminate H
             end.
    all: cbv zeta; destruct (nth 0 temp 0 =? 0); repeat split; reflexivity. }
  destruct (of_property_read_u32_array np "temp_sensor" 3) as [temp|e] eqn:Hts.
  - destruct (ts_current_invalid (nth 0 temp 0)) eqn:Hinv.
    { inv_run Hk. simplify_eq. }
    apply ts_current_invalid_spec in Hinv.
    apply bind_inv in Hk as (u & d2 & t3 & t4 & Hlog & Hk & ->).
    inv_run Hlog. apply Hsplit in Hk. cbv zeta in Hk.
    assert (E0 : (nth 0 temp 0 =? 0) = false)
      by (apply Z.eqb_neq; cbn [In] in Hinv; lia).
    rewrite E0 in Hk. cbn [tbatt_min tbatt_max set_tbatt] in Hk.
    destruct Hk as (Ea & Eb & Ec & Ed & Ee & Ef & Eg).
    split; [exact Ea|]. split; [exact Eb|]. split; [exact Ec|]. split; [exact Ed|].
    split; [intros Hc; rewrite Ed, Ee; exact (Harith Hc)|].
    split; [exact Hinv|]. split; assumption.
  - apply bind_inv in Hk as (u & d2 & t3 & t4 & Hlog & Hk & ->).
    inv_run Hlog. apply Hsplit in Hk. cbv zeta in Hk.
    cbn [nth Z.eqb tbatt_min tbatt_max set_tbatt] in Hk.
    destruct Hk as (Ea & Eb & Ec & Ed & Ee & Ef & Eg).
    split; [exact Ea|]. split; [exact Eb|]. split; [exact Ec|]. split; [exact Ed|].
    split; [intros Hc; rewrite Ed, Ee; exact (Harith Hc)|].
    split; assumption.
Qed.
Lemma battery_config_state_witness :
  capacity (snd (value (axp20x_battery_config 16 np_battery power_ts [] bus_low_voltage)))
  = 2000 * 1000.
Proof.
  refine (proj1 (proj1 (proj2 (proj2 (proj2 (proj2
            (battery_config_state 16 np_battery power_ts [] bus_low_voltage _))))) _)).
  - vm_compute; reflexivity.
  - vm_compute; discriminate.
Defined.

(** ** Running the configuration on a fault-free bus *)

(** A full-byte update stores the low byte of the value. *)
Lemma reg8_updated_byte d reg val :
  reg8 (updated d reg 0xff val) reg = Z.land val 255.
Proof.
  rewrite reg8_updated, Z.eqb_refl.
  rewrite <- land_255_idem. apply (land_mask_update _ 255 val eq_refl).
Qed.

(** The second loop on a fault-free bus: each entry is in its register, and
    no other register changed. *)
Lemma ocv_store_quiet ocv n : forall i d,
  faults d = [] ->
  let o := ocv_store ocv i n d in
  faults (bus o) = [] /\
  notifications (trace o) = 0%nat /\
  (forall r, r < AXP20X_OCV (Z.of_nat i) \/ AXP20X_OCV (Z.of_nat (i + n)) <= r ->
             reg8 (bus o) r = reg8 d r) /\
  (forall j, (i <= j < i + n)%nat ->
             reg8 (bus o) (AXP20X_OCV (Z.of_nat j)) = Z.land (nth j ocv 0) 255).
Proof.
  induction n as [|n IH]; intros i d Hq; cbv zeta.
  - cbn. repeat split; auto. intros j Hj. lia.
  - cbn [ocv_store].
    repeat rewrite bus_bind. repeat rewrite notifications_bind.
    rewrite !value_update_quiet, !bus_update_quiet by exact Hq.
    rewrite notifications_update.
    change (0 <? 0) with false. cbv beta iota. cbn [ret value bus trace].
    set (d1 := updated d (AXP20X_OCV (Z.of_nat i)) 255 (nth i ocv 0)).
    assert (Hq1 : faults d1 = []) by (apply faults_updated, Hq).
    destruct (IH (S i) d1 Hq1) as (Hf & Hn & Hfr & Hst). cbv zeta in *.
    split; [exact Hf|]. split; [rewrite Hn; reflexivity|]. split.
    + intros r Hr. rewrite Hfr by (unfold AXP20X_OCV in *; lia).
      unfold d1. apply reg8_updated_other. unfold AXP20X_OCV in *. lia.
    + intros j Hj. destruct (Nat.eq_dec j i) as [->|Hne].
      * rewrite Hfr by (unfold AXP20X_OCV; lia).
        unfold d1. apply reg8_updated_byte.
      * apply Hst. lia.
Qed.
Lemma faults_bus_ocv_store ocv i n d :
  faults d = [] -> faults (bus (ocv_store ocv i n d)) = [].
Proof. intros Hq. apply (ocv_store_quiet ocv n i d Hq). Qed.

Lemma faults_bus_update r m v d :
  faults d = [] -> faults (bus (regmap_update_bits r m v d)) = [].
Proof. intros Hq. rewrite bus_update_quiet by exact Hq. apply faults_updated, Hq. Qed.

Create HintDb quiet.
#[local] Hint Resolve faults_updated faults_tick faults_bus_update faults_bus_ocv_store
  : quiet.

Ltac quiet_side := solve [auto 60 with quiet nocore].

(** Symbolic execution on a fault-free bus: every update goes through. *)
Ltac run_quiet :=
  repeat first
    [ rewrite bus_bind | rewrite value_bind | rewrite notifications_bind
    | rewrite value_update_quiet by quiet_side
    | rewrite bus_update_quiet by quiet_side
    | rewrite notifications_update
    | progress cbn [ret emit dev_info dev_dbg dev_warn value bus trace fst snd
                    truthy Z.eqb negb] ].

(** The sensor part on a fault-free bus stays within the sensor registers. *)
Lemma config_sensor_quiet power temp d :
  faults d = [] ->
  let o := axp20x_battery_config_sensor power temp d in
  faults (bus o) = [] /\ notifications (trace o) = 0%nat /\
  (forall r, ~ In r [AXP20X_ADC_RATE; AXP20X_V_HTF_CHRG; AXP20X_V_HTF_DISCHRG;
                     AXP20X_V_LTF_CHRG; AXP20X_V_LTF_DISCHRG] ->
             reg8 (bus o) r = reg8 d r).
Proof.
  intros Hq. cbv zeta. unfold axp20x_battery_config_sensor, ts_current_select. cbv zeta.
  repeat match goal with |- context [if ?c then _ else _] => destruct c end.
  all: run_quiet.
  all: split; [quiet_side|]; split; [reflexivity|].
  all: intros r Hr; cbn [In] in Hr;
    rewrite ?reg8_updated_other by (intros ->; apply Hr; tauto); reflexivity.
Qed.
Lemma faults_bus_sensor power temp d :
  faults d = [] -> faults (bus (axp20x_battery_config_sensor power temp d)) = [].
Proof. intros Hq. apply (config_sensor_quiet power temp d Hq). Qed.

#[local] Hint Resolve faults_bus_sensor : quiet.

(** The register constants, for [lia]. *)
Ltac unfold_regs :=
  unfold AXP20X_OCV, AXP20X_FG_RES, AXP20X_RDC_H, AXP20X_RDC_L, AXP20X_CHRG_CTRL1,
    AXP20X_OFF_CTRL, AXP20X_ADC_EN1, AXP20X_ADC_RATE, AXP20X_APS_WARN_L1,
    AXP20X_APS_WARN_L2, AXP20X_V_HTF_CHRG, AXP20X_V_HTF_DISCHRG, AXP20X_V_LTF_CHRG,
    AXP20X_V_LTF_DISCHRG, AXP20X_PWR_OP_MODE in *.

(** Drops the updates of other registers from around a register read, and
    crosses the loop and the sensor part by their frame conditions. *)
Ltac peel :=
  repeat first
    [ rewrite reg8_updated_other by discriminate
    | rewrite reg8_updated_other by (unfold_regs; lia)
    | match goal with
      | H : forall r, ~ In r _ -> reg8 ?D r = _ |- context [reg8 ?D _] =>
          rewrite H by (cbn [In]; unfold_regs; lia)
      | H : forall r, _ \/ _ -> reg8 ?D r = _ |- context [reg8 ?D _] =>
          rewrite H by (unfold_regs; lia)
      end ].

(** One bit of a register after the update that wrote it last. *)
Ltac bit_step :=
  rewrite reg8_updated, Z.eqb_refl, testbit_update_field by lia;
  match goal with
  | |- context [if Z.testbit ?m ?k then _ else _] =>
      let b := eval vm_compute in (Z.testbit m k) in
      change (Z.testbit m k) with b; cbv iota
  end.

Lemma config_apply_quiet n np power reg ocv rdc capa temp d :
  faults d = [] ->
  let o := axp20x_battery_config_apply n np power reg ocv rdc capa temp d in
  faults (bus o) = [] /\ notifications (trace o) = 0%nat /\
  (of_find_property np "ocv" = true ->
   forall j, (j < n)%nat ->
     reg8 (bus o) (AXP20X_OCV (Z.of_nat j)) = Z.land (nth j ocv 0) 255) /\
  reg8 (bus o) AXP20X_RDC_L = Z.land (rdc_reg rdc) 255 /\
  Z.land (reg8 (bus o) AXP20X_RDC_H) 0x1f = Z.land (Z.shiftr (rdc_reg rdc) 8) 0x1f /\
  Z.testbit (reg8 (bus o) AXP20X_RDC_H) 7 = false /\
  if (capa =? 0) && negb (truthy (Z.land reg AXP20X_PWR_OP_BATT_PRESENT)) then
    value o = (neg ENODEV, set_health power POWER_SUPPLY_HEALTH_UNKNOWN) /\
    Z.testbit (reg8 (bus o) AXP20X_CHRG_CTRL1) 7 = false /\
    Z.testbit (reg8 (bus o) AXP20X_OFF_CTRL) 6 = false /\
    Z.testbit (reg8 (bus o) AXP20X_FG_RES) 7 = true
  else
    fst (value o) = 0 /\
    Z.land (reg8 (bus o) AXP20X_CHRG_CTRL1) AXP20X_CHRG_CTRL1_TGT_VOLT =
      AXP20X_CHRG_CTRL1_TGT_4_15V /\
    reg8 (bus o) AXP20X_APS_WARN_L1 = 113 /\
    reg8 (bus o) AXP20X_APS_WARN_L2 = 78 /\
    Z.testbit (reg8 (bus o) AXP20X_FG_RES) 7 = false /\
    Z.testbit (reg8 (bus o) AXP20X_OFF_CTRL) 6 = true /\
    Z.testbit (reg8 (bus o) AXP20X_ADC_EN1) 7 = true /\
    Z.testbit (reg8 (bus o) AXP20X_ADC_EN1) 6 = true /\
    (nth 0 temp 0 <> 0 -> Z.testbit (reg8 (bus o) AXP20X_ADC_EN1) 0 = true).
Proof.
  intros Hq o.
  destruct ((capa =? 0) && negb (truthy (Z.land reg AXP20X_PWR_OP_BATT_PRESENT)))
    eqn:Hc;
    destruct (of_find_property np "ocv") eqn:Hfind.
  all: eassert (HD : bus o = _)
    by (unfold o, axp20x_battery_config_apply; cbv zeta; rewrite Hc, Hfind;
        run_quiet; reflexivity).
  all: eassert (Hv : value o = _)
    by (unfold o, axp20x_battery_config_apply; cbv zeta; rewrite Hc, Hfind;
        run_quiet; reflexivity).
  all: assert (Hn : notifications (trace o) = 0%nat)
    by (unfold o, axp20x_battery_config_apply; cbv zeta; rewrite Hc, Hfind;
        run_quiet;
        try match goal with
            | |- context [ocv_store ?o 0 ?m ?D] =>
                rewrite (proj1 (proj2 (ocv_store_quiet o m 0 D ltac:(quiet_side))))
            end;
        try match goal with
            | |- context [axp20x_battery_config_sensor ?p ?t ?D] =>
                rewrite (proj1 (proj2 (config_sensor_quiet p t D ltac:(quiet_side))))
            end;
        reflexivity).
  all: rewrite HD, Hv; clear HD Hv; clearbody o.
  all: try match goal with
       | |- context [ocv_store ?o 0 ?m ?D] =>
           let Hf := fresh "HfO" in
           let Hfr := fresh "HfrO" in
           let Hst := fresh "HstO" in
           destruct (ocv_store_quiet o m 0 D ltac:(quiet_side)) as (Hf & _ & Hfr & Hst);
           cbv zeta in Hf, Hfr, Hst;
           set (DO := bus (ocv_store o 0 m D)) in *
       end.
  all: try match goal with
       | |- context [axp20x_battery_config_sensor ?p ?t ?D] =>
           let Hf := fresh "HfS" in
           let Hfr := fresh "HfrS" in
           destruct (config_sensor_quiet p t D ltac:(quiet_side)) as (Hf & _ & Hfr);
           cbv zeta in Hf, Hfr;
           set (DS := bus (axp20x_battery_config_sensor p t D)) in *
       end.
  all: split; [quiet_side|]; split; [exact Hn|].
  all: destruct (truthy (nth 0 temp 0)) eqn:Ht.
  all: repeat match goal with |- _ /\ _ => split end.
  all: try (intros Hfalse; discriminate Hfalse).
  all: try reflexivity.
  all: try (intros _ j Hj; peel; apply HstO; lia).
  all: try (peel; apply reg8_updated_byte).
  all: try (peel; rewrite reg8_updated, Z.eqb_refl, land_mask_update by reflexivity;
            reflexivity).
  all: try (peel; bit_step; try reflexivity; peel; bit_step; reflexivity).
  all: intros Hne; unfold truthy in Ht; apply negb_false_iff, Z.eqb_eq in Ht;
    contradiction.
Qed.

(** On a fault-free bus the configuration either rejects the device tree
    or is its second part run after the first register read. *)
Lemma config_quiet n np power ocv0 d :
  faults d = [] ->
  let o := axp20x_battery_config n np power ocv0 d in
  let ocv_read := of_property_read_u32_array np "ocv" n in
  let temp_read := of_property_read_u32_array np "temp_sensor" 3 in
  let a :=
    axp20x_battery_config_apply n np power (reg8 d AXP20X_PWR_OP_MODE)
      (match ocv_read with OfOk out => out | OfErr _ => ocv0 end)
      (match of_property_read_u32_array np "resistance" 1 with
       | OfOk out => nth 0 out 0 | OfErr _ => 100 end)
      (match of_property_read_u32_array np "capacity" 1 with
       | OfOk out => nth 0 out 0 | OfErr _ => 0 end)
      (match temp_read with OfOk out => out | OfErr _ => [0; 0; 0] end) (tick d) in
  fst (value o) = neg EINVAL \/
  (match ocv_read with
   | OfOk out => forall j, (j < n)%nat -> nth j out 0 <= 100
   | OfErr _ => True
   end /\
   match temp_read with
   | OfOk out => In (nth 0 out 0) [20; 40; 60; 80]
   | OfErr _ => True
   end /\
   value o = value a /\ bus o = bus a /\
   notifications (trace o) = notifications (trace a)).
Proof.
  intros Hq. cbv zeta. unfold axp20x_battery_config. cbv zeta.
  rewrite value_bind, bus_bind, notifications_bind.
  unfold regmap_read. rewrite (next_fault_quiet d Hq).
  cbn [value bus trace].
  destruct (of_property_read_u32_array np "ocv" n) as [ocv|e] eqn:Hocv.
  - destruct (ocv_check ocv 0 n) as [j|] eqn:Hchk.
    { left. rewrite value_bind. reflexivity. }
    pose proof (ocv_check_none ocv n 0 Hchk) as Hle.
    destruct (of_property_read_u32_array np "temp_sensor" 3) as [temp|e] eqn:Hts.
    + destruct (ts_current_invalid (nth 0 temp 0)) eqn:Hinv.
      { left. rewrite value_bind. reflexivity. }
      apply ts_current_invalid_spec in Hinv. right.
      rewrite value_bind, bus_bind, notifications_bind. cbn [dev_dbg emit value bus trace].
      split; [intros j Hj; apply Hle; lia|]. split; [exact Hinv|]. auto.
    + right. rewrite value_bind, bus_bind, notifications_bind.
      cbn [dev_dbg emit value bus trace].
      split; [intros j Hj; apply Hle; lia|]. auto.
  - destruct (of_property_read_u32_array np "temp_sensor" 3) as [temp|e'] eqn:Hts.
    + destruct (ts_current_invalid (nth 0 temp 0)) eqn:Hinv.
      { left. rewrite value_bind. reflexivity. }
      apply ts_current_invalid_spec in Hinv. right.
      rewrite value_bind, bus_bind, notifications_bind. cbn [dev_dbg emit value bus trace].
      auto.
    + right. rewrite value_bind, bus_bind, notifications_bind.
      cbn [dev_dbg emit value bus trace]. auto.
Qed.
(** X26.  No battery: with no design capacity in the device tree (or 0) and
    the battery-present bit clear, a configuration on a fault-free bus that
    does not reject the device tree returns -ENODEV with the charger and the
    battery monitor switched off and the gauge enabled; the driver state has
    only its health reset, and nobody is notified. *)
Theorem battery_config_no_battery n np power ocv0 d :
  faults d = [] ->
  Z.testbit (reg8 d AXP20X_PWR_OP_MODE) 5 = false ->
  match of_property_read_u32_array np "capacity" 1 with
  | OfOk out => nth 0 out 0 = 0
  | OfErr _ => True
  end ->
  let o := axp20x_battery_config n np power ocv0 d in
  fst (value o) = neg EINVAL \/
  (value o = (neg ENODEV, set_health power POWER_SUPPLY_HEALTH_UNKNOWN) /\
   Z.testbit (reg8 (bus o) AXP20X_CHRG_CTRL1) 7 = false /\
   Z.testbit (reg8 (bus o) AXP20X_OFF_CTRL) 6 = false /\
   Z.testbit (reg8 (bus o) AXP20X_FG_RES) 7 = true /\
   notifications (trace o) = 0%nat).
Proof.
  intros Hq Hbit Hcapa o.
  destruct (config_quiet n np power ocv0 d Hq) as [Hrej | (_ & _ & Hv & Hb & Hn)];
    [left; exact Hrej | right].
  cbv zeta in Hv, Hb, Hn. fold o in Hv, Hb, Hn. rewrite Hv, Hb, Hn.
  match goal with
  | |- context [axp20x_battery_config_apply n np power ?reg ?ocv ?rdc ?capa ?temp ?D] =>
      pose proof (config_apply_quiet n np power reg ocv rdc capa temp D
                    ltac:(apply faults_tick, Hq)) as Hap;
      cbv zeta in Hap;
      assert (Hc : (capa =? 0) && negb (truthy (Z.land reg AXP20X_PWR_OP_BATT_PRESENT))
                   = true)
  end.
  { apply andb_true_intro. split.
    - apply Z.eqb_eq.
      destruct (of_property_read_u32_array np "capacity" 1); [exact Hcapa | reflexivity].
    - apply negb_true_iff.
      change AXP20X_PWR_OP_BATT_PRESENT with (Z.shiftl 1 5).
      rewrite truthy_bit by lia. exact Hbit. }
  rewrite Hc in Hap.
  destruct Hap as (_ & Hn' & _ & _ & _ & _ & Hval & H1 & H2 & H3).
  auto.
Qed.

Lemma battery_config_no_battery_witness :
  value (axp20x_battery_config 16 np_empty power_ts [] bus_vbus) =
  (neg ENODEV, set_health power_ts POWER_SUPPLY_HEALTH_UNKNOWN).
Proof.
  destruct (battery_config_no_battery 16 np_empty power_ts [] bus_vbus eq_refl eq_refl I)
    as [H | H].
  - vm_compute in H. discriminate H.
  - exact (proj1 H).
Defined.

(** X27.  After a successful configuration on a fault-free bus the design
    voltage properties read 4150000 uV and 3304000 uV, battery voltage and
    current measurement and the battery monitor are on, bit 7 of the gauge
    register is clear, and the call notified nobody. *)
Theorem battery_config_design_voltages n np power ocv0 v0 d :
  faults d = [] ->
  let o := axp20x_battery_config n np power ocv0 d in
  fst (value o) = 0 ->
  let get psp := value (axp20x_battery_power_get_property (snd (value o)) psp v0 (bus o)) in
  get POWER_SUPPLY_PROP_VOLTAGE_MAX_DESIGN = (0, 4150000) /\
  get POWER_SUPPLY_PROP_VOLTAGE_MIN_DESIGN = (0, 3304000) /\
  Z.testbit (reg8 (bus o) AXP20X_ADC_EN1) 7 = true /\
  Z.testbit (reg8 (bus o) AXP20X_ADC_EN1) 6 = true /\
  Z.testbit (reg8 (bus o) AXP20X_OFF_CTRL) 6 = true /\
  Z.testbit (reg8 (bus o) AXP20X_FG_RES) 7 = false /\
  notifications (trace o) = 0%nat.
Proof.
  intros Hq o Hok get.
  destruct (config_quiet n np power ocv0 d Hq) as [Hrej | (_ & _ & Hv & Hb & Hn)].
  { fold o in Hrej. rewrite Hok in Hrej. discriminate Hrej. }
  cbv zeta in Hv, Hb, Hn. fold o in Hv, Hb, Hn.
  unfold get. rewrite Hn, Hb. rewrite Hv in Hok.
  match goal with
  | |- context [axp20x_battery_config_apply n np power ?reg ?ocv ?rdc ?capa ?temp ?D] =>
      pose proof (config_apply_quiet n np power reg ocv rdc capa temp D
                    ltac:(apply faults_tick, Hq)) as Hap;
      cbv zeta in Hap;
      set (a := axp20x_battery_config_apply n np power reg ocv rdc capa temp D) in *;
      destruct ((capa =? 0) && negb (truthy (Z.land reg AXP20X_PWR_OP_BATT_PRESENT)))
  end.
  { destruct Hap as (_ & _ & _ & _ & _ & _ & Hval & _). rewrite Hval in Hok.
    discriminate Hok. }
  destruct Hap as (Hf & Hn' & _ & _ & _ & _ & _ & Hvolt & _ & Hl2 & Hfg & Hoff & Ha7 & Ha6 & _).
  split.
  { rewrite get_voltage_max_design by (apply next_fault_quiet, Hf). cbv zeta.
    rewrite Hvolt. reflexivity. }
  split.
  { unfold axp20x_battery_power_get_property, bind, regmap_read.
    rewrite (next_fault_quiet _ Hf). cbn [ret value]. rewrite Hl2. reflexivity. }
  auto 10.
Qed.

Lemma battery_config_design_voltages_witness :
  value (axp20x_battery_power_get_property
           (snd (value (axp20x_battery_config 16 np_battery power_ts [] bus_low_voltage)))
           POWER_SUPPLY_PROP_VOLTAGE_MAX_DESIGN 0
           (bus (axp20x_battery_config 16 np_battery power_ts [] bus_low_voltage))) =
  (0, 4150000).
Proof.
  refine (proj1 (battery_config_design_voltages 16 np_battery power_ts [] 0
                   bus_low_voltage eq_refl _)).
  vm_compute; reflexivity.
Defined.

Lemma rdc_reg_rounds rdc :
  0 <= rdc <= 429496 ->
  rdc_reg rdc * 10742 - 5371 <= rdc * 10000 < rdc_reg rdc * 10742 + 5371.
Proof.
  intros H. unfold rdc_reg. rewrite u32_small by lia.
  pose proof (Z.quot_rem' (rdc * 10000 + 5371) 10742) as E.
  pose proof (Z.rem_bound_pos (rdc * 10000 + 5371) 10742 ltac:(lia) ltac:(lia)).
  lia.
Qed.

(** X28.  After a successful configuration on a fault-free bus the gauge
    holds the calibration of the device tree: the resistance registers hold
    (rdc * 10000 + 5371) / 10742, low byte and five high bits, with bit 7 of
    the high register clear; up to 8799 mOhm that is the whole value, and it
    is the multiple of 1.0742 mOhm nearest to the resistance (100 mOhm
    when the device tree has none).  Each entry of a readable curve is in its
    register and is at most 100. *)
Theorem battery_config_calibration n np power ocv0 d :
  faults d = [] ->
  let o := axp20x_battery_config n np power ocv0 d in
  fst (value o) = 0 ->
  let rdc := match of_property_read_u32_array np "resistance" 1 with
             | OfOk out => nth 0 out 0
             | OfErr _ => 100
             end in
  let lo := reg8 (bus o) AXP20X_RDC_L in
  let hi := reg8 (bus o) AXP20X_RDC_H in
  lo = Z.land (rdc_reg rdc) 255 /\
  Z.land hi 0x1f = Z.land (Z.shiftr (rdc_reg rdc) 8) 0x1f /\
  Z.testbit hi 7 = false /\
  (rdc <= 8799 ->
   lo + 256 * Z.land hi 0x1f = rdc_reg rdc /\
   rdc_reg rdc * 10742 - 5371 <= rdc * 10000 < rdc_reg rdc * 10742 + 5371) /\
  match of_property_read_u32_array np "ocv" n with
  | OfOk out =>
      forall j, (j < n)%nat ->
        reg8 (bus o) (AXP20X_OCV (Z.of_nat j)) = nth j out 0 /\ 0 <= nth j out 0 <= 100
  | OfErr _ => True
  end.
Proof.
  intros Hq o Hok rdc lo hi.
  assert (Hrdc : 0 <= rdc < 4294967296).
  { unfold rdc. destruct (of_property_read_u32_array np "resistance" 1) eqn:E; [|lia].
    apply (of_read_nth_range _ _ _ _ 0%nat E). }
  destruct (config_quiet n np power ocv0 d Hq) as [Hrej | (Hocv & _ & Hv & Hb & _)].
  { fold o in Hrej. rewrite Hok in Hrej. discriminate Hrej. }
  cbv zeta in Hv, Hb, Hocv. fold o in Hv, Hb. fold rdc in Hv, Hb.
  unfold lo, hi. rewrite Hb. rewrite Hv in Hok. clear lo hi.
  match type of Hok with
  | context [axp20x_battery_config_apply n np power ?reg ?ocv rdc ?capa ?temp ?D] =>
      pose proof (config_apply_quiet n np power reg ocv rdc capa temp D
                    ltac:(apply faults_tick, Hq)) as Hap;
      cbv zeta in Hap;
      set (a := axp20x_battery_config_apply n np power reg ocv rdc capa temp D) in *
  end.
  destruct Hap as (_ & _ & Hcurve & Hlo & Hhi & Hb7 & _).
  split; [exact Hlo|]. split; [exact Hhi|]. split; [exact Hb7|]. split.
  - intros Hsmall. split; [|apply rdc_reg_rounds; lia].
    rewrite Hlo, Hhi.
    assert (HR : 0 <= rdc_reg rdc < 8192).
    { unfold rdc_reg. rewrite u32_small by lia.
      pose proof (Z.quot_rem' (rdc * 10000 + 5371) 10742) as E.
      pose proof (Z.rem_bound_pos (rdc * 10000 + 5371) 10742 ltac:(lia) ltac:(lia)).
      lia. }
    change 255 with (Z.ones 8). change 31 with (Z.ones 5).
    rewrite !Z.land_ones, Z.shiftr_div_pow2 by lia.
    change (2 ^ 8) with 256. change (2 ^ 5) with 32.
    rewrite (Z.mod_small (rdc_reg rdc / 256) 32)
      by (split; [apply Z.div_pos; lia | apply Z.div_lt_upper_bound; lia]).
    pose proof (Z.div_mod (rdc_reg rdc) 256 ltac:(lia)). lia.
  - destruct (of_property_read_u32_array np "ocv" n) as [out|e] eqn:Hread; [|exact I].
    intros j Hj.
    pose proof (of_read_nth_range _ _ _ _ j Hread) as Hr.
    specialize (Hocv j Hj).
    split; [|lia].
    rewrite (Hcurve (of_read_found _ _ _ _ Hread) j Hj).
    change 255 with (Z.ones 8). rewrite Z.land_ones by lia.
    apply Z.mod_small. lia.
Qed.

Lemma battery_config_calibration_witness :
  reg8 (bus (axp20x_battery_config 16 np_battery power_ts [] bus_low_voltage)) AXP20X_RDC_L
  = Z.land (rdc_reg 120) 255.
Proof.
  refine (proj1 (battery_config_calibration 16 np_battery power_ts [] bus_low_voltage
                   eq_refl _)).
  vm_compute; reflexivity.
Defined.

(** X29.  A curve in the device tree that is shorter than the hardware's is
    not read and so not checked, but the property exists, so the second loop
    runs: after a configuration on a fault-free bus that does not reject the
    device tree, the curve registers hold whatever the uninitialised array
    held, entries above 100 included. *)
Theorem battery_config_short_curve n np power ocv0 cells d :
  faults d = [] ->
  np !! "ocv"%string = Some cells ->
  (length cells < n)%nat ->
  let o := axp20x_battery_config n np power ocv0 d in
  fst (value o) = neg EINVAL \/
  forall j, (j < n)%nat ->
    reg8 (bus o) (AXP20X_OCV (Z.of_nat j)) = Z.land (nth j ocv0 0) 255.
Proof.
  intros Hq Hnp Hlen o.
  destruct (config_quiet n np power ocv0 d Hq) as [Hrej | (_ & _ & _ & Hb & _)];
    [left; exact Hrej | right].
  cbv zeta in Hb. fold o in Hb. rewrite Hb.
  assert (Hread : of_property_read_u32_array np "ocv" n = OfErr (- EOVERFLOW)).
  { unfold of_property_read_u32_array. rewrite Hnp.
    destruct (Nat.ltb_spec (length cells) n); [reflexivity | lia]. }
  assert (Hfind : of_find_property np "ocv" = true)
    by (unfold of_find_property; rewrite Hnp; reflexivity).
  rewrite Hread.
  match goal with
  | |- context [axp20x_battery_config_apply n np power ?reg ocv0 ?rdc ?capa ?temp ?D] =>
      pose proof (config_apply_quiet n np power reg ocv0 rdc capa temp D
                    ltac:(apply faults_tick, Hq)) as Hap;
      cbv zeta in Hap
  end.
  destruct Hap as (_ & _ & Hcurve & _).
  exact (Hcurve Hfind).
Qed.

Lemma battery_config_short_curve_witness :
  reg8 (bus (axp20x_battery_config 4 np_short_curve power_ts [7; 7; 7; 200]
               bus_low_voltage)) (AXP20X_OCV 3) = 200.
Proof.
  destruct (battery_config_short_curve 4 np_short_curve power_ts [7; 7; 7; 200] [0; 50]
              bus_low_voltage eq_refl) as [H | H].
  - vm_compute; reflexivity.
  - cbn; lia.
  - vm_compute in H. discriminate H.
  - exact (H 3%nat ltac:(lia)).
Defined.
(** ** The property tables *)

(** X30.  The property tables agree with the accessors: on a fault-free bus
    reading a property succeeds exactly when the property is in the
    driver's array; the descriptor that probe registers leaves out the three
    temperature properties and nothing else; and every property declared
    writeable is in the registered descriptor. *)
Theorem advertised_properties_served power psp v0 d :
  faults d = [] ->
  (fst (value (axp20x_battery_power_get_property power psp v0 d)) = 0 <->
   In psp axp20x_battery_ts_power_desc) /\
  (In psp axp20x_battery_power_desc <->
   In psp axp20x_battery_ts_power_desc /\
   ~ In psp [POWER_SUPPLY_PROP_TEMP; POWER_SUPPLY_PROP_TEMP_ALERT_MIN;
             POWER_SUPPLY_PROP_TEMP_ALERT_MAX]) /\
  (axp20x_battery_power_property_writeable psp = true ->
   In psp axp20x_battery_power_desc).
Proof.
  intros Hq. split; [|split].
  - destruct (axp20x_battery_power_get_property power psp v0 d) as [[r v] d' tr] eqn:Hrun.
    cbn [value fst].
    assert (Hr : match psp with
                 | POWER_SUPPLY_PROP_POWER_NOW | POWER_SUPPLY_PROP_CHARGE_NOW =>
                     r = neg EINVAL
                 | _ => r = 0
                 end).
    { destruct psp; unfold axp20x_battery_power_get_property in Hrun;
        inv_quiet Hrun; simplify_eq; try reflexivity.
      all: bool_hyps;
        match goal with
        | H : raw12 (reg8 ?a ?r1) (reg8 ?b ?r2) < 0 |- _ =>
            pose proof (raw12_reg8_range a b r1 r2); lia
        end. }
    destruct psp; subst r; cbn; split; intros H; try discriminate H;
      intuition discriminate.
  - destruct psp; cbn; intuition discriminate.
  - destruct psp; cbn; intros H; try discriminate H; tauto.
Qed.

Lemma advertised_properties_served_witness :
  In POWER_SUPPLY_PROP_STATUS axp20x_battery_power_desc.
Proof.
  exact (proj2 (proj2 (advertised_properties_served power_ts POWER_SUPPLY_PROP_STATUS 0
                         bus_vbus eq_refl)) eq_refl).
Defined.
